(** * exutil: cell search, string similarity and range extraction

    A shallow embedding of [exutil.py] and of the parts of the Python
    libraries it calls ([decimal], [difflib], [numpy.round], the [openpyxl]
    worksheet), followed by the properties of the functions
    [count_significant_digits], [is_similar], [search_excl_val] and
    [get_excl_sheet_vals].

    Conventions of the embedding:
    - a Python call returns a [result]: [Ok v] or [Raise e];
    - Python [float] is the kernel's binary64 ([PrimFloat.float]); the text
      that [str] gives for a float is a parameter, [float_repr];
    - Python [str] is [string]; the embedding is exact on ASCII text;
    - cell values are the kinds of the data model: empty, text, integer,
      floating point, date, datetime and time of day. *)

From Stdlib Require Import ZArith List String Ascii Bool Lia.
From Stdlib Require Import PrimFloat Uint63 FloatOps SpecFloat.
From Stdlib Require Import DecimalString DecimalPos.
From Stdlib Require DecimalFacts.
From Stdlib Require Import Sorted Permutation.
Import ListNotations.

#[local] Set Warnings "-inexact-float".

Local Open Scope string_scope.
Local Open Scope Z_scope.

(** ** Python results and exceptions *)

Inductive PyExc : Type :=
| TypeError
| ValueError
| IndexError
| UnboundLocalError
| CellCoordinatesException
| DecimalOverflow.

Inductive result (A : Type) : Type :=
| Ok (a : A)
| Raise (e : PyExc).

Arguments Ok {A} a.
Arguments Raise {A} e.

Definition bind {A B : Type} (r : result A) (k : A -> result B) : result B :=
  match r with
  | Ok a => k a
  | Raise e => Raise e
  end.

Notation "'do' x <- r ; k" := (bind r (fun x => k))
  (at level 10, x name, r at level 100, k at level 200).

(** ** Text helpers: the [str] methods the source uses *)

Module Str.

Definition is_digit (c : ascii) : bool :=
  ((48 <=? nat_of_ascii c) && (nat_of_ascii c <=? 57))%nat.

(** [str.isspace] on ASCII: tab, line feed, vertical tab, form feed,
    carriage return, the four separators 28-31 and the blank. *)
Definition is_space (c : ascii) : bool :=
  let n := nat_of_ascii c in
  (((9 <=? n) && (n <=? 13)) || ((28 <=? n) && (n <=? 32)))%nat.

Definition is_empty (s : string) : bool :=
  match s with
  | EmptyString => true
  | String _ _ => false
  end.

Definition len (s : string) : Z := Z.of_nat (String.length s).

Fixpoint lstrip_by (p : ascii -> bool) (s : string) : string :=
  match s with
  | EmptyString => EmptyString
  | String c r => if p c then lstrip_by p r else s
  end.

Fixpoint rstrip_by (p : ascii -> bool) (s : string) : string :=
  match s with
  | EmptyString => EmptyString
  | String c r =>
      let r' := rstrip_by p r in
      if is_empty r' && p c then EmptyString else String c r'
  end.

(** [s.strip()] *)
Definition strip (s : string) : string :=
  rstrip_by is_space (lstrip_by is_space s).

(** [s.rstrip(c)] for a single character [c] *)
Definition rstrip_char (c : ascii) (s : string) : string :=
  rstrip_by (Ascii.eqb c) s.

(** [s.replace(c, '')] for a single character [c] *)
Fixpoint remove_char (c : ascii) (s : string) : string :=
  match s with
  | EmptyString => EmptyString
  | String d r =>
      if Ascii.eqb c d then remove_char c r else String d (remove_char c r)
  end.

(** [c in s] for a single character [c] *)
Fixpoint contains_char (c : ascii) (s : string) : bool :=
  match s with
  | EmptyString => false
  | String d r => Ascii.eqb c d || contains_char c r
  end.

(** [s.endswith(c)] for a single character [c] *)
Fixpoint endswith_char (c : ascii) (s : string) : bool :=
  match s with
  | EmptyString => false
  | String d EmptyString => Ascii.eqb c d
  | String _ r => endswith_char c r
  end.

Fixpoint drop_last (s : string) : string :=
  match s with
  | EmptyString => EmptyString
  | String _ EmptyString => EmptyString
  | String c r => String c (drop_last r)
  end.

Fixpoint replicate (n : nat) (c : ascii) : string :=
  match n with
  | O => EmptyString
  | S k => String c (replicate k c)
  end.

Definition take (n : Z) (s : string) : string :=
  String.substring 0 (Z.to_nat n) s.

Definition drop (n : Z) (s : string) : string :=
  String.substring (Z.to_nat n) (String.length s - Z.to_nat n) s.

Fixpoint span_digits (s : string) : string * string :=
  match s with
  | EmptyString => (EmptyString, EmptyString)
  | String c r =>
      if is_digit c
      then let '(ds, rest) := span_digits r in (String c ds, rest)
      else (EmptyString, s)
  end.

(** The decimal text of an integer: what [str(z)] returns when it
    returns. *)
Definition of_Z (z : Z) : string := NilZero.string_of_int (Z.to_int z).

(** [sys.get_int_max_str_digits()], by default: [str] of an integer of
    more digits and [int] of a text of more digits raise [ValueError]. *)
Definition int_max_str_digits : Z := 4300.

(** The value of a string of decimal digits: what [int(s)] returns when
    it returns. *)
Definition digits_to_Z (s : string) : Z :=
  fold_left
    (fun acc c => 10 * acc + (Z.of_nat (nat_of_ascii c) - 48))
    (list_ascii_of_string s) 0.

(** [str(z).zfill(w)] for a non-negative [z]: the ["%0wd"] format *)
Definition zfill (w : nat) (z : Z) : string :=
  let s := of_Z z in
  replicate (w - String.length s) "0"%char ++ s.

End Str.

(** ** Values *)

Record date : Type := mk_date { year : Z; month : Z; day : Z }.

Record time : Type :=
  mk_time { hour : Z; minute : Z; second : Z; microsecond : Z }.

Record datetime : Type := mk_datetime { dt_date : date; dt_time : time }.

(** What a cell holds, and what a scalar argument can be. *)
Inductive PyVal : Type :=
| VNone
| VStr (s : string)
| VInt (z : Z)
| VFloat (f : float)
| VDate (d : date)
| VDatetime (d : datetime)
| VTime (t : time).

(** An argument that may also be a list or a tuple of scalars. *)
Inductive PyObj : Type :=
| Scalar (v : PyVal)
| PyList (l : list PyVal)
| PyTuple (l : list PyVal).

Inductive PyType : Type :=
| TNoneType | Tstr | Tint | Tfloat | Tdate | Tdatetime | Ttime.

(** [type(v)] *)
Definition type_of (v : PyVal) : PyType :=
  match v with
  | VNone => TNoneType
  | VStr _ => Tstr
  | VInt _ => Tint
  | VFloat _ => Tfloat
  | VDate _ => Tdate
  | VDatetime _ => Tdatetime
  | VTime _ => Ttime
  end.

Definition PyType_eqb (a b : PyType) : bool :=
  match a, b with
  | TNoneType, TNoneType | Tstr, Tstr | Tint, Tint | Tfloat, Tfloat
  | Tdate, Tdate | Tdatetime, Tdatetime | Ttime, Ttime => true
  | _, _ => false
  end.

(** [issubclass(a, b)]: [datetime.datetime] derives from [datetime.date]. *)
Definition issubclass (a b : PyType) : bool :=
  match a, b with
  | Tdatetime, Tdate => true
  | _, _ => PyType_eqb a b
  end.

(** [isinstance(v, t)] *)
Definition isinstance (v : PyVal) (t : PyType) : bool :=
  issubclass (type_of v) t.

(** [isinstance(v, numbers.Number)] *)
Definition is_Number (v : PyVal) : bool :=
  match v with
  | VInt _ | VFloat _ => true
  | _ => false
  end.

Definition date_eqb (a b : date) : bool :=
  (year a =? year b) && (month a =? month b) && (day a =? day b).

Definition time_eqb (a b : time) : bool :=
  (hour a =? hour b) && (minute a =? minute b) && (second a =? second b)
  && (microsecond a =? microsecond b).

Definition datetime_eqb (a b : datetime) : bool :=
  date_eqb (dt_date a) (dt_date b) && time_eqb (dt_time a) (dt_time b).

(** The float nearest to an integer, ties to even: the conversion of an
    integer to binary64. *)
Definition float_of_Z (z : Z) : float :=
  SF2Prim (binary_normalize FloatOps.prec FloatOps.emax z 0 false).

(** [f == z] for a float and an integer: Python compares the two values
    as they are, without converting the integer. *)
Definition float_eq_Z (f : float) (z : Z) : bool :=
  match Prim2SF f with
  | S754_zero _ => z =? 0
  | S754_finite s m e =>
      let mz := if s then Z.neg m else Z.pos m in
      if 0 <=? e then z =? mz * 2 ^ e
      else (mz mod 2 ^ (- e) =? 0) && (z =? mz / 2 ^ (- e))
  | _ => false
  end.

(** [a == b].  A datetime never equals a plain date; values of unrelated
    kinds are unequal. *)
Definition py_eq (a b : PyVal) : bool :=
  match a, b with
  | VNone, VNone => true
  | VStr x, VStr y => String.eqb x y
  | VInt x, VInt y => x =? y
  | VFloat x, VFloat y => PrimFloat.eqb x y
  | VInt x, VFloat y => float_eq_Z y x
  | VFloat x, VInt y => float_eq_Z x y
  | VDate x, VDate y => date_eqb x y
  | VDatetime x, VDatetime y => datetime_eqb x y
  | VTime x, VTime y => time_eqb x y
  | _, _ => false
  end.

(** Truth value of a scalar: [not v] is its negation. *)
Definition truthy (v : PyVal) : bool :=
  match v with
  | VNone => false
  | VStr s => negb (Str.is_empty s)
  | VInt z => negb (z =? 0)
  | VFloat f => negb (PrimFloat.eqb f 0%float)
  | VDate _ | VDatetime _ | VTime _ => true
  end.

Definition date_isoformat (d : date) : string :=
  Str.zfill 4 (year d) ++ "-" ++ Str.zfill 2 (month d) ++ "-"
  ++ Str.zfill 2 (day d).

Definition time_isoformat (t : time) : string :=
  Str.zfill 2 (hour t) ++ ":" ++ Str.zfill 2 (minute t) ++ ":"
  ++ Str.zfill 2 (second t)
  ++ (if microsecond t =? 0 then "" else "." ++ Str.zfill 6 (microsecond t)).

(** ** [decimal.Decimal] on finite numbers, default context *)

Module Dec.

(** [_sign], [_int] (the coefficient's digits) and [_exp]. *)
Record Decimal : Type :=
  mk { d_sign : bool; d_int : string; d_exp : Z }.

Definition prec : Z := 28.
Definition Emax : Z := 999999.
Definition Emin : Z := -999999.
Definition Etiny : Z := Emin - prec + 1.
Definition Etop : Z := Emax - prec + 1.

Definition take_sign (s : string) : bool * string :=
  match s with
  | String "-" r => (true, r)
  | String "+" r => (false, r)
  | _ => (false, s)
  end.

Definition is_E (c : ascii) : bool :=
  Ascii.eqb c "e" || Ascii.eqb c "E".

(** The exponent part: empty, or [E], an optional sign and digits. *)
Definition parse_exp (s : string) : option Z :=
  match s with
  | EmptyString => Some 0
  | String c r =>
      if is_E c then
        let '(neg, r1) := take_sign r in
        let '(ds, r2) := Str.span_digits r1 in
        if negb (Str.is_empty ds) && Str.is_empty r2
        then Some (if neg then - Str.digits_to_Z ds else Str.digits_to_Z ds)
        else None
      else None
  end.

(** [Decimal(s)] for a finite literal: an optional sign, digits with an
    optional point (one digit at least), an optional exponent; blanks
    around it are dropped.  [None] is a literal outside this grammar. *)
Definition of_string (s : string) : option Decimal :=
  let '(neg, s1) := take_sign (Str.strip s) in
  let '(intpart, s2) := Str.span_digits s1 in
  let '(fracpart, s3) :=
    match s2 with
    | String "." r => Str.span_digits r
    | _ => (EmptyString, s2)
    end in
  if Str.is_empty (intpart ++ fracpart) then None
  else
    match parse_exp s3 with
    | None => None
    | Some e =>
        Some (mk neg (Str.of_Z (Str.digits_to_Z (intpart ++ fracpart)))
                (e - Str.len fracpart))
    end.

Definition is_zero (d : Decimal) : bool := String.eqb (d_int d) "0".

Definition nth_digit (s : string) (n : Z) : ascii :=
  match String.get (Z.to_nat n) s with
  | Some c => c
  | None => "0"%char
  end.

(** [_all_zeros(s, p)]: only zeros from position [p] on. *)
Definition all_zeros (s : string) (p : Z) : bool :=
  Str.is_empty (Str.lstrip_by (Ascii.eqb "0") (Str.drop p s)).

(** [_exact_half(s, p)]: a five, then only zeros, from position [p] on. *)
Definition exact_half (s : string) (p : Z) : bool :=
  match Str.drop p s with
  | String "5" r => Str.is_empty (Str.lstrip_by (Ascii.eqb "0") r)
  | _ => false
  end.

Definition round_half_up (s : string) (p : Z) : Z :=
  if Str.contains_char (nth_digit s p) "56789" then 1
  else if all_zeros s p then 0
  else -1.

Definition round_half_even (s : string) (p : Z) : Z :=
  if exact_half s p
     && ((p =? 0) || Str.contains_char (nth_digit s (p - 1)) "02468")
  then -1
  else round_half_up s p.

(** [_fix]: round to the context's precision and exponent range. *)
Definition fix_ (d : Decimal) : result Decimal :=
  if is_zero d then
    Ok (mk (d_sign d) "0" (Z.min (Z.max (d_exp d) Etiny) Emax))
  else
    let exp_min := Str.len (d_int d) + d_exp d - prec in
    if exp_min >? Etop then Raise DecimalOverflow
    else
      let exp_min := if exp_min <? Etiny then Etiny else exp_min in
      if d_exp d <? exp_min then
        let digits := Str.len (d_int d) + d_exp d - exp_min in
        let '(self_int, digits) :=
          if digits <? 0 then ("1", 0) else (d_int d, digits) in
        let changed := round_half_even self_int digits in
        let coeff :=
          if digits =? 0 then "0" else Str.take digits self_int in
        let '(coeff, exp_min) :=
          if changed >? 0 then
            let c := Str.of_Z (Str.digits_to_Z coeff + 1) in
            if Str.len c >? prec
            then (Str.drop_last c, exp_min + 1)
            else (c, exp_min)
          else (coeff, exp_min) in
        if exp_min >? Etop then Raise DecimalOverflow
        else Ok (mk (d_sign d) coeff exp_min)
      else Ok d.

(** The loop of [normalize]: drop a trailing zero and raise the exponent
    while the last digit is a zero. *)
Fixpoint strip_trailing (fuel : nat) (digits : string) (e : Z)
  : string * Z :=
  match fuel with
  | O => (digits, e)
  | S fuel' =>
      if Str.endswith_char "0" digits && (e <? Emax)
      then strip_trailing fuel' (Str.drop_last digits) (e + 1)
      else (digits, e)
  end.

Definition normalize (d : Decimal) : result Decimal :=
  do dup <- fix_ d;
  if is_zero dup then Ok (mk (d_sign dup) "0" 0)
  else
    let '(digits, e) :=
      strip_trailing (String.length (d_int dup)) (d_int dup) (d_exp dup) in
    Ok (mk (d_sign dup) digits e).

(** ["%+d" % z] *)
Definition signed (z : Z) : string :=
  if z <? 0 then Str.of_Z z else "+" ++ Str.of_Z z.

(** [str(d)]: scientific notation when the exponent is positive or the
    number is below 1e-6. *)
Definition to_string (d : Decimal) : string :=
  let sign := if d_sign d then "-" else "" in
  let leftdigits := d_exp d + Str.len (d_int d) in
  let dotplace :=
    if (d_exp d <=? 0) && (leftdigits >? -6) then leftdigits else 1 in
  let '(intpart, fracpart) :=
    if dotplace <=? 0 then
      ("0", "." ++ Str.replicate (Z.to_nat (- dotplace)) "0" ++ d_int d)
    else if dotplace >=? Str.len (d_int d) then
      (d_int d
         ++ Str.replicate (Z.to_nat (dotplace - Str.len (d_int d))) "0",
       "")
    else (Str.take dotplace (d_int d), "." ++ Str.drop dotplace (d_int d))
  in
  let exp :=
    if leftdigits =? dotplace then ""
    else "E" ++ signed (leftdigits - dotplace) in
  sign ++ intpart ++ fracpart ++ exp.

End Dec.

(** ** [difflib.SequenceMatcher(None, a, b).ratio()] *)

Module Difflib.

Local Open Scope nat_scope.

Definition seq_of (s : string) : list ascii := list_ascii_of_string s.

Fixpoint count (c : ascii) (b : list ascii) : nat :=
  match b with
  | [] => 0
  | d :: b' => (if Ascii.eqb c d then 1 else 0) + count c b'
  end.

(** The automatic junk heuristic of [__chain_b]: in a [b] of 200 elements
    or more, an element with more than [n // 100 + 1] occurrences is
    "popular" and loses its entry of [b2j]. *)
Definition popular (b : list ascii) (c : ascii) : bool :=
  let n := List.length b in
  (200 <=? n) && (n / 100 + 1 <? count c b).

(** A match [(besti, bestj, bestsize)]. *)
Definition Match : Type := nat * nat * nat.

(** The inner loop of [find_longest_match] for one [i]: [j] walks the
    places of [b]; [left] is [j2len.get(j-1, 0)], [old] the rest of
    [j2len] from [j] on.  Gives [newj2len] and the best match so far. *)
Fixpoint row_step (ai : ascii) (i blo bhi : nat) (b : list ascii)
  (j left : nat) (old : list nat) (best : Match) : list nat * Match :=
  match b with
  | [] => ([], best)
  | bj :: b' =>
      let here := hd 0 old in
      if Ascii.eqb ai bj && (blo <=? j) && (j <? bhi) then
        let k := S left in
        let best' :=
          let '(_, _, bestsize) := best in
          if bestsize <? k then (i + 1 - k, j + 1 - k, k) else best in
        let '(row, best'') :=
          row_step ai i blo bhi b' (S j) here (tl old) best' in
        (k :: row, best'')
      else
        let '(row, best'') :=
          row_step ai i blo bhi b' (S j) here (tl old) best in
        (0 :: row, best'')
  end.

(** The outer loop, over [a[alo:ahi]]. *)
Fixpoint rows (b : list ascii) (blo bhi : nat) (a_part : list ascii)
  (i : nat) (j2len : list nat) (best : Match) : Match :=
  match a_part with
  | [] => best
  | ai :: a' =>
      let '(newj2len, best') :=
        if popular b ai then ([], best)
        else row_step ai i blo bhi b 0 0 j2len best in
      rows b blo bhi a' (S i) newj2len best'
  end.

Definition same_at (a b : list ascii) (i j : nat) : bool :=
  match nth_error a i, nth_error b j with
  | Some x, Some y => Ascii.eqb x y
  | _, _ => false
  end.

(** The two loops that extend the best match at each end. *)
Fixpoint extend_left (fuel : nat) (a b : list ascii) (alo blo : nat)
  (m : Match) : Match :=
  let '(besti, bestj, bestsize) := m in
  match fuel with
  | O => m
  | S fuel' =>
      if (alo <? besti) && (blo <? bestj)
         && same_at a b (besti - 1) (bestj - 1)
      then extend_left fuel' a b alo blo
             (besti - 1, bestj - 1, bestsize + 1)
      else m
  end.

Fixpoint extend_right (fuel : nat) (a b : list ascii) (ahi bhi : nat)
  (m : Match) : Match :=
  let '(besti, bestj, bestsize) := m in
  match fuel with
  | O => m
  | S fuel' =>
      if (besti + bestsize <? ahi) && (bestj + bestsize <? bhi)
         && same_at a b (besti + bestsize) (bestj + bestsize)
      then extend_right fuel' a b ahi bhi (besti, bestj, bestsize + 1)
      else m
  end.

(** [find_longest_match(alo, ahi, blo, bhi)] with no junk predicate. *)
Definition find_longest_match (a b : list ascii) (alo ahi blo bhi : nat)
  : Match :=
  let m :=
    rows b blo bhi (firstn (ahi - alo) (skipn alo a)) alo [] (alo, blo, 0)
  in
  let m := extend_left (List.length a) a b alo blo m in
  extend_right (List.length a) a b ahi bhi m.

(** The sum of the sizes of [get_matching_blocks()]: the longest match of
    the range, then the ranges at its left and at its right. *)
Fixpoint matches (fuel : nat) (a b : list ascii) (alo ahi blo bhi : nat)
  : nat :=
  match fuel with
  | O => 0
  | S fuel' =>
      let '(i, j, k) := find_longest_match a b alo ahi blo bhi in
      if k =? 0 then 0
      else
        k
        + (if (alo <? i) && (blo <? j)
           then matches fuel' a b alo i blo j else 0)
        + (if (i + k <? ahi) && (j + k <? bhi)
           then matches fuel' a b (i + k) ahi (j + k) bhi else 0)
  end.

Definition float_of_nat (n : nat) : float := float_of_Z (Z.of_nat n).

(** [_calculate_ratio(matches, len(a) + len(b))] *)
Definition ratio (x y : string) : float :=
  let a := seq_of x in
  let b := seq_of y in
  let m :=
    matches (S (List.length a)) a b 0 (List.length a) 0 (List.length b) in
  let total := List.length a + List.length b in
  if total =? 0 then 1%float
  else (2 * float_of_nat m / float_of_nat total)%float.

End Difflib.

(** ** [numpy.round] and the comparison of its results *)

Module Np.

Local Open Scope float_scope.

(** The scalars that [round] returns: an integer of 64 bits, signed or
    unsigned, or a float. *)
Inductive num : Type :=
| int64 (z : Z)
| uint64 (z : Z)
| float64 (f : float).

Definition is_int64 (z : Z) : bool :=
  ((- 2 ^ 63 <=? z) && (z <? 2 ^ 63))%Z.

Definition is_uint64 (z : Z) : bool := ((0 <=? z) && (z <? 2 ^ 64))%Z.

Definition two52 : float := 4503599627370496.

(** [rint]: the nearest integer, ties to even.  Below 2^52 in absolute
    value, adding and removing 2^52 rounds to an integer in the default
    rounding mode; from 2^52 on every float is an integer. *)
Definition rint (x : float) : float :=
  if PrimFloat.ltb (PrimFloat.abs x) two52 then
    if PrimFloat.ltb x 0 then (x - two52) + two52 else (x + two52) - two52
  else x.

(** [10 ** n] as a float, exact up to [n = 22]. *)
Fixpoint power_of_ten (n : nat) : float :=
  match n with
  | O => 1
  | S k => power_of_ten k * 10
  end.

(** [numpy.round(x, decimals)] for [decimals >= 0].  The value is made
    an array first: an integer becomes an [int64], or a [uint64] when it
    is too large for that, and is returned as it is; a float is scaled,
    rounded by [rint] and scaled back.  An integer beyond 64 bits, and a
    value that is no number, makes an array of objects, which [round]
    refuses with [TypeError]. *)
Definition round (x : PyVal) (decimals : nat) : result num :=
  match x with
  | VInt z =>
      if is_int64 z then Ok (int64 z)
      else if is_uint64 z then Ok (uint64 z)
      else Raise TypeError
  | VFloat f =>
      match decimals with
      | O => Ok (float64 (rint f))
      | _ => Ok (float64 (rint (f * power_of_ten decimals)
                          / power_of_ten decimals))
      end
  | _ => Raise TypeError
  end.

(** [x == y] on numpy scalars: two integers are compared by value, an
    integer and a float after the conversion of the integer. *)
Definition eqb (x y : num) : bool :=
  match x, y with
  | (int64 a | uint64 a), (int64 b | uint64 b) => Z.eqb a b
  | (int64 a | uint64 a), float64 b => PrimFloat.eqb (float_of_Z a) b
  | float64 a, (int64 b | uint64 b) => PrimFloat.eqb a (float_of_Z b)
  | float64 a, float64 b => PrimFloat.eqb a b
  end.

(** The values that [round] takes: the floats and the integers of 64
    bits, from -2^63 to 2^64 - 1. *)
Definition takes (x : PyVal) : bool :=
  match x with
  | VInt z => is_int64 z || is_uint64 z
  | VFloat _ => true
  | _ => false
  end.

(** [round(x, n) == round(y, n)] holds, neither [round] raising. *)
Definition round_eqb (x y : PyVal) (n : nat) : bool :=
  match round x n, round y n with
  | Ok a, Ok b => eqb a b
  | _, _ => false
  end.

End Np.

(** ** The [openpyxl] worksheet *)

Module Openpyxl.

(** A cell of a worksheet: [cell.coordinate] and [cell.value]. *)
Record Cell : Type := mk_cell { coordinate : string; value : PyVal }.

(** A worksheet is the grid of its values, rows first; a place outside
    the grid is an empty cell.  The embedding keeps the sheet as a value:
    that [sheet.cell] creates the cell it is asked for is left out. *)
Definition Worksheet : Type := list (list PyVal).

Definition max_row (ws : Worksheet) : nat := List.length ws.

Definition max_column (ws : Worksheet) : nat :=
  fold_right (fun row m => Nat.max (List.length row) m) O ws.

Definition is_alpha (c : ascii) : bool :=
  let n := nat_of_ascii c in
  (((65 <=? n) && (n <=? 90)) || ((97 <=? n) && (n <=? 122)))%nat.

Fixpoint span_alpha (s : string) : string * string :=
  match s with
  | EmptyString => (EmptyString, EmptyString)
  | String c r =>
      if is_alpha c
      then let '(ls, rest) := span_alpha r in (String c ls, rest)
      else (EmptyString, s)
  end.

Definition skip_dollar (s : string) : string :=
  match s with
  | String "$" r => r
  | _ => s
  end.

(** [coordinate_from_string]: an optional dollar, one to three letters,
    an optional dollar, digits (a line feed may follow); the row is
    [int] of the digits, which raises [ValueError] beyond its limit; no
    row 0. *)
Definition coordinate_from_string (coord_string : string)
  : result (string * Z) :=
  let '(column, s1) := span_alpha (skip_dollar coord_string) in
  let '(row, s2) := Str.span_digits (skip_dollar s1) in
  if (1 <=? Str.len column) && (Str.len column <=? 3)
     && negb (Str.is_empty row)
     && (Str.is_empty s2 || String.eqb s2 (String "010" EmptyString))
  then
    if Str.int_max_str_digits <? Str.len row then Raise ValueError
    else if Str.digits_to_Z row =? 0 then Raise CellCoordinatesException
    else Ok (column, Str.digits_to_Z row)
  else Raise CellCoordinatesException.

(** The place of a letter in the alphabet, either case. *)
Definition letter_value (c : ascii) : Z :=
  let n := Z.of_nat (nat_of_ascii c) in
  if n <? 97 then n - 64 else n - 96.

(** [column_index_from_string]: letters read in base 26 with digits 1 to
    26; the columns are A to ZZZ. *)
Definition column_index_from_string (str_col : string) : result Z :=
  if (1 <=? Str.len str_col) && (Str.len str_col <=? 3)
     && Str.is_empty (snd (span_alpha str_col))
  then
    Ok (fold_left (fun acc c => 26 * acc + letter_value c)
          (list_ascii_of_string str_col) 0)
  else Raise ValueError.

(** [get_column_letter]: the inverse, on positive indices. *)
Fixpoint column_letters (fuel : nat) (idx : Z) (acc : string) : string :=
  match fuel with
  | O => acc
  | S fuel' =>
      if idx <=? 0 then acc
      else
        let r := (idx - 1) mod 26 in
        column_letters fuel' ((idx - 1) / 26)
          (String (ascii_of_nat (Z.to_nat (65 + r))) acc)
  end.

Definition get_column_letter (idx : Z) : string :=
  column_letters (Z.to_nat idx) idx EmptyString.

(** The last row of a worksheet. *)
Definition last_row : Z := 1048576.

(** [sheet.cell(row=r, column=c).value]: a row or a column below 1 is
    refused, and so is a row beyond the last. *)
Definition cell_value (ws : Worksheet) (r c : Z) : result PyVal :=
  if (r <? 1) || (c <? 1) then Raise ValueError
  else if last_row <? r then Raise ValueError
  else Ok (nth (Z.to_nat (c - 1)) (nth (Z.to_nat (r - 1)) ws []) VNone).

Definition cell_at (ws : Worksheet) (r c : nat) : Cell :=
  mk_cell (get_column_letter (Z.of_nat c) ++ Str.of_Z (Z.of_nat r))
    (nth (c - 1) (nth (r - 1) ws []) VNone).

(** [sheet.iter_rows(values_only=False)]: rows 1 to [max_row], each with
    the cells of columns 1 to [max_column]. *)
Definition iter_rows (ws : Worksheet) : list (list Cell) :=
  map (fun r => map (fun c => cell_at ws r c) (seq 1 (max_column ws)))
    (seq 1 (max_row ws)).

End Openpyxl.

Import Openpyxl.

Section Exutil.

(** [str(f)] for a float [f]: Python's shortest round-trip text. *)
Variable float_repr : float -> string.

(** The text of a value: what [str(v)] returns when it returns. *)
Definition py_str (v : PyVal) : string :=
  match v with
  | VNone => "None"
  | VStr s => s
  | VInt z => Str.of_Z z
  | VFloat f => float_repr f
  | VDate d => date_isoformat d
  | VDatetime d =>
      date_isoformat (dt_date d) ++ " " ++ time_isoformat (dt_time d)
  | VTime t => time_isoformat t
  end.

(** The values that [str] writes: all but the integers of more digits
    than the limit. *)
Definition printable (v : PyVal) : bool :=
  match v with
  | VInt z => Str.len (Str.of_Z (Z.abs z)) <=? Str.int_max_str_digits
  | _ => true
  end.

(** [str(v)] *)
Definition str_ (v : PyVal) : result string :=
  if printable v then Ok (py_str v) else Raise ValueError.

(** *** [count_significant_digits] *)

Definition count_significant_digits (number : PyVal) : result nat :=
  do number_str <-
    match number with
    | VStr s => Ok s
    | _ => str_ number
    end;
  match Dec.of_string number_str with
  | None => Raise ValueError
  | Some d =>
      do n <- Dec.normalize d;
      let normalized_str := Dec.to_string n in
      if Str.contains_char "." number_str
         && negb (Str.endswith_char "0" normalized_str)
         && Str.endswith_char "0" number_str
      then
        let trailing_zeros :=
          (String.length number_str
           - String.length (Str.rstrip_char "0" number_str))%nat in
        Ok (String.length (Str.remove_char "." normalized_str)
            + trailing_zeros)%nat
      else
        Ok (String.length
              (Str.remove_char "-" (Str.remove_char "." normalized_str)))
  end.



(** *** [exc_coord_to_rc] *)

Definition exc_coord_to_rc (cell_Coord : PyVal) : result (Z * Z) :=
  if negb (truthy cell_Coord) then Raise ValueError
  else
    match cell_Coord with
    | VStr s =>
        do cr <- coordinate_from_string s;
        do col <- column_index_from_string (fst cr);
        Ok (snd cr, col)
    | _ => Raise TypeError
    end.

(** *** [is_similar] *)

Inductive SimResult : Type :=
| SimBool (b : bool)
| SimPair (test : string) (similarity : float)
| SimNonePair
| SimArrays (valid_str_list : list string) (valid_str_score : list float).

(** The loop of the second case: the strings that pass and their
    scores, in the order met. *)
Fixpoint similar_loop (target : string) (threshold : float)
  (test : list string) (valid_str_list : list string)
  (valid_str_score : list float) : list string * list float :=
  match test with
  | [] => (valid_str_list, valid_str_score)
  | s_i :: rest =>
      let similarity := Difflib.ratio target s_i in
      if PrimFloat.leb threshold similarity
      then similar_loop target threshold rest
             (valid_str_list ++ [s_i]) (valid_str_score ++ [similarity])
      else similar_loop target threshold rest valid_str_list valid_str_score
  end.

Definition is_similar_str (target test : string) (threshold : float)
  (return_similarrity_score : bool) : SimResult :=
  let similarity := Difflib.ratio target test in
  if return_similarrity_score then
    if PrimFloat.leb threshold similarity
    then SimPair test similarity else SimNonePair
  else SimBool (PrimFloat.leb threshold similarity).

(** [[str(ti).strip() for ti in test]] *)
Fixpoint stripped_strs (test : list PyVal) : result (list string) :=
  match test with
  | [] => Ok []
  | ti :: rest =>
      do s <- str_ ti;
      do ss <- stripped_strs rest;
      Ok (Str.strip s :: ss)
  end.

Definition is_similar (target : PyVal) (test : PyObj) (threshold : float)
  (return_similarrity_score : bool) : result SimResult :=
  match
    match target with
    | VStr s => Ok s
    | _ => str_ target
    end
  with
  | Raise _ => Raise TypeError
  | Ok target =>
      let target := Str.strip target in
      match test with
      | PyList l =>
          do test <- stripped_strs l;
          if return_similarrity_score then
            let '(valid_str_list, valid_str_score) :=
              similar_loop target threshold test [] [] in
            match valid_str_list with
            | [] => Ok SimNonePair
            | _ :: _ => Ok (SimArrays valid_str_list valid_str_score)
            end
          else
            Ok (SimBool
                  (existsb
                     (fun s =>
                        PrimFloat.leb threshold (Difflib.ratio target s))
                     test))
      | Scalar (VStr s) =>
          Ok (is_similar_str target (Str.strip s) threshold
                return_similarrity_score)
      | Scalar (VInt z) =>
          do s <- str_ (VInt z);
          Ok (is_similar_str target (Str.strip s) threshold
                return_similarrity_score)
      | Scalar (VFloat f) =>
          do s <- str_ (VFloat f);
          Ok (is_similar_str target (Str.strip s) threshold
                return_similarrity_score)
      | _ => Raise TypeError
      end
  end.

(** Truth value of what [is_similar] returns: a pair is never empty. *)
Definition sim_truthy (r : SimResult) : bool :=
  match r with
  | SimBool b => b
  | _ => true
  end.

(** *** [search_excl_val] *)

(** The two accumulators, each a dict of the lists ['Coordinate'] and
    ['Value']. *)
Record Hits : Type :=
  mk_hits { Coordinate : list string; Value : list PyVal }.

Definition no_hits : Hits := mk_hits [] [].

Definition append_hit (h : Hits) (c : Cell) : Hits :=
  mk_hits (Coordinate h ++ [coordinate c]) (Value h ++ [value c]).

(** The state of a scan: the two accumulators and, as a record of what
    the scan read, the (target, cell) pairs whose loop body was entered,
    in order. *)
Record Scan : Type :=
  mk_scan {
      equal_targets : Hits;
      similar_target_hits : Hits;
      cells_read : list (PyVal * string)
    }.

Definition start : Scan := mk_scan no_hits no_hits [].

Definition read (search_val_i : PyVal) (c : Cell) (st : Scan) : Scan :=
  mk_scan (equal_targets st) (similar_target_hits st)
    (cells_read st ++ [(search_val_i, coordinate c)]).

Definition add_equal (c : Cell) (st : Scan) : Scan :=
  mk_scan (append_hit (equal_targets st) c) (similar_target_hits st)
    (cells_read st).

Definition add_similar (c : Cell) (st : Scan) : Scan :=
  mk_scan (equal_targets st) (append_hit (similar_target_hits st) c)
    (cells_read st).

(** How a loop body ends: it falls through to the next round, returns
    [cell.coordinate, cell.value] from the function, or raises. *)
Inductive Flow : Type :=
| Continue (st : Scan)
| Return (hit : Cell) (st : Scan)
| Raised (e : PyExc) (st : Scan).

(** [for cell_iii in row_ii] *)
Fixpoint for_cells (body : Cell -> Scan -> Flow) (row_ii : list Cell)
  (st : Scan) : Flow :=
  match row_ii with
  | [] => Continue st
  | cell_iii :: rest =>
      match body cell_iii st with
      | Continue st' => for_cells body rest st'
      | stop => stop
      end
  end.

(** [for row_ii in sheet.iter_rows(values_only=False)] *)
Fixpoint for_rows (body : Cell -> Scan -> Flow) (rows : list (list Cell))
  (st : Scan) : Flow :=
  match rows with
  | [] => Continue st
  | row_ii :: rest =>
      match for_cells body row_ii st with
      | Continue st' => for_rows body rest st'
      | stop => stop
      end
  end.

(** [for search_val_i in search_targets], the target's scan as body. *)
Fixpoint for_targets (scan : PyVal -> Scan -> Flow)
  (search_targets : list PyVal) (st : Scan) : Flow :=
  match search_targets with
  | [] => Continue st
  | search_val_i :: rest =>
      match scan search_val_i st with
      | Continue st' => for_targets scan rest st'
      | stop => stop
      end
  end.

Section Bodies.

Variable threshold : float.
Variable return_first_hit : bool.

(** Case 1, a text target.  The cell that reaches [str] holds a text or
    a date, which [str] writes. *)
Definition str_body (search_val_i : PyVal) (cell_iii : Cell) (st : Scan)
  : Flow :=
  let st := read search_val_i cell_iii st in
  let v := value cell_iii in
  if PyType_eqb (type_of v) TNoneType || is_Number v
     || isinstance v Ttime || isinstance v Tdatetime
  then Continue st
  else if py_eq v search_val_i && return_first_hit
  then Return cell_iii st
  else
    let st :=
      if py_eq v search_val_i then add_equal cell_iii st else st in
    match
      is_similar search_val_i (Scalar (VStr (py_str v))) threshold false
    with
    | Ok r =>
        if sim_truthy r then Continue (add_similar cell_iii st)
        else Continue st
    | Raise e => Raised e st
    end.

(** Case 2, a number; [round_of_number] is the target's count of
    significant digits. *)
Definition num_body (round_of_number : nat) (search_val_i : PyVal)
  (cell_iii : Cell) (st : Scan) : Flow :=
  let st := read search_val_i cell_iii st in
  let v := value cell_iii in
  if negb (is_Number v) then Continue st
  else
    match Np.round v round_of_number with
    | Raise e => Raised e st
    | Ok rounded_cell =>
        match Np.round search_val_i round_of_number with
        | Raise e => Raised e st
        | Ok rounded_target =>
            if Np.eqb rounded_cell rounded_target
            then
              if return_first_hit then Return cell_iii st
              else Continue (add_equal cell_iii st)
            else Continue (add_similar cell_iii st)
        end
    end.

(** Case 3, a date or a datetime. *)
Definition date_body (search_val_i : PyVal) (cell_iii : Cell) (st : Scan)
  : Flow :=
  let st := read search_val_i cell_iii st in
  let v := value cell_iii in
  if negb (isinstance v Tdatetime) && negb (isinstance v Tdate)
  then Continue st
  else if py_eq v search_val_i
  then
    if return_first_hit then Return cell_iii st
    else Continue (add_equal cell_iii st)
  else Continue (add_similar cell_iii st).

(** Case 4, a time of day. *)
Definition time_body (search_val_i : PyVal) (cell_iii : Cell) (st : Scan)
  : Flow :=
  let st := read search_val_i cell_iii st in
  let v := value cell_iii in
  if negb (isinstance v Ttime) then Continue st
  else if py_eq v search_val_i
  then
    if return_first_hit then Return cell_iii st
    else Continue (add_equal cell_iii st)
  else Continue (add_similar cell_iii st).

(** The scan of one numeric target: [str] of the target and its digit
    count first, which may raise, then the rows. *)
Definition num_scan (rows : list (list Cell)) (search_val_i : PyVal)
  (st : Scan) : Flow :=
  match
    do s <- str_ search_val_i; count_significant_digits (VStr s)
  with
  | Raise e => Raised e st
  | Ok round_of_number =>
      for_rows (num_body round_of_number search_val_i) rows st
  end.

End Bodies.

(** What [search_excl_val] returns. *)
Inductive SearchResult : Type :=
| FirstHit (coord : string) (v : PyVal)
| HitsDict (h : Hits)
| CoordinateList (l : list string)
| NonePair
| NoneResult.

(** [{'Coordinate': equal + similar, 'Value': equal + similar}] *)
Definition all_vals (st : Scan) : Hits :=
  mk_hits
    (Coordinate (equal_targets st) ++ Coordinate (similar_target_hits st))
    (Value (equal_targets st) ++ Value (similar_target_hits st)).

Definition is_nil {A : Type} (l : list A) : bool :=
  match l with
  | [] => true
  | _ :: _ => false
  end.

(** The statements after the loops of each case. *)
Definition str_result (return_all_vals : bool) (st : Scan) : SearchResult :=
  if return_all_vals then HitsDict (all_vals st)
  else if negb (is_nil (Coordinate (equal_targets st)))
  then HitsDict (equal_targets st)
  else NonePair.

Definition num_result (return_all_vals : bool) (st : Scan) : SearchResult :=
  if return_all_vals then HitsDict (all_vals st)
  else if negb (is_nil (Value (equal_targets st)))
  then CoordinateList (Coordinate (equal_targets st))
  else NonePair.

Definition date_result (return_all_vals : bool) (st : Scan)
  : SearchResult :=
  if return_all_vals then HitsDict (all_vals st)
  else if negb (is_nil (Value (equal_targets st)))
  then HitsDict (equal_targets st)
  else NonePair.

Definition time_result (return_all_vals : bool) (st : Scan)
  : SearchResult :=
  if negb (is_nil (Value (equal_targets st))) && negb return_all_vals
  then HitsDict (equal_targets st)
  else if return_all_vals then HitsDict (all_vals st)
  else NoneResult.

(** The end of a case: the early return, the error, or the case's
    result; with it, the cells that were read. *)
Definition finish (shape : Scan -> SearchResult) (f : Flow)
  : result SearchResult * list (PyVal * string) :=
  match f with
  | Continue st => (Ok (shape st), cells_read st)
  | Return hit st => (Ok (FirstHit (coordinate hit) (value hit)), cells_read st)
  | Raised e st => (Raise e, cells_read st)
  end.

(** [search_excl_val], with the record of the cells read.  The sheet is
    a worksheet by its type. *)
Definition search_excl_val_run (sheet : Worksheet)
  (search_targets : list PyVal) (threshold : float)
  (return_first_hit return_all_vals : bool)
  : result SearchResult * list (PyVal * string) :=
  match search_targets with
  | [] => (Raise IndexError, [])
  | first :: _ =>
      let search_type := type_of first in
      if negb (forallb (fun target_i => isinstance target_i search_type)
                 search_targets)
      then (Raise TypeError, [])
      else if PyType_eqb search_type Tstr then
        finish (str_result return_all_vals)
          (for_targets
             (fun search_val_i =>
                for_rows (str_body threshold return_first_hit search_val_i)
                  (iter_rows sheet))
             search_targets start)
      else if is_Number first then
        finish (num_result return_all_vals)
          (for_targets (num_scan return_first_hit (iter_rows sheet))
             search_targets start)
      else if PyType_eqb search_type Tdate
              || PyType_eqb search_type Tdatetime then
        finish (date_result return_all_vals)
          (for_targets
             (fun search_val_i =>
                for_rows (date_body return_first_hit search_val_i)
                  (iter_rows sheet))
             search_targets start)
      else if PyType_eqb search_type Ttime then
        finish (time_result return_all_vals)
          (for_targets
             (fun search_val_i =>
                for_rows (time_body return_first_hit search_val_i)
                  (iter_rows sheet))
             search_targets start)
      else (Raise ValueError, [])
  end.

Definition search_excl_val (sheet : Worksheet) (search_targets : list PyVal)
  (threshold : float) (return_first_hit return_all_vals : bool)
  : result SearchResult :=
  fst (search_excl_val_run sheet search_targets threshold return_first_hit
         return_all_vals).

(** *** [get_excl_sheet_vals] *)

(** A numpy array of cell values, of one or of two dimensions.  The
    values are kept as they are in the cells: that is what [numpy.array]
    holds when the values are of one sort; the conversion of values of
    two sorts to one dtype is left out. *)
Inductive ndarray : Type :=
| array1 (l : list PyVal)
| array2 (rows : list (list PyVal)).

(** [range(lo, hi)] *)
Definition range (lo hi : Z) : list Z :=
  map (fun k => lo + Z.of_nat k) (seq 0 (Z.to_nat (hi - lo))).

(** [l[i]] *)
Definition getitem (l : list PyVal) (i : nat) : result PyVal :=
  match nth_error l i with
  | Some v => Ok v
  | None => Raise IndexError
  end.

(** The test of one corner.  [None] stands for the row and column left
    unassigned: a tuple that fails the test of its two elements reaches
    no assignment and no [raise].  Two integers unpack into the row and
    the column only from a tuple of length two. *)
Definition corner (cord : PyObj) : result (option (Z * Z)) :=
  match cord with
  | Scalar (VStr s) => do rc <- exc_coord_to_rc (VStr s); Ok (Some rc)
  | PyTuple l =>
      do x0 <- getitem l 0;
      if isinstance x0 Tint then
        do x1 <- getitem l 1;
        if isinstance x1 Tint then
          match l with
          | [VInt r; VInt c] => Ok (Some (r, c))
          | _ => Raise ValueError
          end
        else Ok None
      else Ok None
  | _ => Raise TypeError
  end.

(** [[sheet.cell(row=r_i, column=c_ii).value for c_ii in cols]] *)
Fixpoint row_values (sheet : Worksheet) (r_i : Z) (cols : list Z)
  : result (list PyVal) :=
  match cols with
  | [] => Ok []
  | c_ii :: rest =>
      do v <- cell_value sheet r_i c_ii;
      do vs <- row_values sheet r_i rest;
      Ok (v :: vs)
  end.

(** [for r_i in range(row_start, row_end)] *)
Fixpoint extract_rows (sheet : Worksheet) (rows cols : list Z)
  : result (list (list PyVal)) :=
  match rows with
  | [] => Ok []
  | r_i :: rest =>
      do vs <- row_values sheet r_i cols;
      do vss <- extract_rows sheet rest cols;
      Ok (vs :: vss)
  end.

Definition get_excl_sheet_vals (sheet : Worksheet)
  (start_Cord end_Cord : PyObj) : result ndarray :=
  do s <- corner start_Cord;
  do e <- corner end_Cord;
  match s, e with
  | Some (row_start, col_start), Some (row_end, col_end) =>
      let '(row_start, row_end) :=
        if row_start >? row_end then (row_end, row_start)
        else (row_start, row_end) in
      let '(col_start, col_end) :=
        if col_start >? col_end then (col_end, col_start)
        else (col_start, col_end) in
      do values_extracted <-
        extract_rows sheet (range row_start row_end)
          (range col_start (col_end + 1));
      if (row_start =? row_end) || (col_start =? col_end)
      then Ok (array1 (List.concat values_extracted))
      else Ok (array2 values_extracted)
  | _, _ => Raise UnboundLocalError
  end.

End Exutil.


(** ** Notions used to state the properties *)

(** The value kinds of the data model: a date and a datetime are one kind,
    an integer and a floating-point number are one kind. *)
Inductive Kind : Type :=
| KAbsent | KText | KNumber | KDate | KTime.

Definition kind_of (v : PyVal) : Kind :=
  match v with
  | VNone => KAbsent
  | VStr _ => KText
  | VInt _ | VFloat _ => KNumber
  | VDate _ | VDatetime _ => KDate
  | VTime _ => KTime
  end.

Definition Kind_eqb (a b : Kind) : bool :=
  match a, b with
  | KAbsent, KAbsent | KText, KText | KNumber, KNumber | KDate, KDate
  | KTime, KTime => true
  | _, _ => false
  end.

(** A target set mixes value kinds when some target is of another kind
    than the first. *)
Definition mixes_kinds (search_targets : list PyVal) : bool :=
  match search_targets with
  | [] => false
  | first :: _ =>
      negb (forallb (fun t => Kind_eqb (kind_of t) (kind_of first))
              search_targets)
  end.

(** The test of the source's homogeneity check: every target is an
    instance of the type of the first. *)
Definition same_data_type (search_targets : list PyVal) : bool :=
  match search_targets with
  | [] => true
  | first :: _ =>
      forallb (fun target_i => isinstance target_i (type_of first))
        search_targets
  end.

(** The order of a scan: target after target, and for each target the
    cells row after row. *)
Definition scan_order (sheet : Worksheet) (search_targets : list PyVal)
  : list (PyVal * Cell) :=
  list_prod search_targets (List.concat (iter_rows sheet)).

(** What the record of a scan shows of a (target, cell) pair. *)
Definition seen (p : PyVal * Cell) : PyVal * string :=
  (fst p, coordinate (snd p)).

(** The value at row [r] and column [c] of a sheet, both from 1. *)
Definition value_at (sheet : Worksheet) (r c : nat) : PyVal :=
  nth (c - 1) (nth (r - 1) sheet []) VNone.

(** Values that [numpy.array] holds as they are when they are alone of
    their sort: integers of 64 bits with a sign (dtype [int64]), floats
    ([float64]), texts that end in no null character (a text dtype), and
    the values that make an array of objects: [None], dates and times.
    Values of two sorts are converted to one dtype. *)
Definition int64_value (v : PyVal) : bool :=
  match v with
  | VInt z => Np.is_int64 z
  | _ => false
  end.

Definition float_value (v : PyVal) : bool :=
  match v with
  | VFloat _ => true
  | _ => false
  end.

Definition text_value (v : PyVal) : bool :=
  match v with
  | VStr s => negb (Str.endswith_char "000" s)
  | _ => false
  end.

Definition object_value (v : PyVal) : bool :=
  match v with
  | VNone | VDate _ | VDatetime _ | VTime _ => true
  | _ => false
  end.

Definition one_dtype (vals : list PyVal) : bool :=
  forallb int64_value vals || forallb float_value vals
  || forallb text_value vals || forallb object_value vals.

Section Notions.

Variable float_repr : float -> string.

(** [round_of_number] for a target: its count of significant digits. *)
Definition round_of (search_val_i : PyVal) : result nat :=
  do s <- str_ float_repr search_val_i;
  count_significant_digits float_repr (VStr s).

Definition digits_known (search_val_i : PyVal) : bool :=
  match search_val_i with
  | VInt _ | VFloat _ =>
      match round_of search_val_i with
      | Ok _ => true
      | Raise _ => false
      end
  | _ => true
  end.

(** The test that sends a cell to the equal bucket, by the target's
    kind: [==] for text, dates and times; for a number, [==] of the two
    values rounded to the target's count of significant digits. *)
Definition equal_hit (search_val_i : PyVal) (cell_iii : Cell) : bool :=
  match search_val_i with
  | VInt _ | VFloat _ =>
      match round_of search_val_i with
      | Ok n =>
          is_Number (value cell_iii)
          && Np.round_eqb (value cell_iii) search_val_i n
      | Raise _ => false
      end
  | VNone => false
  | _ => py_eq (value cell_iii) search_val_i
  end.

(** The pairs at which a scan raises [TypeError]: a numeric target and
    a numeric cell of which [round] refuses one, an integer beyond 64
    bits. *)
Definition raises_at (search_val_i : PyVal) (cell_iii : Cell) : bool :=
  is_Number search_val_i && is_Number (value cell_iii)
  && negb (Np.takes (value cell_iii) && Np.takes search_val_i).

(** The digit count a numeric scan uses for a target. *)
Definition digits_of (t : PyVal) : nat :=
  match round_of t with
  | Ok n => n
  | Raise _ => O
  end.

Definition numeric (t : PyVal) : Prop :=
  is_Number t = true /\ digits_known t = true.

(** The cells a full scan sends to the equal bucket, in scan order. *)
Definition equal_cells (sheet : Worksheet) (search_targets : list PyVal)
  : list Cell :=
  map snd
    (filter (fun p => equal_hit (fst p) (snd p))
       (scan_order sheet search_targets)).

(** The loop body, the result statements and the class of targets of
    the case that the first target selects. *)
Definition body_of (threshold : float) (return_first_hit : bool)
  (first : PyVal) : PyVal -> Cell -> Scan -> Flow :=
  match first with
  | VStr _ => str_body float_repr threshold return_first_hit
  | VInt _ | VFloat _ =>
      fun t => num_body return_first_hit (digits_of t) t
  | VDate _ | VDatetime _ => date_body return_first_hit
  | _ => time_body return_first_hit
  end.

Definition shape_of (return_all_vals : bool) (first : PyVal)
  : Scan -> SearchResult :=
  match first with
  | VStr _ => str_result return_all_vals
  | VInt _ | VFloat _ => num_result return_all_vals
  | VDate _ | VDatetime _ => date_result return_all_vals
  | _ => time_result return_all_vals
  end.

Definition in_case (first x : PyVal) : Prop :=
  match first with
  | VNone => x = VNone
  | VStr _ => type_of x = Tstr
  | VInt _ | VFloat _ => numeric x
  | VDate _ | VDatetime _ => kind_of x = KDate
  | VTime _ => type_of x = Ttime
  end.

(** A pair of the case of [first] at which the scan does not raise. *)
Definition in_scan (first x : PyVal) (c : Cell) : Prop :=
  in_case first x /\ raises_at x c = false.

(** No pair of a scan makes [round] raise: every integer that a numeric
    scan rounds fits in 64 bits. *)
Definition scan_rounds (sheet : Worksheet) (search_targets : list PyVal)
  : bool :=
  forallb (fun p => negb (raises_at (fst p) (snd p)))
    (scan_order sheet search_targets).

End Notions.

(** The dict of the coordinates and the values of a list of cells. *)
Definition hits_of (cells : list Cell) : Hits :=
  mk_hits (map coordinate cells) (map value cells).

(** What the source returns with both flags off, by the kind of the first
    target and the cells of the equal bucket. *)
Definition equal_only (first : PyVal) (equal : list Cell)
  : result SearchResult :=
  match first, equal with
  | VNone, _ => Raise ValueError
  | (VInt _ | VFloat _), [] => Ok NonePair
  | (VInt _ | VFloat _), _ :: _ => Ok (CoordinateList (map coordinate equal))
  | VTime _, [] => Ok NoneResult
  | _, [] => Ok NonePair
  | _, _ :: _ => Ok (HitsDict (hits_of equal))
  end.

(** One loop over the (target, cell) pairs of a scan. *)
Fixpoint for_pairs (body : PyVal -> Cell -> Scan -> Flow)
  (l : list (PyVal * Cell)) (st : Scan) : Flow :=
  match l with
  | [] => Continue st
  | (t, c) :: rest =>
      match body t c st with
      | Continue st' => for_pairs body rest st'
      | stop => stop
      end
  end.

(** A flow that raises [TypeError] has read a cell. *)
Definition TypeError_after_read (f : Flow) : Prop :=
  match f with
  | Raised TypeError st => cells_read st <> []
  | _ => True
  end.

(** The test that a two-element tuple corner fails. *)
Definition both_int (x y : PyVal) : bool :=
  isinstance x Tint && isinstance y Tint.

(** A sheet with the text "Total" in one cell, A2. *)
Definition totals_sheet : Worksheet :=
  [[VStr "Name"; VInt 3]; [VStr "Total"; VStr "x"]].

(** A sheet of numbers and a text. *)
Definition numbers_sheet : Worksheet :=
  [[VInt 5; VStr "five"]; [VFloat 5.04; VInt 7]].

(** A match of the range [alo, hi) of the first sequence. *)
Definition within (alo hi : nat) (m : Difflib.Match) : Prop :=
  let '(besti, _, bestsize) := m in
  (alo <= besti /\ besti + bestsize <= hi)%nat.

(** ** Notions for the full scan *)

Section ScanNotions.

Variable float_repr : float -> string.
Variable threshold : float.

(** The test that sends a cell to the similar bucket, by the target's
    kind: for a text target, a cell that is not skipped and whose text
    has a ratio to the target that reaches the threshold; for the other
    kinds, a cell of the target's family that is not an equal hit. *)
Definition similar_hit (search_val_i : PyVal) (cell_iii : Cell) : bool :=
  let v := value cell_iii in
  match search_val_i with
  | VNone => false
  | VStr s =>
      match v with
      | VStr _ | VDate _ =>
          PrimFloat.leb threshold
            (Difflib.ratio (Str.strip s) (Str.strip (py_str float_repr v)))
      | _ => false
      end
  | VInt _ | VFloat _ =>
      is_Number v && negb (equal_hit float_repr search_val_i cell_iii)
  | VDate _ | VDatetime _ =>
      (isinstance v Tdatetime || isinstance v Tdate)
      && negb (equal_hit float_repr search_val_i cell_iii)
  | VTime _ =>
      isinstance v Ttime
      && negb (equal_hit float_repr search_val_i cell_iii)
  end.

(** The cells a full scan sends to the similar bucket, in scan order. *)
Definition similar_cells (sheet : Worksheet) (search_targets : list PyVal)
  : list Cell :=
  map snd
    (filter (fun p => similar_hit (fst p) (snd p))
       (scan_order sheet search_targets)).

(** One round of a full scan on the state. *)
Definition full_step (st : Scan) (p : PyVal * Cell) : Scan :=
  mk_scan
    (if equal_hit float_repr (fst p) (snd p)
     then append_hit (equal_targets st) (snd p) else equal_targets st)
    (if similar_hit (fst p) (snd p)
     then append_hit (similar_target_hits st) (snd p)
     else similar_target_hits st)
    (cells_read st ++ [seen p]).

End ScanNotions.

(** The two lists of a dict of hits go in step. *)
Definition parallel (h : Hits) : Prop :=
  List.length (Coordinate h) = List.length (Value h).

(** The two buckets of a state are parallel. *)
Definition parallel_scan (st : Scan) : Prop :=
  parallel (equal_targets st) /\ parallel (similar_target_hits st).

(** A flow keeps the buckets parallel. *)
Definition parallel_flow (f : Flow) : Prop :=
  match f with
  | Continue st => parallel_scan st
  | Return _ st => parallel_scan st
  | Raised _ st => parallel_scan st
  end.

(** ** Notions for the coordinates *)

(** The last column that [openpyxl] names, ZZZ. *)
Definition last_column : Z := 18278.

(** The letters of a column are letters, and read back as the column. *)
Definition column_reads_back (c : Z) : bool :=
  forallb is_alpha (list_ascii_of_string (get_column_letter c))
  && match column_index_from_string (get_column_letter c) with
     | Ok c' => c' =? c
     | Raise _ => false
     end.

(** One step of [int(s)] on a digit. *)
Definition digit_step (acc : Z) (c : ascii) : Z :=
  10 * acc + (Z.of_nat (nat_of_ascii c) - 48).

(** ** [filter_files] *)

(** [os.path.join(a, b)] on a POSIX system. *)
Definition path_join (a b : string) : string :=
  match b with
  | String "/" _ => b
  | _ =>
      if Str.is_empty a || Str.endswith_char "/" a then a ++ b
      else a ++ "/" ++ b
  end.

(** [sorted(results)] on strings, by insertion: the order of Python on
    text, character by character. *)
Fixpoint insert_sorted (x : string) (l : list string) : list string :=
  match l with
  | [] => [x]
  | y :: rest =>
      if String.leb x y then x :: l else y :: insert_sorted x rest
  end.

Fixpoint sorted (l : list string) : list string :=
  match l with
  | [] => []
  | x :: rest => insert_sorted x (sorted rest)
  end.

Section FilterFiles.

(** [fnmatch.fnmatch(name, pattern)], the shell-style match of the
    library. *)
Variable fnmatch : string -> string -> bool.

(** [os.walk(top)]: for each directory under [top] its path, its
    sub-directories and its files. *)
Variable os_walk : string -> list (string * list string * list string).

Variable pattern : string.
Variable matchPattern : bool.

(** [fnmatch(fi, pattern) == matchPattern] *)
Definition selected (fi : string) : bool :=
  Bool.eqb (fnmatch fi pattern) matchPattern.

(** [for fi in files]: the full paths of the selected files are
    appended. *)
Fixpoint files_loop (root : string) (files : list string)
  (results : list string) : list string :=
  match files with
  | [] => results
  | fi :: rest =>
      let full_path := path_join root fi in
      if selected fi then files_loop root rest (results ++ [full_path])
      else files_loop root rest results
  end.

(** [for root, _, files in os.walk(path_list)] *)
Fixpoint walk_loop (dirs : list (string * list string * list string))
  (results : list string) : list string :=
  match dirs with
  | [] => results
  | (root, _, files) :: rest =>
      walk_loop rest (files_loop root files results)
  end.

(** [for item in path_list], for a list or a tuple: [full_path] has no
    value in this branch, so the append of the first selected item raises;
    an item that is no string is refused by [fnmatch]. *)
Fixpoint items_loop (items : list PyVal) (results : list string)
  : result (list string) :=
  match items with
  | [] => Ok results
  | VStr item :: rest =>
      if selected item then Raise UnboundLocalError
      else items_loop rest results
  | _ :: _ => Raise TypeError
  end.

Definition filter_files (path_list : PyObj) : result (list string) :=
  match path_list with
  | Scalar (VStr top) => Ok (sorted (walk_loop (os_walk top) []))
  | PyList items | PyTuple items =>
      do results <- items_loop items []; Ok (sorted results)
  | _ => Raise TypeError
  end.

(** The full paths of all the files under a directory, in the order of
    the walk. *)
Definition walked_paths (top : string) : list string :=
  flat_map (fun d => map (path_join (fst (fst d))) (snd d)) (os_walk top).

(** The full paths of the selected files. *)
Definition selected_paths (top : string) : list string :=
  flat_map
    (fun d => map (path_join (fst (fst d))) (filter selected (snd d)))
    (os_walk top).

End FilterFiles.

(** Evaluate the code of a character of the goal. *)
Ltac digit_code :=
  match goal with
  | |- context [Z.of_nat (nat_of_ascii ?c)] =>
      let v := eval vm_compute in (Z.of_nat (nat_of_ascii c)) in
      change (Z.of_nat (nat_of_ascii c)) with v
  end.

(** Case analysis on every condition of the goal. *)
Ltac case_conditions :=
  repeat match goal with
    | |- context [if ?b then _ else _] => destruct b
    | |- context [let '(_, _) := ?p in _] => destruct p
    end.

(** * Properties *)


(** ** The loops *)

Section Loops.

Lemma for_cells_app (body : Cell -> Scan -> Flow) (l1 l2 : list Cell)
  (st : Scan) :
  for_cells body (l1 ++ l2) st =
    match for_cells body l1 st with
    | Continue st' => for_cells body l2 st'
    | stop => stop
    end.
Proof.
  revert st; induction l1 as [|c l1 IH]; intros st; simpl.
  - reflexivity.
  - destruct (body c st); auto.
Qed.

Lemma for_rows_concat (body : Cell -> Scan -> Flow)
  (rows : list (list Cell)) (st : Scan) :
  for_rows body rows st = for_cells body (List.concat rows) st.
Proof.
  revert st; induction rows as [|r rows IH]; intros st; simpl.
  - reflexivity.
  - rewrite for_cells_app. destruct (for_cells body r st); auto.
Qed.

Lemma for_pairs_app (body : PyVal -> Cell -> Scan -> Flow)
  (l1 l2 : list (PyVal * Cell)) (st : Scan) :
  for_pairs body (l1 ++ l2) st =
    match for_pairs body l1 st with
    | Continue st' => for_pairs body l2 st'
    | stop => stop
    end.
Proof.
  revert st; induction l1 as [|[t c] l1 IH]; intros st; simpl.
  - reflexivity.
  - destruct (body t c st); auto.
Qed.

Lemma for_pairs_cells (body : PyVal -> Cell -> Scan -> Flow) (t : PyVal)
  (cells : list Cell) (st : Scan) :
  for_pairs body (map (fun c => (t, c)) cells) st
  = for_cells (body t) cells st.
Proof.
  revert st; induction cells as [|c cells IH]; intros st; simpl.
  - reflexivity.
  - destruct (body t c st); auto.
Qed.

(** The nested loops of a case are one loop over the scan order. *)
Lemma for_targets_pairs (body : PyVal -> Cell -> Scan -> Flow)
  (rows : list (list Cell)) (targets : list PyVal) (st : Scan) :
  for_targets (fun t => for_rows (body t) rows) targets st
  = for_pairs body (list_prod targets (List.concat rows)) st.
Proof.
  revert st; induction targets as [|t targets IH]; intros st; simpl.
  - reflexivity.
  - rewrite for_pairs_app, for_pairs_cells, for_rows_concat.
    destruct (for_cells (body t) (List.concat rows) st); auto.
Qed.

Lemma for_targets_ext (scan1 scan2 : PyVal -> Scan -> Flow)
  (targets : list PyVal) (st : Scan) :
  (forall t, In t targets -> forall st', scan1 t st' = scan2 t st') ->
  for_targets scan1 targets st = for_targets scan2 targets st.
Proof.
  revert st; induction targets as [|t targets IH]; intros st H; simpl.
  - reflexivity.
  - rewrite (H t (or_introl eq_refl)).
    destruct (scan2 t st); auto.
    apply IH. intros t' Ht'. apply H. right; exact Ht'.
Qed.

End Loops.

(** ** The first hit of a scan *)

Section FirstHit.

Variable body : PyVal -> Cell -> Scan -> Flow.
Variable hit : PyVal -> Cell -> bool.
Variable P : PyVal -> Cell -> Prop.

Hypothesis body_hit :
  forall t c st, P t c -> hit t c = true ->
    body t c st = Return c (read t c st).

Hypothesis body_miss :
  forall t c st, P t c -> hit t c = false ->
    exists st', body t c st = Continue st'
                /\ cells_read st' = (cells_read st ++ [seen (t, c)])%list.

Lemma for_pairs_first_hit (pre post : list (PyVal * Cell)) (t : PyVal)
  (c : Cell) (st : Scan) :
  Forall (fun p => P (fst p) (snd p)) (pre ++ [(t, c)])%list ->
  hit t c = true ->
  Forall (fun p => hit (fst p) (snd p) = false) pre ->
  exists st',
    for_pairs body (pre ++ (t, c) :: post)%list st = Return c st'
    /\ cells_read st' = (cells_read st ++ map seen (pre ++ [(t, c)]))%list.
Proof.
  revert st; induction pre as [|[t0 c0] pre IH]; intros st HP Hhit Hpre.
  - simpl. inversion HP as [|? ? Pt _]; subst. simpl in Pt.
    rewrite (body_hit t c st Pt Hhit).
    exists (read t c st). split; reflexivity.
  - simpl in *. inversion HP as [|? ? Pt0 HP']; subst.
    inversion Hpre as [|? ? Hm Hpre']; subst. simpl in Pt0, Hm.
    destruct (body_miss t0 c0 st Pt0 Hm) as [st1 [E1 R1]].
    rewrite E1.
    destruct (IH st1 HP' Hhit Hpre') as [st' [E' R']].
    exists st'. split; [exact E'|].
    rewrite R', R1, <- app_assoc. reflexivity.
Qed.

Lemma for_pairs_all_miss (l : list (PyVal * Cell)) (st : Scan) :
  Forall (fun p => P (fst p) (snd p)) l ->
  Forall (fun p => hit (fst p) (snd p) = false) l ->
  exists st', for_pairs body l st = Continue st'.
Proof.
  revert st; induction l as [|[t0 c0] l IH]; intros st HP Hl.
  - exists st. reflexivity.
  - inversion HP as [|? ? Pt0 HP']; subst.
    inversion Hl as [|? ? Hm Hl']; subst. simpl in Pt0, Hm.
    destruct (body_miss t0 c0 st Pt0 Hm) as [st1 [E1 _]].
    simpl. rewrite E1. apply IH; assumption.
Qed.

End FirstHit.

Section Returned.

Variable body : PyVal -> Cell -> Scan -> Flow.
Variable hit : PyVal -> Cell -> bool.
Variable P : PyVal -> Prop.

Hypothesis body_flow :
  forall t c st, P t ->
    match body t c st with
    | Return c' _ => c' = c /\ hit t c = true
    | Continue _ => hit t c = false
    | Raised _ _ => True
    end.

(** A loop that returns a cell returns the first hit of its pairs. *)
Lemma for_pairs_returned (l : list (PyVal * Cell)) (st st' : Scan)
  (c : Cell) :
  Forall (fun p => P (fst p)) l ->
  for_pairs body l st = Return c st' ->
  exists pre t post,
    l = (pre ++ (t, c) :: post)%list
    /\ hit t c = true
    /\ Forall (fun p => hit (fst p) (snd p) = false) pre.
Proof.
  revert st; induction l as [|[t0 c0] l IH]; intros st HP Hret.
  - discriminate Hret.
  - inversion HP as [|? ? Pt0 HP']; subst. simpl in Pt0.
    pose proof (body_flow t0 c0 st Pt0) as Hb. simpl in Hret.
    destruct (body t0 c0 st) as [st1|c1 st1|e st1].
    + destruct (IH st1 HP' Hret) as [pre [t [post [E [Hh Hpre]]]]].
      exists ((t0, c0) :: pre), t, post. rewrite E.
      repeat split; [exact Hh|constructor; assumption].
    + injection Hret as -> _. destruct Hb as [-> Hh].
      exists [], t0, l. repeat split; [exact Hh|constructor].
    + discriminate Hret.
Qed.

End Returned.

Section FirstHitCases.

Variable float_repr : float -> string.
Variable threshold : float.

Lemma is_similar_of_text (target s : string) (score : bool) :
  is_similar float_repr (VStr target) (Scalar (VStr s)) threshold score
  = Ok (is_similar_str (Str.strip target) (Str.strip s) threshold score).
Proof. reflexivity. Qed.

Lemma str_body_hit (t : PyVal) (c : Cell) (st : Scan) :
  type_of t = Tstr ->
  equal_hit float_repr t c = true ->
  str_body float_repr threshold true t c st = Return c (read t c st).
Proof.
  intros Ht Hhit. destruct t; try discriminate Ht.
  unfold equal_hit in Hhit. unfold str_body.
  destruct (value c) eqn:Ev; try discriminate Hhit.
  cbn [type_of PyType_eqb is_Number isinstance issubclass orb].
  rewrite Hhit. reflexivity.
Qed.

Lemma str_body_miss (t : PyVal) (c : Cell) (st : Scan) :
  type_of t = Tstr ->
  equal_hit float_repr t c = false ->
  exists st',
    str_body float_repr threshold true t c st = Continue st'
    /\ cells_read st' = (cells_read st ++ [seen (t, c)])%list.
Proof.
  intros Ht Hhit. destruct t; try discriminate Ht.
  unfold equal_hit in Hhit. unfold str_body.
  destruct (value c) eqn:Ev;
    cbn [type_of PyType_eqb is_Number isinstance issubclass orb];
    try (eexists; split; [reflexivity|reflexivity]).
  - rewrite Hhit. cbn [andb]. rewrite is_similar_of_text.
    destruct (sim_truthy _); eexists; split; reflexivity.
  - rewrite Hhit. cbn [andb]. rewrite is_similar_of_text.
    destruct (sim_truthy _); eexists; split; reflexivity.
Qed.

Lemma numeric_round_of (t : PyVal) :
  numeric float_repr t -> round_of float_repr t = Ok (digits_of float_repr t).
Proof.
  intros [Hn Hd]. unfold digits_of.
  destruct t; try discriminate Hn; unfold digits_known in Hd;
    destruct (round_of float_repr _); try discriminate Hd; reflexivity.
Qed.

Lemma num_scan_rows (fh : bool) (rows : list (list Cell)) (t : PyVal)
  (st : Scan) :
  numeric float_repr t ->
  num_scan float_repr fh rows t st
  = for_rows (num_body fh (digits_of float_repr t) t) rows st.
Proof.
  intros Ht. unfold num_scan.
  change (do s <- str_ float_repr t;
          count_significant_digits float_repr (VStr s))
    with (round_of float_repr t).
  rewrite (numeric_round_of t Ht). reflexivity.
Qed.

Lemma equal_hit_numeric (t : PyVal) (c : Cell) :
  numeric float_repr t ->
  equal_hit float_repr t c
  = is_Number (value c)
    && Np.round_eqb (value c) t (digits_of float_repr t).
Proof.
  intros Ht. pose proof (numeric_round_of t Ht) as E.
  destruct Ht as [Hn _].
  destruct t; try discriminate Hn; unfold equal_hit; rewrite E;
    reflexivity.
Qed.

(** [round] returns on the values it takes, and raises [TypeError] on
    the others. *)
Lemma round_cases (x : PyVal) (n : nat) :
  (Np.takes x = true /\ exists a, Np.round x n = Ok a)
  \/ (Np.takes x = false /\ Np.round x n = Raise TypeError).
Proof.
  destruct x; cbn [Np.takes Np.round];
    try (right; split; reflexivity).
  - destruct (Np.is_int64 z); cbn [orb].
    + left. split; [reflexivity|eexists; reflexivity].
    + destruct (Np.is_uint64 z).
      * left. split; [reflexivity|eexists; reflexivity].
      * right. split; reflexivity.
  - left. split; [reflexivity|]. destruct n; eexists; reflexivity.
Qed.

(** A round of the numeric case, by its tests. *)
Lemma num_body_cases (fh : bool) (n : nat) (t : PyVal) (c : Cell)
  (st : Scan) :
  is_Number t = true ->
  num_body fh n t c st
  = if negb (is_Number (value c)) then Continue (read t c st)
    else if raises_at t c then Raised TypeError (read t c st)
    else if Np.round_eqb (value c) t n
    then (if fh then Return c (read t c st)
          else Continue (add_equal c (read t c st)))
    else Continue (add_similar c (read t c st)).
Proof.
  intros Ht. unfold num_body, raises_at, Np.round_eqb. rewrite Ht.
  destruct (is_Number (value c)); cbn [negb andb]; [|reflexivity].
  destruct (round_cases (value c) n) as [[T1 [a E1]]|[T1 E1]];
    destruct (round_cases t n) as [[T2 [b E2]]|[T2 E2]];
    rewrite T1, T2, E1, ?E2; reflexivity.
Qed.

Lemma equal_hit_no_raise (t : PyVal) (c : Cell) :
  equal_hit float_repr t c = true -> raises_at t c = false.
Proof.
  unfold equal_hit, raises_at, Np.round_eqb. intros H.
  destruct t; try reflexivity;
    destruct (round_of float_repr _) as [n|e]; try discriminate H;
    apply andb_true_iff in H; destruct H as [Hn H]; rewrite Hn;
    cbn [is_Number andb];
    destruct (round_cases (value c) n) as [[T1 [a E1]]|[T1 E1]];
    rewrite E1 in H; try discriminate H;
    match type of H with
    | context [Np.round ?x n] =>
        destruct (round_cases x n) as [[T2 [b E2]]|[T2 E2]];
        rewrite E2 in H; try discriminate H
    end;
    rewrite T1, T2; reflexivity.
Qed.

Lemma num_body_hit (t : PyVal) (c : Cell) (st : Scan) :
  numeric float_repr t ->
  equal_hit float_repr t c = true ->
  num_body true (digits_of float_repr t) t c st = Return c (read t c st).
Proof.
  intros Ht Hhit. rewrite (num_body_cases _ _ _ _ _ (proj1 Ht)).
  rewrite (equal_hit_no_raise t c Hhit).
  rewrite (equal_hit_numeric t c Ht) in Hhit.
  apply andb_true_iff in Hhit. destruct Hhit as [Hn He].
  rewrite Hn, He. reflexivity.
Qed.

Lemma num_body_miss (t : PyVal) (c : Cell) (st : Scan) :
  numeric float_repr t ->
  raises_at t c = false ->
  equal_hit float_repr t c = false ->
  exists st',
    num_body true (digits_of float_repr t) t c st = Continue st'
    /\ cells_read st' = (cells_read st ++ [seen (t, c)])%list.
Proof.
  intros Ht Hr Hhit. rewrite (num_body_cases _ _ _ _ _ (proj1 Ht)), Hr.
  rewrite (equal_hit_numeric t c Ht) in Hhit.
  destruct (is_Number (value c)); cbn [negb].
  - cbn [andb] in Hhit. rewrite Hhit. eexists; split; reflexivity.
  - eexists; split; reflexivity.
Qed.

Lemma num_body_raise (fh : bool) (t : PyVal) (c : Cell) (st : Scan) :
  numeric float_repr t ->
  raises_at t c = true ->
  num_body fh (digits_of float_repr t) t c st
  = Raised TypeError (read t c st).
Proof.
  intros Ht Hr. rewrite (num_body_cases _ _ _ _ _ (proj1 Ht)), Hr.
  unfold raises_at in Hr. apply andb_true_iff in Hr.
  destruct Hr as [Hr _]. apply andb_true_iff in Hr.
  destruct Hr as [_ Hn]. rewrite Hn. reflexivity.
Qed.

Lemma date_body_hit (t : PyVal) (c : Cell) (st : Scan) :
  kind_of t = KDate ->
  equal_hit float_repr t c = true ->
  date_body true t c st = Return c (read t c st).
Proof.
  intros Ht Hhit. unfold date_body.
  destruct t; try discriminate Ht; unfold equal_hit in Hhit;
    destruct (value c) eqn:Ev; try discriminate Hhit;
    cbn [type_of isinstance issubclass PyType_eqb negb andb];
    rewrite Hhit; reflexivity.
Qed.

Lemma date_body_miss (t : PyVal) (c : Cell) (st : Scan) :
  kind_of t = KDate ->
  equal_hit float_repr t c = false ->
  exists st',
    date_body true t c st = Continue st'
    /\ cells_read st' = (cells_read st ++ [seen (t, c)])%list.
Proof.
  intros Ht Hhit. unfold date_body.
  destruct t; try discriminate Ht; unfold equal_hit in Hhit;
    destruct (value c) eqn:Ev;
    cbn [type_of isinstance issubclass PyType_eqb negb andb];
    try rewrite Hhit; eexists; split; reflexivity.
Qed.

Lemma time_body_hit (t : PyVal) (c : Cell) (st : Scan) :
  type_of t = Ttime ->
  equal_hit float_repr t c = true ->
  time_body true t c st = Return c (read t c st).
Proof.
  intros Ht Hhit. unfold time_body.
  destruct t; try discriminate Ht; unfold equal_hit in Hhit;
    destruct (value c) eqn:Ev; try discriminate Hhit;
    cbn [type_of isinstance issubclass PyType_eqb negb andb];
    rewrite Hhit; reflexivity.
Qed.

Lemma time_body_miss (t : PyVal) (c : Cell) (st : Scan) :
  type_of t = Ttime ->
  equal_hit float_repr t c = false ->
  exists st',
    time_body true t c st = Continue st'
    /\ cells_read st' = (cells_read st ++ [seen (t, c)])%list.
Proof.
  intros Ht Hhit. unfold time_body.
  destruct t; try discriminate Ht; unfold equal_hit in Hhit;
    destruct (value c) eqn:Ev;
    cbn [type_of isinstance issubclass PyType_eqb negb andb];
    try rewrite Hhit; eexists; split; reflexivity.
Qed.

End FirstHitCases.

(** ** The equal bucket of a full scan *)

Section Collect.

Variable body : PyVal -> Cell -> Scan -> Flow.
Variable hit : PyVal -> Cell -> bool.
Variable P : PyVal -> Cell -> Prop.

Hypothesis body_collects :
  forall t c st, P t c ->
    exists st',
      body t c st = Continue st'
      /\ equal_targets st'
         = (if hit t c then append_hit (equal_targets st) c
            else equal_targets st).

Lemma for_pairs_collect (l : list (PyVal * Cell)) (st : Scan) :
  Forall (fun p => P (fst p) (snd p)) l ->
  exists st',
    for_pairs body l st = Continue st'
    /\ equal_targets st'
       = fold_left append_hit
           (map snd (filter (fun p => hit (fst p) (snd p)) l))
           (equal_targets st).
Proof.
  revert st; induction l as [|[t c] l IH]; intros st HP.
  - exists st. split; reflexivity.
  - inversion HP as [|? ? Pt HP']; subst. simpl in Pt.
    destruct (body_collects t c st Pt) as [st1 [E1 Q1]].
    destruct (IH st1 HP') as [st' [E' Q']].
    exists st'. simpl. rewrite E1. split; [exact E'|].
    rewrite Q', Q1. destruct (hit t c); reflexivity.
Qed.

End Collect.

Lemma fold_append_hit (cells : list Cell) (h : Hits) :
  fold_left append_hit cells h
  = mk_hits (Coordinate h ++ map coordinate cells)
      (Value h ++ map value cells).
Proof.
  revert h; induction cells as [|c cells IH]; intros h; simpl.
  - rewrite !app_nil_r. destruct h; reflexivity.
  - rewrite IH. simpl. rewrite <- !app_assoc. reflexivity.
Qed.

Section FullScanCases.

Variable float_repr : float -> string.
Variable threshold : float.

Lemma str_body_collects (t : PyVal) (c : Cell) (st : Scan) :
  type_of t = Tstr ->
  exists st',
    str_body float_repr threshold false t c st = Continue st'
    /\ equal_targets st'
       = (if equal_hit float_repr t c
          then append_hit (equal_targets st) c else equal_targets st).
Proof.
  intros Ht. destruct t; try discriminate Ht.
  unfold equal_hit, str_body.
  destruct (value c) eqn:Ev;
    cbn [type_of PyType_eqb is_Number isinstance issubclass orb py_eq];
    try (eexists; split; reflexivity).
  - rewrite andb_false_r, is_similar_of_text.
    destruct (String.eqb s0 s), (sim_truthy _); eexists; split; reflexivity.
  - rewrite is_similar_of_text.
    destruct (sim_truthy _); eexists; split; reflexivity.
Qed.

Lemma num_body_collects (t : PyVal) (c : Cell) (st : Scan) :
  numeric float_repr t ->
  raises_at t c = false ->
  exists st',
    num_body false (digits_of float_repr t) t c st = Continue st'
    /\ equal_targets st'
       = (if equal_hit float_repr t c
          then append_hit (equal_targets st) c else equal_targets st).
Proof.
  intros Ht Hr. rewrite (equal_hit_numeric float_repr t c Ht).
  rewrite (num_body_cases _ _ _ _ _ (proj1 Ht)), Hr.
  destruct (is_Number (value c)); cbn [negb andb].
  - destruct (Np.round_eqb _ _ _); eexists; split; reflexivity.
  - eexists; split; reflexivity.
Qed.

Lemma date_body_collects (t : PyVal) (c : Cell) (st : Scan) :
  kind_of t = KDate ->
  exists st',
    date_body false t c st = Continue st'
    /\ equal_targets st'
       = (if equal_hit float_repr t c
          then append_hit (equal_targets st) c else equal_targets st).
Proof.
  intros Ht. unfold date_body, equal_hit.
  destruct t; try discriminate Ht;
    destruct (value c) eqn:Ev;
    cbn [type_of isinstance issubclass PyType_eqb negb andb py_eq];
    try (eexists; split; reflexivity).
  - destruct (date_eqb _ _); eexists; split; reflexivity.
  - destruct (datetime_eqb _ _); eexists; split; reflexivity.
Qed.

Lemma time_body_collects (t : PyVal) (c : Cell) (st : Scan) :
  type_of t = Ttime ->
  exists st',
    time_body false t c st = Continue st'
    /\ equal_targets st'
       = (if equal_hit float_repr t c
          then append_hit (equal_targets st) c else equal_targets st).
Proof.
  intros Ht. unfold time_body, equal_hit.
  destruct t; try discriminate Ht;
    destruct (value c) eqn:Ev;
    cbn [type_of isinstance issubclass PyType_eqb negb andb py_eq];
    try (eexists; split; reflexivity).
  destruct (time_eqb _ _); eexists; split; reflexivity.
Qed.

End FullScanCases.

(** ** The cases of [search_excl_val] as one loop *)

Lemma isinstance_Tstr (x : PyVal) :
  isinstance x Tstr = true -> type_of x = Tstr.
Proof. destruct x; simpl; intros H; try discriminate H; reflexivity. Qed.

Lemma isinstance_Ttime (x : PyVal) :
  isinstance x Ttime = true -> type_of x = Ttime.
Proof. destruct x; simpl; intros H; try discriminate H; reflexivity. Qed.

Lemma isinstance_Tint (x : PyVal) :
  isinstance x Tint = true -> is_Number x = true.
Proof. destruct x; simpl; intros H; try discriminate H; reflexivity. Qed.

Lemma isinstance_Tfloat (x : PyVal) :
  isinstance x Tfloat = true -> is_Number x = true.
Proof. destruct x; simpl; intros H; try discriminate H; reflexivity. Qed.

Lemma isinstance_Tdate (x : PyVal) :
  isinstance x Tdate = true -> kind_of x = KDate.
Proof. destruct x; simpl; intros H; try discriminate H; reflexivity. Qed.

Lemma isinstance_Tdatetime (x : PyVal) :
  isinstance x Tdatetime = true -> kind_of x = KDate.
Proof. destruct x; simpl; intros H; try discriminate H; reflexivity. Qed.

Lemma isinstance_TNoneType (x : PyVal) :
  isinstance x TNoneType = true -> x = VNone.
Proof. destruct x; simpl; intros H; try discriminate H; reflexivity. Qed.


Section SearchCases.

Variable float_repr : float -> string.
Variable threshold : float.

(** The targets that pass the homogeneity check are of the case of the
    first. *)
Lemma same_data_type_in_case (first : PyVal) (rest : list PyVal) :
  same_data_type (first :: rest) = true ->
  forallb (digits_known float_repr) (first :: rest) = true ->
  forall x, In x (first :: rest) -> in_case float_repr first x.
Proof.
  intros Hsame Hdig x Hx.
  pose proof (proj1 (forallb_forall _ _) Hsame x Hx) as Hi.
  pose proof (proj1 (forallb_forall _ _) Hdig x Hx) as Hd.
  destruct first; cbn [in_case type_of] in *.
  - apply isinstance_TNoneType; exact Hi.
  - apply isinstance_Tstr; exact Hi.
  - split; [apply isinstance_Tint; exact Hi|exact Hd].
  - split; [apply isinstance_Tfloat; exact Hi|exact Hd].
  - apply isinstance_Tdate; exact Hi.
  - apply isinstance_Tdatetime; exact Hi.
  - apply isinstance_Ttime; exact Hi.
Qed.

(** The numeric case as nested loops with the digit count of each
    target, when every target has one. *)
Lemma num_scans_rows (fh : bool) (rows : list (list Cell))
  (targets : list PyVal) (st : Scan) :
  (forall x, In x targets -> numeric float_repr x) ->
  for_targets (num_scan float_repr fh rows) targets st
  = for_targets
      (fun t => for_rows (num_body fh (digits_of float_repr t) t) rows)
      targets st.
Proof.
  intros H. apply for_targets_ext. intros t Ht st'.
  apply num_scan_rows. apply H. exact Ht.
Qed.

(** After the homogeneity check, a call is the loop of its case over the
    scan order, then the result statements of the case. *)
Lemma search_as_one_loop (sheet : Worksheet) (first : PyVal)
  (rest : list PyVal) (fh av : bool) :
  same_data_type (first :: rest) = true ->
  forallb (digits_known float_repr) (first :: rest) = true ->
  first <> VNone ->
  search_excl_val_run float_repr sheet (first :: rest) threshold fh av
  = finish (shape_of av first)
      (for_pairs (body_of float_repr threshold fh first)
         (scan_order sheet (first :: rest)) start).
Proof.
  intros Hsame Hdig Hnone.
  pose proof (same_data_type_in_case first rest Hsame Hdig) as Hcase.
  unfold search_excl_val_run, scan_order.
  unfold same_data_type in Hsame. rewrite Hsame. cbn [negb].
  destruct first;
    cbn [type_of PyType_eqb is_Number orb body_of shape_of in_case] in *;
    try (rewrite <- for_targets_pairs; reflexivity).
  - contradiction Hnone; reflexivity.
  - rewrite (num_scans_rows fh _ _ _ Hcase), <- for_targets_pairs.
    reflexivity.
  - rewrite (num_scans_rows fh _ _ _ Hcase), <- for_targets_pairs.
    reflexivity.
Qed.

Lemma search_of_None (sheet : Worksheet) (rest : list PyVal) (fh av : bool) :
  same_data_type (VNone :: rest) = true ->
  search_excl_val_run float_repr sheet (VNone :: rest) threshold fh av
  = (Raise ValueError, []).
Proof.
  intros Hsame. unfold search_excl_val_run.
  unfold same_data_type in Hsame. rewrite Hsame. reflexivity.
Qed.

Lemma body_of_hit (first t : PyVal) (c : Cell) (st : Scan) :
  first <> VNone ->
  in_scan float_repr first t c ->
  equal_hit float_repr t c = true ->
  body_of float_repr threshold true first t c st = Return c (read t c st).
Proof.
  intros Hnone [Ht _] Hhit. destruct first; cbn [body_of in_case] in *.
  - contradiction Hnone; reflexivity.
  - apply str_body_hit; assumption.
  - apply num_body_hit; assumption.
  - apply num_body_hit; assumption.
  - apply (date_body_hit float_repr); assumption.
  - apply (date_body_hit float_repr); assumption.
  - apply (time_body_hit float_repr); assumption.
Qed.

Lemma body_of_miss (first t : PyVal) (c : Cell) (st : Scan) :
  first <> VNone ->
  in_scan float_repr first t c ->
  equal_hit float_repr t c = false ->
  exists st',
    body_of float_repr threshold true first t c st = Continue st'
    /\ cells_read st' = (cells_read st ++ [seen (t, c)])%list.
Proof.
  intros Hnone [Ht Hr] Hhit. destruct first; cbn [body_of in_case] in *.
  - contradiction Hnone; reflexivity.
  - apply str_body_miss; assumption.
  - apply num_body_miss; assumption.
  - apply num_body_miss; assumption.
  - apply (date_body_miss float_repr); assumption.
  - apply (date_body_miss float_repr); assumption.
  - apply (time_body_miss float_repr); assumption.
Qed.

Lemma body_of_collects (first t : PyVal) (c : Cell) (st : Scan) :
  first <> VNone ->
  in_scan float_repr first t c ->
  exists st',
    body_of float_repr threshold false first t c st = Continue st'
    /\ equal_targets st'
       = (if equal_hit float_repr t c
          then append_hit (equal_targets st) c else equal_targets st).
Proof.
  intros Hnone [Ht Hr]. destruct first; cbn [body_of in_case] in *.
  - contradiction Hnone; reflexivity.
  - apply str_body_collects; assumption.
  - apply num_body_collects; assumption.
  - apply num_body_collects; assumption.
  - apply date_body_collects; assumption.
  - apply date_body_collects; assumption.
  - apply time_body_collects; assumption.
Qed.

(** In the case of a text, a date or a time no pair raises. *)
Lemma in_case_no_raise (first t : PyVal) (c : Cell) :
  is_Number first = false ->
  in_case float_repr first t ->
  raises_at t c = false.
Proof.
  intros Hf Ht. unfold raises_at.
  destruct first; try discriminate Hf; cbn [in_case] in Ht;
    destruct t; try discriminate Ht; reflexivity.
Qed.

(** The round at a pair that [round] refuses raises [TypeError], the
    cell read. *)
Lemma body_of_raise (fh : bool) (first t : PyVal) (c : Cell) (st : Scan) :
  first <> VNone ->
  in_case float_repr first t ->
  raises_at t c = true ->
  body_of float_repr threshold fh first t c st
  = Raised TypeError (read t c st).
Proof.
  intros Hnone Ht Hr.
  destruct (is_Number first) eqn:Hf.
  - destruct first; try discriminate Hf; cbn [body_of in_case] in *;
      apply (num_body_raise float_repr); assumption.
  - rewrite (in_case_no_raise first t c Hf Ht) in Hr. discriminate Hr.
Qed.

Lemma shape_of_not_hit (av : bool) (first : PyVal) (st : Scan)
  (coord : string) (v : PyVal) :
  shape_of av first st <> FirstHit coord v.
Proof.
  destruct first; cbn [shape_of];
    unfold str_result, num_result, date_result, time_result;
    destruct av;
    case_conditions; discriminate.
Qed.

Lemma scan_order_in_case (sheet : Worksheet) (first : PyVal)
  (rest : list PyVal) :
  same_data_type (first :: rest) = true ->
  forallb (digits_known float_repr) (first :: rest) = true ->
  Forall (fun p => in_case float_repr first (fst p))
    (scan_order sheet (first :: rest)).
Proof.
  intros Hsame Hdig. apply Forall_forall. intros [x y] Hin. simpl.
  apply (same_data_type_in_case first rest Hsame Hdig).
  unfold scan_order in Hin. apply in_prod_iff in Hin. tauto.
Qed.

Lemma scan_rounds_Forall (sheet : Worksheet) (targets : list PyVal) :
  scan_rounds sheet targets = true ->
  Forall (fun p => raises_at (fst p) (snd p) = false)
    (scan_order sheet targets).
Proof.
  intros H. apply Forall_forall. intros p Hp.
  apply negb_true_iff.
  exact (proj1 (forallb_forall _ _) H p Hp).
Qed.

Lemma scan_order_in_scan (sheet : Worksheet) (first : PyVal)
  (rest : list PyVal) :
  same_data_type (first :: rest) = true ->
  forallb (digits_known float_repr) (first :: rest) = true ->
  scan_rounds sheet (first :: rest) = true ->
  Forall (fun p => in_scan float_repr first (fst p) (snd p))
    (scan_order sheet (first :: rest)).
Proof.
  intros Hsame Hdig Hr.
  exact (Forall_and (scan_order_in_case sheet first rest Hsame Hdig)
           (scan_rounds_Forall sheet (first :: rest) Hr)).
Qed.

(** A round of a first-hit scan returns its cell at an equal hit only,
    and goes on at a miss only. *)
Lemma body_of_flow (first t : PyVal) (c : Cell) (st : Scan) :
  first <> VNone ->
  in_case float_repr first t ->
  match body_of float_repr threshold true first t c st with
  | Return c' _ => c' = c /\ equal_hit float_repr t c = true
  | Continue _ => equal_hit float_repr t c = false
  | Raised _ _ => True
  end.
Proof.
  intros Hnone Ht. destruct (raises_at t c) eqn:Hr.
  - rewrite (body_of_raise true first t c st Hnone Ht Hr). exact I.
  - destruct (equal_hit float_repr t c) eqn:Hh.
    + rewrite (body_of_hit first t c st Hnone (conj Ht Hr) Hh).
      split; reflexivity.
    + destruct (body_of_miss first t c st Hnone (conj Ht Hr) Hh)
        as [st' [E _]].
      rewrite E. reflexivity.
Qed.

(** The first equal pair of the scan order is what a first-hit call
    returns, and the scan stops there. *)
Lemma search_first_hit (sheet : Worksheet) (search_targets : list PyVal)
  (return_all_vals : bool) (pre post : list (PyVal * Cell)) (t : PyVal)
  (c : Cell) :
  same_data_type search_targets = true ->
  forallb (digits_known float_repr) search_targets = true ->
  scan_order sheet search_targets = (pre ++ (t, c) :: post)%list ->
  equal_hit float_repr t c = true ->
  Forall (fun p => equal_hit float_repr (fst p) (snd p) = false) pre ->
  Forall (fun p => raises_at (fst p) (snd p) = false) pre ->
  search_excl_val_run float_repr sheet search_targets threshold true
    return_all_vals
  = (Ok (FirstHit (coordinate c) (value c)),
     map seen (pre ++ [(t, c)])%list).
Proof.
  intros Hsame Hdig Hord Hhit Hpre Hround.
  destruct search_targets as [|first rest].
  { unfold scan_order in Hord. simpl in Hord.
    destruct pre; discriminate Hord. }
  pose proof (scan_order_in_case sheet first rest Hsame Hdig) as Hall.
  rewrite Hord in Hall.
  assert (Hnone : first <> VNone).
  { intros ->. apply Forall_elt in Hall. simpl in Hall. subst t.
    discriminate Hhit. }
  rewrite (search_as_one_loop sheet first rest true return_all_vals
             Hsame Hdig Hnone), Hord.
  assert (Hall' : Forall
                    (fun p => in_scan float_repr first (fst p) (snd p))
                    (pre ++ [(t, c)])%list).
  { apply Forall_app in Hall. destruct Hall as [H1 H2].
    apply Forall_app. split; [exact (Forall_and H1 Hround)|].
    inversion H2; subst. constructor; [|constructor].
    split; [assumption|apply (equal_hit_no_raise float_repr); exact Hhit]. }
  destruct (for_pairs_first_hit
              (body_of float_repr threshold true first)
              (equal_hit float_repr) (in_scan float_repr first)
              (fun t c st => body_of_hit first t c st Hnone)
              (fun t c st => body_of_miss first t c st Hnone)
              pre post t c start Hall' Hhit Hpre) as [st' [E R]].
  rewrite E. simpl. rewrite R. reflexivity.
Qed.

(** C3, amended.  With [return_first_hit=True], on every sheet and
    every non-empty target set of one data type whose numeric targets
    have a digit count: when the scan order (target after target, each
    over the cells row by row) is [pre], then a pair [(t, c)] that passes
    the equality test of the target's kind ([==] for a text, a date and a
    time; [==] of the two values rounded to the target's digit count for
    a number), and no pair of [pre] passes it nor makes [round] raise,
    the call returns [(c.coordinate, c.value)], and the cells it has read
    are those of [pre] and [c], no cell and no target after the hit. *)
Theorem first_hit_returns_first_equal_cell (sheet : Worksheet)
  (search_targets : list PyVal) (return_all_vals : bool)
  (pre post : list (PyVal * Cell)) (t : PyVal) (c : Cell) :
  same_data_type search_targets = true ->
  forallb (digits_known float_repr) search_targets = true ->
  scan_order sheet search_targets = (pre ++ (t, c) :: post)%list ->
  equal_hit float_repr t c = true ->
  Forall (fun p => equal_hit float_repr (fst p) (snd p) = false) pre ->
  Forall (fun p => raises_at (fst p) (snd p) = false) pre ->
  search_excl_val_run float_repr sheet search_targets threshold true
    return_all_vals
  = (Ok (FirstHit (coordinate c) (value c)),
     map seen (pre ++ [(t, c)])%list).
Proof. exact (search_first_hit sheet search_targets return_all_vals pre post t c). Qed.

(** A first hit that a call returns is the first equal pair of the scan
    order. *)
Lemma search_first_hit_sound (sheet : Worksheet)
  (search_targets : list PyVal) (return_all_vals : bool) (coord : string)
  (v : PyVal) (seen_cells : list (PyVal * string)) :
  same_data_type search_targets = true ->
  forallb (digits_known float_repr) search_targets = true ->
  search_excl_val_run float_repr sheet search_targets threshold true
    return_all_vals
  = (Ok (FirstHit coord v), seen_cells) ->
  exists pre t c post,
    scan_order sheet search_targets = (pre ++ (t, c) :: post)%list
    /\ equal_hit float_repr t c = true
    /\ Forall (fun p => equal_hit float_repr (fst p) (snd p) = false) pre
    /\ coord = coordinate c /\ v = value c.
Proof.
  intros Hsame Hdig Hrun.
  destruct search_targets as [|first rest].
  { discriminate Hrun. }
  assert (Hnone : first <> VNone).
  { intros ->.
    rewrite (search_of_None sheet rest true return_all_vals Hsame) in Hrun.
    discriminate Hrun. }
  rewrite (search_as_one_loop sheet first rest true return_all_vals
             Hsame Hdig Hnone) in Hrun.
  destruct (for_pairs (body_of float_repr threshold true first)
              (scan_order sheet (first :: rest)) start)
    as [st'|c st'|e st'] eqn:Eloop; cbn [finish] in Hrun.
  - exfalso. injection Hrun as Hs _.
    exact (shape_of_not_hit return_all_vals first st' coord v Hs).
  - injection Hrun as <- <- _.
    destruct (for_pairs_returned
                (body_of float_repr threshold true first)
                (equal_hit float_repr) (in_case float_repr first)
                (fun t c st => body_of_flow first t c st Hnone)
                (scan_order sheet (first :: rest)) start st' c
                (scan_order_in_case sheet first rest Hsame Hdig) Eloop)
      as [pre [t [post [E [Hhit Hpre]]]]].
    exists pre, t, c, post. repeat split; assumption.
  - discriminate Hrun.
Qed.

(** With both flags off the call returns by the equal cells of the scan:
    for a number their coordinates alone, for a text, a date and a time
    their coordinates and values; with no equal cell the pair
    [(None, None)], but [None] for a time. *)
Lemma search_without_flags (sheet : Worksheet) (first : PyVal)
  (rest : list PyVal) :
  same_data_type (first :: rest) = true ->
  forallb (digits_known float_repr) (first :: rest) = true ->
  scan_rounds sheet (first :: rest) = true ->
  search_excl_val float_repr sheet (first :: rest) threshold false false
  = equal_only first (equal_cells float_repr sheet (first :: rest)).
Proof.
  intros Hsame Hdig Hround. unfold search_excl_val.
  destruct first eqn:Efirst;
    try (rewrite (search_of_None sheet rest false false Hsame);
         reflexivity).
  all: rewrite <- Efirst in *;
    assert (Hnone : first <> VNone) by (rewrite Efirst; discriminate);
    rewrite (search_as_one_loop sheet first rest false false
               Hsame Hdig Hnone);
    destruct (for_pairs_collect
                (body_of float_repr threshold false first)
                (equal_hit float_repr) (in_scan float_repr first)
                (fun t c st => body_of_collects first t c st Hnone)
                (scan_order sheet (first :: rest)) start
                (scan_order_in_scan sheet first rest Hsame Hdig Hround))
      as [st' [E Q]];
    rewrite E; cbn [finish fst];
    rewrite fold_append_hit in Q; cbn [start equal_targets no_hits
                                        Coordinate Value app] in Q;
    fold (equal_cells float_repr sheet (first :: rest)) in Q;
    rewrite Efirst; cbn [shape_of equal_only];
    unfold str_result, num_result, date_result, time_result; rewrite Q;
    rewrite <- Efirst;
    destruct (equal_cells float_repr sheet (first :: rest)); reflexivity.
Qed.

End SearchCases.

Lemma first_hit_returns_first_equal_cell_witness :
  search_excl_val_run (fun _ => "0.0") totals_sheet [VStr "Total"]
    0.8%float true false
  = (Ok (FirstHit "A2" (VStr "Total")),
     [(VStr "Total", "A1"); (VStr "Total", "B1"); (VStr "Total", "A2")]).
Proof.
  apply (first_hit_returns_first_equal_cell (fun _ => "0.0") 0.8%float
           totals_sheet [VStr "Total"] false
           [(VStr "Total", mk_cell "A1" (VStr "Name"));
            (VStr "Total", mk_cell "B1" (VInt 3))]
           [(VStr "Total", mk_cell "B2" (VStr "x"))]
           (VStr "Total") (mk_cell "A2" (VStr "Total"))).
  - reflexivity.
  - reflexivity.
  - reflexivity.
  - reflexivity.
  - repeat constructor.
  - repeat constructor.
Defined.

(** C3, as stated, fails: for the target 5 the first cell returned holds
    5.04, which is not equal to 5, the two being equal after the rounding
    to the one digit of the target; and with 2^64 in the cell before the
    5 no pair is returned, [round] raising [TypeError] there. *)
Lemma first_hit_of_a_number_is_a_rounded_match :
  search_excl_val_run (fun _ => "5.04") [[VFloat 5.04; VInt 5]] [VInt 5]
    0.8%float true false
  = (Ok (FirstHit "A1" (VFloat 5.04)), [(VInt 5, "A1")])
  /\ py_eq (VFloat 5.04) (VInt 5) = false
  /\ py_eq (VInt 5) (VInt 5) = true
  /\ search_excl_val_run (fun _ => "5.04")
       [[VInt 18446744073709551616; VInt 5]] [VInt 5] 0.8%float true false
     = (Raise TypeError, [(VInt 5, "A1")]).
Proof. repeat split; vm_compute; reflexivity. Qed.

(** ** Empty target sequence *)

(** C9. With an empty target sequence the call raises [IndexError], from
    [search_targets[0]], and has read no cell: no check of its own rejects
    the empty sequence with a typed error. *)
Theorem empty_targets_raise_IndexError (float_repr : float -> string)
  (sheet : Worksheet) (threshold : float)
  (return_first_hit return_all_vals : bool) :
  search_excl_val_run float_repr sheet [] threshold return_first_hit
    return_all_vals
  = (Raise IndexError, []).
Proof. reflexivity. Qed.

(** ** Significant digits *)

(** C2. The count is 4 for "1.230"; it is 4 as well for "100" (the
    normalized text is "1E+2", of four characters) and 4 for "0.001" (the
    normalized text is "0.001", whose leading zeros are counted), where
    3 and 1 are expected. *)
Theorem count_significant_digits_of_examples (float_repr : float -> string) :
  count_significant_digits float_repr (VStr "1.230") = Ok 4%nat
  /\ count_significant_digits float_repr (VStr "100") = Ok 4%nat
  /\ count_significant_digits float_repr (VStr "0.001") = Ok 4%nat.
Proof. repeat split; vm_compute; reflexivity. Qed.

Lemma normalize_of_examples :
  (do d <- Dec.normalize (Dec.mk false "100" 0); Ok (Dec.to_string d))
  = Ok "1E+2"
  /\ (do d <- Dec.normalize (Dec.mk false "1" (-3)); Ok (Dec.to_string d))
     = Ok "0.001"
  /\ (do d <- Dec.normalize (Dec.mk false "1230" (-3)); Ok (Dec.to_string d))
     = Ok "1.23".
Proof. repeat split; vm_compute; reflexivity. Qed.

(** ** Range extraction *)

(** C7. For the corners "A1" and "B2" the rows are [range(1, 2)]: the
    result has the one row of A1 and B1, not the two rows of a 2 by 2
    array; the row of A2 and B2 is missing.  The corners in the other
    order give the same array. *)
Theorem get_excl_sheet_vals_A1_B2 (sheet : Worksheet) :
  get_excl_sheet_vals sheet (Scalar (VStr "A1")) (Scalar (VStr "B2"))
  = Ok (array2 [[value_at sheet 1 1; value_at sheet 1 2]])
  /\ get_excl_sheet_vals sheet (Scalar (VStr "B2")) (Scalar (VStr "A1"))
     = Ok (array2 [[value_at sheet 1 1; value_at sheet 1 2]]).
Proof. split; reflexivity. Qed.

(** ** Similar strings *)

(** C8. A tuple as [test] is refused with [TypeError] by the first test
    of the argument, whatever it holds; the list of the same strings gives
    the string that passes, in its stripped form, and its score. *)
Theorem is_similar_of_tuple_raises (float_repr : float -> string)
  (target : PyVal) (l : list PyVal) (threshold : float) (score : bool) :
  is_similar float_repr target (PyTuple l) threshold score = Raise TypeError
  /\ is_similar float_repr (VStr "apple")
       (PyTuple [VStr "appel"; VStr "banana"]) 0.75%float true
     = Raise TypeError
  /\ is_similar float_repr (VStr "apple")
       (PyList [VStr "appel"; VStr "banana"]) 0.75%float true
     = Ok (SimArrays ["appel"] [0.8%float]).
Proof.
  split; [|split; vm_compute; reflexivity].
  unfold is_similar, str_.
  destruct target; try reflexivity.
  destruct (printable _); reflexivity.
Qed.

(** ** The shape of the result *)

(** C1. With both flags off and an equal hit, a numeric target gives the
    bare list of coordinates, without the values, where a text, a date and
    a time target give the dict of coordinates and values. *)
Theorem equal_bucket_shape_by_kind (float_repr : float -> string) :
  search_excl_val float_repr [[VInt 5]] [VInt 5] 0.8%float false false
  = Ok (CoordinateList ["A1"])
  /\ search_excl_val float_repr [[VStr "x"]] [VStr "x"] 0.8%float false false
     = Ok (HitsDict (mk_hits ["A1"] [VStr "x"]))
  /\ search_excl_val float_repr [[VDate (mk_date 2020 1 1)]]
       [VDate (mk_date 2020 1 1)] 0.8%float false false
     = Ok (HitsDict (mk_hits ["A1"] [VDate (mk_date 2020 1 1)]))
  /\ search_excl_val float_repr [[VTime (mk_time 1 0 0 0)]]
       [VTime (mk_time 1 0 0 0)] 0.8%float false false
     = Ok (HitsDict (mk_hits ["A1"] [VTime (mk_time 1 0 0 0)])).
Proof. repeat split; vm_compute; reflexivity. Qed.

(** C6. With both flags off and no equal hit, a time target falls off the
    end of the function, which gives [None]; a text, a number and a date
    target give the pair [(None, None)]. *)
Theorem no_equal_hit_by_kind (float_repr : float -> string) :
  search_excl_val float_repr [[VTime (mk_time 2 0 0 0)]]
    [VTime (mk_time 1 0 0 0)] 0.8%float false false
  = Ok NoneResult
  /\ search_excl_val float_repr [[VStr "y"]] [VStr "x"] 0.8%float false false
     = Ok NonePair
  /\ search_excl_val float_repr [[VInt 7]] [VInt 5] 0.8%float false false
     = Ok NonePair
  /\ search_excl_val float_repr [[VDate (mk_date 2021 1 1)]]
       [VDate (mk_date 2020 1 1)] 0.8%float false false
     = Ok NonePair.
Proof. repeat split; vm_compute; reflexivity. Qed.


(** ** The numeric target 3.14 *)





(** ** The homogeneity check *)

Lemma for_cells_TypeError_after_read (body : Cell -> Scan -> Flow) :
  (forall c st, TypeError_after_read (body c st)) ->
  forall row st, TypeError_after_read (for_cells body row st).
Proof.
  intros Hb row. induction row as [|c row IH]; intros st; simpl.
  - exact I.
  - pose proof (Hb c st) as H. destruct (body c st); auto.
Qed.

Lemma for_rows_TypeError_after_read (body : Cell -> Scan -> Flow) :
  (forall c st, TypeError_after_read (body c st)) ->
  forall rows st, TypeError_after_read (for_rows body rows st).
Proof.
  intros Hb rows. induction rows as [|r rows IH]; intros st; simpl.
  - exact I.
  - pose proof (for_cells_TypeError_after_read body Hb r st) as H.
    destruct (for_cells body r st); auto.
Qed.

Lemma for_targets_TypeError_after_read (scan : PyVal -> Scan -> Flow) :
  (forall t st, TypeError_after_read (scan t st)) ->
  forall targets st, TypeError_after_read (for_targets scan targets st).
Proof.
  intros Hs targets. induction targets as [|t targets IH]; intros st; simpl.
  - exact I.
  - pose proof (Hs t st) as H. destruct (scan t st); auto.
Qed.

Lemma fix_no_TypeError (d : Dec.Decimal) : Dec.fix_ d <> Raise TypeError.
Proof.
  unfold Dec.fix_.
  case_conditions; discriminate.
Qed.

Lemma str_no_TypeError (float_repr : float -> string) (v : PyVal) :
  str_ float_repr v <> Raise TypeError.
Proof. unfold str_. destruct (printable v); discriminate. Qed.

Lemma count_no_TypeError (float_repr : float -> string) (v : PyVal) :
  count_significant_digits float_repr v <> Raise TypeError.
Proof.
  unfold count_significant_digits.
  assert (H0 : match v with
               | VStr s => Ok s
               | _ => str_ float_repr v
               end <> Raise TypeError).
  { destruct v; try apply str_no_TypeError. discriminate. }
  destruct (match v with
            | VStr s => Ok s
            | _ => str_ float_repr v
            end) as [number_str|e]; cbn [bind].
  - destruct (Dec.of_string _) as [d|]; [|discriminate].
    unfold Dec.normalize. pose proof (fix_no_TypeError d) as H.
    destruct (Dec.fix_ d) as [dup|e]; cbn [bind].
    + case_conditions; cbn [bind];
        case_conditions; discriminate.
    + intros E. apply H. injection E as ->. reflexivity.
  - intros E. apply H0. injection E as ->. reflexivity.
Qed.

Lemma read_not_nil (t : PyVal) (c : Cell) (st : Scan) :
  cells_read (read t c st) <> [].
Proof.
  cbn [read cells_read]. destruct (cells_read st); discriminate.
Qed.

Section TypeErrorAfterRead.

Variable float_repr : float -> string.
Variable threshold : float.
Variable fh : bool.

Lemma str_body_TypeError_after_read (t : PyVal) (c : Cell) (st : Scan) :
  TypeError_after_read (str_body float_repr threshold fh t c st).
Proof.
  unfold str_body.
  destruct (_ || _); [exact I|].
  destruct (_ && _); [exact I|].
  destruct (is_similar _ _ _ _) as [r|e].
  - destruct (sim_truthy r); exact I.
  - destruct e; try exact I. cbn [TypeError_after_read].
    destruct (py_eq _ _); apply read_not_nil.
Qed.

Lemma num_body_TypeError_after_read (n : nat) (t : PyVal) (c : Cell)
  (st : Scan) :
  TypeError_after_read (num_body fh n t c st).
Proof.
  unfold num_body.
  destruct (negb _); [exact I|].
  destruct (Np.round (value c) n) as [a|e].
  - destruct (Np.round t n) as [b|e].
    + case_conditions; exact I.
    + destruct e; try exact I. apply read_not_nil.
  - destruct e; try exact I. apply read_not_nil.
Qed.

Lemma date_body_TypeError_after_read (t : PyVal) (c : Cell) (st : Scan) :
  TypeError_after_read (date_body fh t c st).
Proof.
  unfold date_body.
  case_conditions; exact I.
Qed.

Lemma time_body_TypeError_after_read (t : PyVal) (c : Cell) (st : Scan) :
  TypeError_after_read (time_body fh t c st).
Proof.
  unfold time_body.
  case_conditions; exact I.
Qed.

Lemma num_scan_TypeError_after_read (rows : list (list Cell)) (t : PyVal)
  (st : Scan) :
  TypeError_after_read (num_scan float_repr fh rows t st).
Proof.
  unfold num_scan.
  pose proof (str_no_TypeError float_repr t) as Hs.
  destruct (str_ float_repr t) as [s|e]; cbn [bind].
  - pose proof (count_no_TypeError float_repr (VStr s)) as H.
    destruct (count_significant_digits _ _) as [n|e].
    + apply for_rows_TypeError_after_read.
      intros; apply num_body_TypeError_after_read.
    + destruct e; try exact I. contradiction H; reflexivity.
  - destruct e; try exact I. contradiction Hs; reflexivity.
Qed.

Lemma finish_TypeError_after_read (shape : Scan -> SearchResult)
  (f : Flow) :
  TypeError_after_read f ->
  finish shape f <> (Raise TypeError, []).
Proof.
  destruct f as [st|hit st|e st]; cbn [finish]; intros H; try discriminate.
  destruct e; try discriminate. cbn [TypeError_after_read] in H.
  intros E. injection E as E. contradiction.
Qed.

(** Past the homogeneity check, a [TypeError] comes after the read of a
    cell. *)
Lemma same_data_type_TypeError_after_read (sheet : Worksheet)
  (first : PyVal) (rest : list PyVal) (av : bool) :
  same_data_type (first :: rest) = true ->
  search_excl_val_run float_repr sheet (first :: rest) threshold fh av
  <> (Raise TypeError, []).
Proof.
  intros Hsame. unfold search_excl_val_run.
  unfold same_data_type in Hsame. rewrite Hsame. cbn [negb].
  destruct first; cbn [type_of PyType_eqb is_Number orb];
    try discriminate; apply finish_TypeError_after_read.
  - apply for_targets_TypeError_after_read. intros.
    apply for_rows_TypeError_after_read.
    intros; apply str_body_TypeError_after_read.
  - apply for_targets_TypeError_after_read.
    intros; apply num_scan_TypeError_after_read.
  - apply for_targets_TypeError_after_read.
    intros; apply num_scan_TypeError_after_read.
  - apply for_targets_TypeError_after_read. intros.
    apply for_rows_TypeError_after_read.
    intros; apply date_body_TypeError_after_read.
  - apply for_targets_TypeError_after_read. intros.
    apply for_rows_TypeError_after_read.
    intros; apply date_body_TypeError_after_read.
  - apply for_targets_TypeError_after_read. intros.
    apply for_rows_TypeError_after_read.
    intros; apply time_body_TypeError_after_read.
Qed.

End TypeErrorAfterRead.

(** C5, as stated, fails: the targets [1, 1.5] are of one kind, numbers,
    and the call raises [TypeError], a float not being an instance of
    [int]. *)
Lemma int_and_float_targets_rejected :
  mixes_kinds [VInt 1; VFloat 1.5] = false
  /\ search_excl_val_run (fun _ => "1.5") [[VInt 1]] [VInt 1; VFloat 1.5]
       0.8%float true false
     = (Raise TypeError, []).
Proof. split; reflexivity. Qed.

Lemma isinstance_same_kind (x first : PyVal) :
  isinstance x (type_of first) = true ->
  Kind_eqb (kind_of x) (kind_of first) = true.
Proof. destruct x, first; simpl; intros H; try discriminate H; reflexivity. Qed.

(** Targets of two kinds never pass the check. *)
Lemma mixes_kinds_not_same_data_type (first : PyVal) (rest : list PyVal) :
  mixes_kinds (first :: rest) = true ->
  same_data_type (first :: rest) = false.
Proof.
  intros Hmix. destruct (same_data_type (first :: rest)) eqn:E;
    [|reflexivity].
  exfalso. unfold mixes_kinds in Hmix. apply negb_true_iff in Hmix.
  assert (H : forallb (fun t => Kind_eqb (kind_of t) (kind_of first))
                (first :: rest) = true).
  { apply forallb_forall. intros x Hx. apply isinstance_same_kind.
    exact (proj1 (forallb_forall _ _) E x Hx). }
  rewrite H in Hmix. discriminate Hmix.
Qed.

(** C5, amended.  A call with a non-empty target sequence raises
    [TypeError] with no cell read exactly when some target is not an
    instance of the type of the first; targets of two kinds are such.
    So ["a", 1] is rejected before the sheet is touched, and so is
    [1, 1.5]; [1, 2] and [1.0, 1.5] pass the check.  Past the check a
    [TypeError] comes only after the read of a cell, as from [round] at
    an integer beyond 64 bits. *)
Theorem type_error_iff_not_same_data_type (float_repr : float -> string)
  (sheet : Worksheet) (first : PyVal) (rest : list PyVal) (threshold : float)
  (return_first_hit return_all_vals : bool) :
  (search_excl_val_run float_repr sheet (first :: rest) threshold
     return_first_hit return_all_vals = (Raise TypeError, [])
   <-> same_data_type (first :: rest) = false)
  /\ (mixes_kinds (first :: rest) = true ->
      same_data_type (first :: rest) = false)
  /\ same_data_type [VStr "a"; VInt 1] = false
  /\ same_data_type [VInt 1; VFloat 1.5] = false
  /\ same_data_type [VInt 1; VInt 2] = true
  /\ same_data_type [VFloat 1; VFloat 1.5] = true
  /\ search_excl_val_run float_repr
       [[VInt 5; VInt 18446744073709551616]] [VInt 5] threshold false false
     = (Raise TypeError, [(VInt 5, "A1"); (VInt 5, "B1")]).
Proof.
  split; [split|split;
    [apply mixes_kinds_not_same_data_type|repeat split]].
  - intros Hraise. destruct (same_data_type (first :: rest)) eqn:E.
    + exfalso.
      exact (same_data_type_TypeError_after_read float_repr threshold
               return_first_hit sheet first rest return_all_vals E Hraise).
    + reflexivity.
  - intros H. unfold search_excl_val_run.
    unfold same_data_type in H. rewrite H. reflexivity.
Qed.

Lemma type_error_iff_not_same_data_type_witness :
  search_excl_val_run (fun _ => "1.5") [[VInt 1]] [VStr "a"; VInt 1]
    0.8%float true false
  = (Raise TypeError, [])
  /\ search_excl_val_run (fun _ => "1.5") [[VInt 1]] [VInt 1; VFloat 1.5]
       0.8%float true false
     = (Raise TypeError, []).
Proof.
  split.
  - exact (proj2
             (proj1 (type_error_iff_not_same_data_type (fun _ => "1.5")
                       [[VInt 1]] (VStr "a") [VInt 1] 0.8%float true false))
             eq_refl).
  - exact (proj2
             (proj1 (type_error_iff_not_same_data_type (fun _ => "1.5")
                       [[VInt 1]] (VInt 1) [VFloat 1.5] 0.8%float true
                       false))
             eq_refl).
Defined.

(** ** A tuple corner that is not a pair of integers *)

(** C10, as stated, fails: with the start corner [("a", 2)] and the end
    corner [5], which is neither a string nor a tuple, the call raises
    [TypeError], from the test of the end corner. *)
Lemma malformed_tuple_and_rejected_end_corner :
  get_excl_sheet_vals [[VInt 1]] (PyTuple [VStr "a"; VInt 2])
    (Scalar (VInt 5))
  = Raise TypeError.
Proof. reflexivity. Qed.

Lemma corner_of_malformed_tuple (x y : PyVal) :
  both_int x y = false -> corner (PyTuple [x; y]) = Ok None.
Proof.
  unfold both_int. intros H.
  destruct x, y; try discriminate H; reflexivity.
Qed.

(** C10, amended.  A corner that is a tuple of two elements, not both
    integers, passes its test with the row and the column unassigned: the
    test raises no [TypeError].  The call then raises [UnboundLocalError]
    whenever the test of the other corner raises nothing; when that test
    raises, its error is the error of the call. *)
Theorem malformed_tuple_corner_is_unbound (sheet : Worksheet) (x y : PyVal)
  (other : PyObj) :
  both_int x y = false ->
  corner (PyTuple [x; y]) = Ok None
  /\ (forall rc, corner other = Ok rc ->
        get_excl_sheet_vals sheet (PyTuple [x; y]) other
        = Raise UnboundLocalError
        /\ get_excl_sheet_vals sheet other (PyTuple [x; y])
           = Raise UnboundLocalError)
  /\ (forall e, corner other = Raise e ->
        get_excl_sheet_vals sheet (PyTuple [x; y]) other = Raise e
        /\ get_excl_sheet_vals sheet other (PyTuple [x; y]) = Raise e).
Proof.
  intros H. pose proof (corner_of_malformed_tuple x y H) as Hc.
  split; [exact Hc|split].
  - intros rc Ho. unfold get_excl_sheet_vals. rewrite Hc, Ho. cbn [bind].
    split; [reflexivity|]. destruct rc as [[r c]|]; reflexivity.
  - intros e Ho. unfold get_excl_sheet_vals. rewrite Hc, Ho.
    split; reflexivity.
Qed.

Lemma malformed_tuple_corner_is_unbound_witness :
  get_excl_sheet_vals [[VInt 1]] (PyTuple [VStr "a"; VInt 2])
    (Scalar (VStr "B2"))
  = Raise UnboundLocalError
  /\ get_excl_sheet_vals [[VInt 1]] (Scalar (VStr "B2"))
       (PyTuple [VFloat 1; VInt 2])
     = Raise UnboundLocalError.
Proof.
  split.
  - exact (proj1
             (proj1 (proj2 (malformed_tuple_corner_is_unbound [[VInt 1]]
                              (VStr "a") (VInt 2) (Scalar (VStr "B2"))
                              eq_refl))
                (Some (2, 2)) eq_refl)).
  - exact (proj2
             (proj1 (proj2 (malformed_tuple_corner_is_unbound [[VInt 1]]
                              (VFloat 1) (VInt 2) (Scalar (VStr "B2"))
                              eq_refl))
                (Some (2, 2)) eq_refl)).
Defined.

(** ** The fuel of the library loops is enough *)

Section DifflibFuel.

Local Open Scope nat_scope.

Variables a b : list ascii.

Lemma row_step_within (ai : ascii) (i blo bhi alo : nat) (bs : list ascii)
  (j left : nat) (old : list nat) (best : Difflib.Match) :
  alo <= i ->
  left <= i - alo ->
  Forall (fun v => v <= i - alo) old ->
  within alo (S i) best ->
  Forall (fun v => v <= S i - alo)
    (fst (Difflib.row_step ai i blo bhi bs j left old best))
  /\ within alo (S i)
       (snd (Difflib.row_step ai i blo bhi bs j left old best)).
Proof.
  intros Hi. revert j left old best.
  induction bs as [|bj bs IH]; intros j left old best Hleft Hold Hbest.
  - simpl. split; [constructor|exact Hbest].
  - assert (Hhere : hd 0 old <= i - alo).
    { destruct old; simpl; [lia|]. inversion Hold; assumption. }
    assert (Htl : Forall (fun v => v <= i - alo) (tl old)).
    { destruct old; simpl; [constructor|]. inversion Hold; assumption. }
    cbn [Difflib.row_step].
    destruct (Ascii.eqb ai bj && (blo <=? j) && (j <? bhi)).
    + destruct best as [[bi bjj] bk].
      set (best' := if bk <? S left then (i + 1 - S left, j + 1 - S left, S left)
                    else (bi, bjj, bk)).
      assert (Hb' : within alo (S i) best').
      { unfold best'. clear best' IH.
        destruct (bk <? S left); [|exact Hbest].
        unfold within. split; lia. }
      destruct (IH (S j) (hd 0 old) (tl old) best' Hhere Htl Hb') as [H1 H2].
      destruct (Difflib.row_step ai i blo bhi bs (S j) (hd 0 old) (tl old)
                  best') as [row best''].
      cbn [fst snd] in *. split; [constructor; [lia|exact H1]|exact H2].
    + destruct (IH (S j) (hd 0 old) (tl old) best Hhere Htl Hbest) as [H1 H2].
      destruct (Difflib.row_step ai i blo bhi bs (S j) (hd 0 old) (tl old)
                  best) as [row best''].
      cbn [fst snd] in *. split; [constructor; [lia|exact H1]|exact H2].
Qed.

Lemma rows_within (blo bhi alo : nat) (a_part : list ascii) (i : nat)
  (j2len : list nat) (best : Difflib.Match) :
  alo <= i ->
  Forall (fun v => v <= i - alo) j2len ->
  within alo i best ->
  within alo (i + List.length a_part)
    (Difflib.rows b blo bhi a_part i j2len best).
Proof.
  revert i j2len best.
  induction a_part as [|ai a_part IH]; intros i j2len best Hi Hj Hbest.
  - simpl. rewrite Nat.add_0_r. exact Hbest.
  - assert (Hbest' : within alo (S i) best).
    { destruct best as [[bi bj] bk]. simpl in *. lia. }
    simpl. replace (i + S (List.length a_part))
      with (S i + List.length a_part) by lia.
    destruct (Difflib.popular b ai).
    + apply IH; [lia|constructor|exact Hbest'].
    + destruct (row_step_within ai i blo bhi alo b 0 0 j2len best Hi
                  (Nat.le_0_l _) Hj Hbest') as [H1 H2].
      destruct (Difflib.row_step ai i blo bhi b 0 0 j2len best)
        as [row best''].
      simpl in *. apply IH; [lia|exact H1|exact H2].
Qed.

Lemma extend_left_within (fuel alo blo hi : nat) (m : Difflib.Match) :
  within alo hi m -> within alo hi (Difflib.extend_left fuel a b alo blo m).
Proof.
  revert m. induction fuel as [|fuel IH]; intros [[bi bj] bk] H.
  - exact H.
  - simpl.
    destruct ((alo <? bi) && (blo <? bj) && Difflib.same_at a b (bi - 1) (bj - 1))
      eqn:E; [|exact H].
    apply IH. apply andb_true_iff in E. destruct E as [E _].
    apply andb_true_iff in E. destruct E as [E _].
    apply Nat.ltb_lt in E. simpl in *. lia.
Qed.

Lemma extend_right_within (fuel alo ahi bhi : nat) (m : Difflib.Match) :
  within alo ahi m ->
  within alo ahi (Difflib.extend_right fuel a b ahi bhi m).
Proof.
  revert m. induction fuel as [|fuel IH]; intros [[bi bj] bk] H.
  - exact H.
  - simpl.
    destruct ((bi + bk <? ahi) && (bj + bk <? bhi)
              && Difflib.same_at a b (bi + bk) (bj + bk)) eqn:E; [|exact H].
    apply IH. apply andb_true_iff in E. destruct E as [E _].
    apply andb_true_iff in E. destruct E as [E _].
    apply Nat.ltb_lt in E. simpl in *. lia.
Qed.

(** The longest match of a range lies in the range. *)
Lemma find_longest_match_within (alo ahi blo bhi : nat) :
  alo <= ahi ->
  within alo ahi (Difflib.find_longest_match a b alo ahi blo bhi).
Proof.
  intros H. unfold Difflib.find_longest_match.
  apply extend_right_within, extend_left_within.
  assert (Hlen : List.length (firstn (ahi - alo) (skipn alo a)) <= ahi - alo).
  { rewrite length_firstn. lia. }
  pose proof (rows_within blo bhi alo (firstn (ahi - alo) (skipn alo a)) alo
                [] (alo, blo, 0) (Nat.le_refl _) (Forall_nil _)) as R.
  assert (W0 : within alo alo (alo, blo, 0)) by (simpl; lia).
  specialize (R W0).
  destruct (Difflib.rows b blo bhi (firstn (ahi - alo) (skipn alo a)) alo []
              (alo, blo, 0)) as [[bi bj] bk].
  simpl in *. lia.
Qed.

(** The sum of the matching blocks does not depend on the fuel, from one
    more than the length of the range on: [ratio] gives it enough. *)
Lemma matches_fuel (fuel1 fuel2 alo ahi blo bhi : nat) :
  alo <= ahi -> ahi - alo < fuel1 -> ahi - alo < fuel2 ->
  Difflib.matches fuel1 a b alo ahi blo bhi
  = Difflib.matches fuel2 a b alo ahi blo bhi.
Proof.
  revert fuel2 alo ahi blo bhi.
  induction fuel1 as [|fuel1 IH]; intros fuel2 alo ahi blo bhi Hle H1 H2.
  - lia.
  - destruct fuel2 as [|fuel2]; [lia|]. simpl.
    pose proof (find_longest_match_within alo ahi blo bhi Hle) as W.
    destruct (Difflib.find_longest_match a b alo ahi blo bhi)
      as [[i j] k].
    simpl in W. destruct (k =? 0) eqn:Ek; [reflexivity|].
    apply Nat.eqb_neq in Ek.
    assert (L : (if (alo <? i) && (blo <? j)
                 then Difflib.matches fuel1 a b alo i blo j else 0)
                = (if (alo <? i) && (blo <? j)
                   then Difflib.matches fuel2 a b alo i blo j else 0)).
    { destruct ((alo <? i) && (blo <? j)); [|reflexivity].
      apply IH; lia. }
    assert (R : (if (i + k <? ahi) && (j + k <? bhi)
                 then Difflib.matches fuel1 a b (i + k) ahi (j + k) bhi else 0)
                = (if (i + k <? ahi) && (j + k <? bhi)
                   then Difflib.matches fuel2 a b (i + k) ahi (j + k) bhi
                   else 0)).
    { destruct ((i + k <? ahi) && (j + k <? bhi)); [|reflexivity].
      apply IH; lia. }
    rewrite L, R. reflexivity.
Qed.

End DifflibFuel.

(** The loop of [normalize] ends within the length of the digits. *)
Lemma strip_trailing_fuel (fuel : nat) (digits : string) (e : Z) :
  (String.length digits <= fuel)%nat ->
  Dec.strip_trailing (S fuel) digits e = Dec.strip_trailing fuel digits e.
Proof.
  revert digits e. induction fuel as [|fuel IH]; intros digits e H.
  - destruct digits; [reflexivity|simpl in H; lia].
  - change (Dec.strip_trailing (S (S fuel)) digits e)
      with (if Str.endswith_char "0" digits && (e <? Dec.Emax)
            then Dec.strip_trailing (S fuel) (Str.drop_last digits) (e + 1)
            else (digits, e)).
    change (Dec.strip_trailing (S fuel) digits e)
      with (if Str.endswith_char "0" digits && (e <? Dec.Emax)
            then Dec.strip_trailing fuel (Str.drop_last digits) (e + 1)
            else (digits, e)).
    destruct (Str.endswith_char "0" digits && (e <? Dec.Emax));
      [|reflexivity].
    apply IH.
    assert (D : forall s, (String.length (Str.drop_last s)
                           <= String.length s - 1)%nat).
    { induction s as [|c s IHs]; [simpl; lia|].
      destruct s; [simpl; lia|].
      change (Str.drop_last (String c (String a s)))
        with (String c (Str.drop_last (String a s))).
      simpl in *. lia. }
    pose proof (D digits). destruct digits; simpl in *; lia.
Qed.

(** ** A list of candidates *)

Lemma similar_loop_filter (target : string) (threshold : float)
  (test : list string) (strs : list string) (scores : list float) :
  similar_loop target threshold test strs scores
  = ((strs
      ++ filter
           (fun s => PrimFloat.leb threshold (Difflib.ratio target s)) test)
     %list,
     (scores
      ++ map (Difflib.ratio target)
           (filter
              (fun s => PrimFloat.leb threshold (Difflib.ratio target s))
              test))%list).
Proof.
  revert strs scores. induction test as [|s test IH]; intros strs scores.
  - simpl. rewrite !app_nil_r. reflexivity.
  - cbn [similar_loop filter].
    destruct (PrimFloat.leb threshold (Difflib.ratio target s)).
    + rewrite IH. cbn [map]. rewrite <- !app_assoc. reflexivity.
    + apply IH.
Qed.

Lemma stripped_strs_printable (float_repr : float -> string)
  (l : list PyVal) :
  stripped_strs float_repr l
  = if forallb printable l
    then Ok (map (fun ti => Str.strip (py_str float_repr ti)) l)
    else Raise ValueError.
Proof.
  induction l as [|ti l IH]; [reflexivity|].
  cbn [stripped_strs forallb map]. unfold str_.
  destruct (printable ti); cbn [bind andb]; [|reflexivity].
  rewrite IH. destruct (forallb printable l); reflexivity.
Qed.

Lemma target_text (float_repr : float -> string) (target : PyVal) :
  match target with
  | VStr s => Ok s
  | _ => str_ float_repr target
  end
  = if printable target then Ok (py_str float_repr target)
    else Raise ValueError.
Proof. destruct target; reflexivity. Qed.

(** For a list, with the score asked for, [is_similar] returns the
    stripped string forms of the elements whose ratio to the stripped
    target reaches the threshold, in order, with their ratios, and
    [(None, None)] when there is none; a target that [str] refuses
    raises [TypeError], an element that it refuses [ValueError]. *)
Lemma is_similar_of_list (float_repr : float -> string) (target : PyVal)
  (l : list PyVal) (threshold : float) :
  is_similar float_repr target (PyList l) threshold true
  = if printable target then
      if forallb printable l then
        Ok (match
               filter
                 (fun s =>
                    PrimFloat.leb threshold
                      (Difflib.ratio
                         (Str.strip (py_str float_repr target)) s))
                 (map (fun ti => Str.strip (py_str float_repr ti)) l)
             with
             | [] => SimNonePair
             | hits =>
                 SimArrays hits
                   (map
                      (Difflib.ratio
                         (Str.strip (py_str float_repr target)))
                      hits)
             end)
      else Raise ValueError
    else Raise TypeError.
Proof.
  unfold is_similar. rewrite target_text.
  destruct (printable target); [|reflexivity].
  rewrite stripped_strs_printable.
  destruct (forallb printable l); [|reflexivity].
  cbn [bind]. rewrite similar_loop_filter. cbn [app].
  destruct (filter _ _); reflexivity.
Qed.

(** ** The state of a full scan *)

Section FullScan.

Variable float_repr : float -> string.
Variable threshold : float.

Lemma str_body_full (t : PyVal) (c : Cell) (st : Scan) :
  type_of t = Tstr ->
  str_body float_repr threshold false t c st
  = Continue (full_step float_repr threshold st (t, c)).
Proof.
  intros Ht. destruct t; try discriminate Ht.
  unfold str_body, full_step, equal_hit, similar_hit.
  cbn [fst snd]. unfold seen. cbn [fst snd].
  destruct (value c) eqn:Ev;
    cbn [type_of PyType_eqb is_Number isinstance issubclass orb py_eq];
    try reflexivity.
  - rewrite andb_false_r, is_similar_of_text. cbn [py_str].
    unfold is_similar_str. cbn [sim_truthy].
    destruct (String.eqb s0 s), (PrimFloat.leb _ _); reflexivity.
  - rewrite is_similar_of_text. cbn [py_str andb].
    unfold is_similar_str. cbn [sim_truthy].
    destruct (PrimFloat.leb _ _); reflexivity.
Qed.

Lemma num_body_full (t : PyVal) (c : Cell) (st : Scan) :
  numeric float_repr t ->
  raises_at t c = false ->
  num_body false (digits_of float_repr t) t c st
  = Continue (full_step float_repr threshold st (t, c)).
Proof.
  intros Ht Hr. unfold full_step, similar_hit. cbn [fst snd].
  rewrite (equal_hit_numeric float_repr t c Ht).
  rewrite (num_body_cases _ _ _ _ _ (proj1 Ht)), Hr.
  unfold seen. cbn [fst snd]. destruct Ht as [Hn _].
  destruct t; try discriminate Hn;
    destruct (is_Number (value c)); cbn [negb andb];
    try destruct (Np.round_eqb _ _ _); reflexivity.
Qed.

Lemma date_body_full (t : PyVal) (c : Cell) (st : Scan) :
  kind_of t = KDate ->
  date_body false t c st
  = Continue (full_step float_repr threshold st (t, c)).
Proof.
  intros Ht. unfold date_body, full_step, similar_hit, equal_hit, seen.
  cbn [fst snd].
  destruct t; try discriminate Ht;
    destruct (value c) eqn:Ev;
    cbn [type_of isinstance issubclass PyType_eqb negb andb orb py_eq];
    try reflexivity.
  - destruct (date_eqb _ _); reflexivity.
  - destruct (datetime_eqb _ _); reflexivity.
Qed.

Lemma time_body_full (t : PyVal) (c : Cell) (st : Scan) :
  type_of t = Ttime ->
  time_body false t c st
  = Continue (full_step float_repr threshold st (t, c)).
Proof.
  intros Ht. unfold time_body, full_step, similar_hit, equal_hit, seen.
  cbn [fst snd].
  destruct t; try discriminate Ht;
    destruct (value c) eqn:Ev;
    cbn [type_of isinstance issubclass PyType_eqb negb andb orb py_eq];
    try reflexivity.
  destruct (time_eqb _ _); reflexivity.
Qed.

Lemma body_of_full (first t : PyVal) (c : Cell) (st : Scan) :
  first <> VNone ->
  in_scan float_repr first t c ->
  body_of float_repr threshold false first t c st
  = Continue (full_step float_repr threshold st (t, c)).
Proof.
  intros Hnone [Ht Hr]. destruct first; cbn [body_of in_case] in *.
  - contradiction Hnone; reflexivity.
  - apply str_body_full; assumption.
  - apply num_body_full; assumption.
  - apply num_body_full; assumption.
  - apply date_body_full; assumption.
  - apply date_body_full; assumption.
  - apply time_body_full; assumption.
Qed.

(** Without an equal hit a round is the same with and without
    [return_first_hit]. *)
Lemma body_of_miss_full (first t : PyVal) (c : Cell) (st : Scan) :
  first <> VNone ->
  in_scan float_repr first t c ->
  equal_hit float_repr t c = false ->
  body_of float_repr threshold true first t c st
  = Continue (full_step float_repr threshold st (t, c)).
Proof.
  intros Hnone Hs Hmiss.
  rewrite <- (body_of_full first t c st Hnone Hs). destruct Hs as [Ht Hr].
  destruct first; cbn [body_of in_case] in *.
  - contradiction Hnone; reflexivity.
  - destruct t; try discriminate Ht. unfold equal_hit in Hmiss.
    unfold str_body. rewrite Hmiss. reflexivity.
  - rewrite (equal_hit_numeric float_repr t c Ht) in Hmiss.
    rewrite !(num_body_cases _ _ _ _ _ (proj1 Ht)), Hr.
    destruct (is_Number (value c)); cbn [negb andb] in *;
      [rewrite Hmiss|]; reflexivity.
  - rewrite (equal_hit_numeric float_repr t c Ht) in Hmiss.
    rewrite !(num_body_cases _ _ _ _ _ (proj1 Ht)), Hr.
    destruct (is_Number (value c)); cbn [negb andb] in *;
      [rewrite Hmiss|]; reflexivity.
  - unfold date_body. destruct t; try discriminate Ht;
      unfold equal_hit in Hmiss; rewrite Hmiss; reflexivity.
  - unfold date_body. destruct t; try discriminate Ht;
      unfold equal_hit in Hmiss; rewrite Hmiss; reflexivity.
  - unfold time_body. destruct t; try discriminate Ht;
      unfold equal_hit in Hmiss; rewrite Hmiss; reflexivity.
Qed.

Lemma for_pairs_full (fh : bool) (first : PyVal) (l : list (PyVal * Cell))
  (st : Scan) :
  first <> VNone ->
  Forall (fun p => in_scan float_repr first (fst p) (snd p)) l ->
  (fh = true ->
   Forall (fun p => equal_hit float_repr (fst p) (snd p) = false) l) ->
  for_pairs (body_of float_repr threshold fh first) l st
  = Continue (fold_left (full_step float_repr threshold) l st).
Proof.
  intros Hnone. revert st.
  induction l as [|[t c] l IH]; intros st HP Hmiss.
  - reflexivity.
  - inversion HP as [|? ? Pt HP']; subst. simpl in Pt. simpl.
    assert (E : body_of float_repr threshold fh first t c st
                = Continue (full_step float_repr threshold st (t, c))).
    { destruct fh.
      - apply body_of_miss_full; try assumption.
        specialize (Hmiss eq_refl). inversion Hmiss; assumption.
      - apply body_of_full; assumption. }
    rewrite E. apply IH; [exact HP'|].
    intros Hfh. specialize (Hmiss Hfh). inversion Hmiss; assumption.
Qed.

Lemma fold_full_step_equal (l : list (PyVal * Cell)) (st : Scan) :
  equal_targets (fold_left (full_step float_repr threshold) l st)
  = fold_left append_hit
      (map snd (filter (fun p => equal_hit float_repr (fst p) (snd p)) l))
      (equal_targets st).
Proof.
  revert st. induction l as [|p l IH]; intros st; [reflexivity|].
  simpl. rewrite IH. cbn [full_step equal_targets].
  destruct (equal_hit float_repr (fst p) (snd p)); reflexivity.
Qed.

Lemma fold_full_step_similar (l : list (PyVal * Cell)) (st : Scan) :
  similar_target_hits (fold_left (full_step float_repr threshold) l st)
  = fold_left append_hit
      (map snd
         (filter (fun p => similar_hit float_repr threshold (fst p) (snd p))
            l))
      (similar_target_hits st).
Proof.
  revert st. induction l as [|p l IH]; intros st; [reflexivity|].
  simpl. rewrite IH. cbn [full_step similar_target_hits].
  destruct (similar_hit float_repr threshold (fst p) (snd p)); reflexivity.
Qed.

Lemma fold_full_step_read (l : list (PyVal * Cell)) (st : Scan) :
  cells_read (fold_left (full_step float_repr threshold) l st)
  = (cells_read st ++ map seen l)%list.
Proof.
  revert st. induction l as [|p l IH]; intros st.
  - simpl. rewrite app_nil_r. reflexivity.
  - simpl. rewrite IH. cbn [full_step cells_read].
    rewrite <- app_assoc. reflexivity.
Qed.

(** The state at the end of a scan that no first hit cuts short. *)
Lemma scan_end_state (sheet : Worksheet) (targets : list PyVal) :
  fold_left (full_step float_repr threshold) (scan_order sheet targets) start
  = mk_scan (hits_of (equal_cells float_repr sheet targets))
      (hits_of (similar_cells float_repr threshold sheet targets))
      (map seen (scan_order sheet targets)).
Proof.
  pose proof (fold_full_step_equal (scan_order sheet targets) start) as E.
  pose proof (fold_full_step_similar (scan_order sheet targets) start) as S.
  pose proof (fold_full_step_read (scan_order sheet targets) start) as R.
  destruct (fold_left (full_step float_repr threshold)
              (scan_order sheet targets) start) as [eq sim rd].
  cbn [equal_targets similar_target_hits cells_read] in *.
  rewrite fold_append_hit in E, S. subst. reflexivity.
Qed.

(** A call that no first hit cuts short: the whole scan order is read,
    and the result statements of the case see the equal and the similar
    cells of the scan. *)
Lemma search_uncut (sheet : Worksheet) (first : PyVal) (rest : list PyVal)
  (fh av : bool) :
  same_data_type (first :: rest) = true ->
  forallb (digits_known float_repr) (first :: rest) = true ->
  scan_rounds sheet (first :: rest) = true ->
  first <> VNone ->
  (fh = true -> equal_cells float_repr sheet (first :: rest) = []) ->
  search_excl_val_run float_repr sheet (first :: rest) threshold fh av
  = (Ok (shape_of av first
           (mk_scan (hits_of (equal_cells float_repr sheet (first :: rest)))
              (hits_of
                 (similar_cells float_repr threshold sheet (first :: rest)))
              (map seen (scan_order sheet (first :: rest))))),
     map seen (scan_order sheet (first :: rest))).
Proof.
  intros Hsame Hdig Hround Hnone Hfh.
  rewrite (search_as_one_loop float_repr threshold sheet first rest fh av
             Hsame Hdig Hnone).
  rewrite (for_pairs_full fh first (scan_order sheet (first :: rest)) start
             Hnone
             (scan_order_in_scan float_repr sheet first rest Hsame Hdig
                Hround)).
  - rewrite scan_end_state. reflexivity.
  - intros E. specialize (Hfh E). unfold equal_cells in Hfh.
    apply Forall_forall. intros p Hp.
    destruct (equal_hit float_repr (fst p) (snd p)) eqn:Eh; [|reflexivity].
    exfalso.
    assert (Hin : In p (filter
                          (fun p => equal_hit float_repr (fst p) (snd p))
                          (scan_order sheet (first :: rest)))).
    { apply filter_In. split; assumption. }
    apply (in_map snd) in Hin. rewrite Hfh in Hin. exact Hin.
Qed.


End FullScan.

(** ** More of [search_excl_val] *)

(** X1. With [return_first_hit=False] and [return_all_vals=True], on
    every sheet and every target set of one supported data type, when no
    pair of the scan makes [round] raise, the call reads every cell for
    every target and returns one dict: the equal cells in scan order,
    then the similar cells in scan order. *)
Theorem all_values_scan (float_repr : float -> string) (threshold : float)
  (sheet : Worksheet) (first : PyVal) (rest : list PyVal) :
  same_data_type (first :: rest) = true ->
  forallb (digits_known float_repr) (first :: rest) = true ->
  scan_rounds sheet (first :: rest) = true ->
  first <> VNone ->
  search_excl_val_run float_repr sheet (first :: rest) threshold false true
  = (Ok (HitsDict
           (hits_of
              (equal_cells float_repr sheet (first :: rest)
               ++ similar_cells float_repr threshold sheet (first :: rest)))),
     map seen (scan_order sheet (first :: rest))).
Proof.
  intros Hsame Hdig Hround Hnone.
  rewrite (search_uncut float_repr threshold sheet first rest false true
             Hsame Hdig Hround Hnone); [|discriminate].
  unfold hits_of. rewrite !map_app.
  destruct first; try reflexivity.
  - contradiction Hnone; reflexivity.
  - cbn [shape_of]. unfold time_result. cbn [negb].
    rewrite andb_false_r. reflexivity.
Qed.

Lemma all_values_scan_witness :
  search_excl_val_run (fun _ => "5.04") numbers_sheet [VInt 5] 0.8%float
    false true
  = (Ok (HitsDict
           (mk_hits ["A1"; "A2"; "B2"] [VInt 5; VFloat 5.04; VInt 7])),
     [(VInt 5, "A1"); (VInt 5, "B1"); (VInt 5, "A2"); (VInt 5, "B2")]).
Proof.
  rewrite (all_values_scan (fun _ => "5.04") 0.8%float numbers_sheet
             (VInt 5) [] eq_refl eq_refl eq_refl).
  - vm_compute. reflexivity.
  - discriminate.
Defined.

(** X2. With both flags off, on every sheet and every target set of one
    data type, when no pair of the scan makes [round] raise, the call
    returns by the equal cells of the scan: none, the pair
    [(None, None)], or [None] for a time target; some, their coordinates
    alone for a number target, and the dict of their coordinates and
    values for a text, a date and a time target. *)
Theorem equal_cells_decide_result (float_repr : float -> string)
  (threshold : float) (sheet : Worksheet) (first : PyVal)
  (rest : list PyVal) :
  same_data_type (first :: rest) = true ->
  forallb (digits_known float_repr) (first :: rest) = true ->
  scan_rounds sheet (first :: rest) = true ->
  search_excl_val float_repr sheet (first :: rest) threshold false false
  = equal_only first (equal_cells float_repr sheet (first :: rest)).
Proof. exact (search_without_flags float_repr threshold sheet first rest). Qed.

Lemma equal_cells_decide_result_witness :
  search_excl_val (fun _ => "5.04") numbers_sheet [VInt 5] 0.8%float
    false false
  = Ok (CoordinateList ["A1"; "A2"]).
Proof.
  rewrite (equal_cells_decide_result (fun _ => "5.04") 0.8%float
             numbers_sheet (VInt 5) [] eq_refl eq_refl eq_refl).
  vm_compute. reflexivity.
Defined.

(** X3. When no cell is an equal hit for any target and no pair of the
    scan makes [round] raise, [return_first_hit] changes nothing: the
    call reads the whole scan order and returns what the full scan
    returns. *)
Theorem first_hit_without_equal_cell (float_repr : float -> string)
  (threshold : float) (sheet : Worksheet) (first : PyVal)
  (rest : list PyVal) (return_all_vals : bool) :
  same_data_type (first :: rest) = true ->
  forallb (digits_known float_repr) (first :: rest) = true ->
  scan_rounds sheet (first :: rest) = true ->
  first <> VNone ->
  equal_cells float_repr sheet (first :: rest) = [] ->
  search_excl_val_run float_repr sheet (first :: rest) threshold true
    return_all_vals
  = search_excl_val_run float_repr sheet (first :: rest) threshold false
      return_all_vals
  /\ snd (search_excl_val_run float_repr sheet (first :: rest) threshold
            true return_all_vals)
     = map seen (scan_order sheet (first :: rest)).
Proof.
  intros Hsame Hdig Hround Hnone Hempty.
  rewrite (search_uncut float_repr threshold sheet first rest true
             return_all_vals Hsame Hdig Hround Hnone (fun _ => Hempty)).
  rewrite (search_uncut float_repr threshold sheet first rest false
             return_all_vals Hsame Hdig Hround Hnone); [|discriminate].
  split; reflexivity.
Qed.

Lemma first_hit_without_equal_cell_witness :
  search_excl_val_run (fun _ => "5.04") numbers_sheet [VStr "six"]
    0.8%float true false
  = (Ok NonePair,
     [(VStr "six", "A1"); (VStr "six", "B1"); (VStr "six", "A2");
      (VStr "six", "B2")]).
Proof.
  rewrite (proj1 (first_hit_without_equal_cell (fun _ => "5.04") 0.8%float
                    numbers_sheet (VStr "six") [] false eq_refl eq_refl
                    eq_refl ltac:(discriminate) eq_refl)).
  vm_compute. reflexivity.
Defined.

(** X4. A pair that a first-hit call returns is the coordinate and the
    value of a cell that passes the equality test of its target, and no
    pair before it in the scan order passes it. *)
Theorem first_hit_is_an_equal_cell (float_repr : float -> string)
  (threshold : float) (sheet : Worksheet) (search_targets : list PyVal)
  (return_all_vals : bool) (coord : string) (v : PyVal)
  (seen_cells : list (PyVal * string)) :
  same_data_type search_targets = true ->
  forallb (digits_known float_repr) search_targets = true ->
  search_excl_val_run float_repr sheet search_targets threshold true
    return_all_vals
  = (Ok (FirstHit coord v), seen_cells) ->
  exists pre t c post,
    scan_order sheet search_targets = (pre ++ (t, c) :: post)%list
    /\ equal_hit float_repr t c = true
    /\ Forall (fun p => equal_hit float_repr (fst p) (snd p) = false) pre
    /\ coord = coordinate c /\ v = value c.
Proof.
  exact (search_first_hit_sound float_repr threshold sheet search_targets
           return_all_vals coord v seen_cells).
Qed.

Lemma first_hit_is_an_equal_cell_witness :
  exists pre t c post,
    scan_order numbers_sheet [VInt 7]
    = (pre ++ (t, c) :: post)%list
    /\ equal_hit (fun _ => "5.04") t c = true
    /\ Forall (fun p => equal_hit (fun _ => "5.04") (fst p) (snd p) = false)
         pre
    /\ "B2" = coordinate c /\ VInt 7 = value c.
Proof.
  apply (first_hit_is_an_equal_cell (fun _ => "5.04") 0.8%float
           numbers_sheet [VInt 7] false "B2" (VInt 7)
           [(VInt 7, "A1"); (VInt 7, "B1"); (VInt 7, "A2"); (VInt 7, "B2")]
           eq_refl eq_refl).
  vm_compute. reflexivity.
Defined.

(** ** Coordinates and values go in step *)

Lemma parallel_append (h : Hits) (c : Cell) :
  parallel h -> parallel (append_hit h c).
Proof.
  unfold parallel. intros H. cbn [append_hit Coordinate Value].
  rewrite !length_app, H. reflexivity.
Qed.

Lemma parallel_read (t : PyVal) (c : Cell) (st : Scan) :
  parallel_scan st -> parallel_scan (read t c st).
Proof. intros H. exact H. Qed.

Lemma parallel_add_equal (c : Cell) (st : Scan) :
  parallel_scan st -> parallel_scan (add_equal c st).
Proof.
  intros [H1 H2]. split; [apply parallel_append; exact H1|exact H2].
Qed.

Lemma parallel_add_similar (c : Cell) (st : Scan) :
  parallel_scan st -> parallel_scan (add_similar c st).
Proof.
  intros [H1 H2]. split; [exact H1|apply parallel_append; exact H2].
Qed.

Lemma for_cells_parallel (body : Cell -> Scan -> Flow) :
  (forall c st, parallel_scan st -> parallel_flow (body c st)) ->
  forall row st, parallel_scan st -> parallel_flow (for_cells body row st).
Proof.
  intros Hb row. induction row as [|c row IH]; intros st Hst; simpl.
  - exact Hst.
  - pose proof (Hb c st Hst) as H. destruct (body c st); auto.
Qed.

Lemma for_rows_parallel (body : Cell -> Scan -> Flow) :
  (forall c st, parallel_scan st -> parallel_flow (body c st)) ->
  forall rows st, parallel_scan st -> parallel_flow (for_rows body rows st).
Proof.
  intros Hb rows. induction rows as [|r rows IH]; intros st Hst; simpl.
  - exact Hst.
  - pose proof (for_cells_parallel body Hb r st Hst) as H.
    destruct (for_cells body r st); auto.
Qed.

Lemma for_targets_parallel (scan : PyVal -> Scan -> Flow) :
  (forall t st, parallel_scan st -> parallel_flow (scan t st)) ->
  forall targets st,
    parallel_scan st -> parallel_flow (for_targets scan targets st).
Proof.
  intros Hs targets. induction targets as [|t targets IH]; intros st Hst;
    simpl.
  - exact Hst.
  - pose proof (Hs t st Hst) as H. destruct (scan t st); auto.
Qed.

Section ParallelBodies.

Variable float_repr : float -> string.
Variable threshold : float.
Variable fh : bool.

Lemma str_body_parallel (t : PyVal) (c : Cell) (st : Scan) :
  parallel_scan st ->
  parallel_flow (str_body float_repr threshold fh t c st).
Proof.
  intros H. unfold str_body.
  destruct (_ || _); [exact H|].
  destruct (_ && _); [exact H|].
  destruct (is_similar _ _ _ _) as [r|e];
    case_conditions; cbn [parallel_flow];
    repeat first [apply parallel_add_similar | apply parallel_add_equal
                 | apply parallel_read]; exact H.
Qed.

Lemma num_body_parallel (n : nat) (t : PyVal) (c : Cell) (st : Scan) :
  parallel_scan st -> parallel_flow (num_body fh n t c st).
Proof.
  intros H. unfold num_body.
  destruct (negb _); [exact H|].
  destruct (Np.round (value c) n) as [a|e]; [|exact H].
  destruct (Np.round t n) as [b|e]; [|exact H].
  case_conditions; cbn [parallel_flow];
    repeat first [apply parallel_add_similar | apply parallel_add_equal
                 | apply parallel_read]; exact H.
Qed.

Lemma date_body_parallel (t : PyVal) (c : Cell) (st : Scan) :
  parallel_scan st -> parallel_flow (date_body fh t c st).
Proof.
  intros H. unfold date_body.
  case_conditions; cbn [parallel_flow];
    repeat first [apply parallel_add_similar | apply parallel_add_equal
                 | apply parallel_read]; exact H.
Qed.

Lemma time_body_parallel (t : PyVal) (c : Cell) (st : Scan) :
  parallel_scan st -> parallel_flow (time_body fh t c st).
Proof.
  intros H. unfold time_body.
  case_conditions; cbn [parallel_flow];
    repeat first [apply parallel_add_similar | apply parallel_add_equal
                 | apply parallel_read]; exact H.
Qed.

Lemma num_scan_parallel (rows : list (list Cell)) (t : PyVal) (st : Scan) :
  parallel_scan st -> parallel_flow (num_scan float_repr fh rows t st).
Proof.
  intros H. unfold num_scan.
  destruct (do s <- str_ float_repr t;
            count_significant_digits float_repr (VStr s)) as [n|e];
    [|exact H].
  apply for_rows_parallel; [|exact H]. intros; apply num_body_parallel.
  assumption.
Qed.

End ParallelBodies.

Lemma parallel_start : parallel_scan start.
Proof. split; reflexivity. Qed.

Lemma all_vals_parallel (st : Scan) :
  parallel_scan st -> parallel (all_vals st).
Proof.
  intros [H1 H2]. unfold parallel in *. cbn [all_vals Coordinate Value].
  rewrite !length_app, H1, H2. reflexivity.
Qed.

Lemma finish_parallel (shape : Scan -> SearchResult) (f : Flow) (h : Hits) :
  (forall st, parallel_scan st -> shape st = HitsDict h -> parallel h) ->
  parallel_flow f ->
  fst (finish shape f) = Ok (HitsDict h) -> parallel h.
Proof.
  intros Hshape Hf. destruct f as [st|hit st|e st]; simpl; intros E.
  - injection E as E. exact (Hshape st Hf E).
  - discriminate E.
  - discriminate E.
Qed.

Lemma shape_parallel (av : bool) (first : PyVal) (st : Scan) (h : Hits) :
  parallel_scan st -> shape_of av first st = HitsDict h -> parallel h.
Proof.
  intros Hst. pose proof (all_vals_parallel st Hst) as Ha.
  destruct Hst as [He _].
  destruct first; cbn [shape_of];
    unfold str_result, num_result, date_result, time_result;
    case_conditions; intros E; try discriminate E;
    injection E as <-; assumption.
Qed.

(** X5. Whatever the sheet, the targets and the flags, a dict that the
    call returns has as many coordinates as values. *)
Theorem returned_dict_is_parallel (float_repr : float -> string)
  (sheet : Worksheet) (search_targets : list PyVal) (threshold : float)
  (return_first_hit return_all_vals : bool) (h : Hits) :
  search_excl_val float_repr sheet search_targets threshold return_first_hit
    return_all_vals
  = Ok (HitsDict h) ->
  List.length (Coordinate h) = List.length (Value h).
Proof.
  unfold search_excl_val, search_excl_val_run.
  destruct search_targets as [|first rest]; [discriminate|].
  destruct (negb (forallb _ _)); [discriminate|].
  destruct first; cbn [type_of PyType_eqb is_Number orb];
    try discriminate.
  - apply (finish_parallel _ _ h (fun st => shape_parallel return_all_vals (VStr s) st h)).
    apply for_targets_parallel; [|exact parallel_start]. intros.
    apply for_rows_parallel; [|assumption].
    intros; apply str_body_parallel; assumption.
  - apply (finish_parallel _ _ h (fun st => shape_parallel return_all_vals (VInt z) st h)).
    apply for_targets_parallel; [|exact parallel_start].
    intros; apply num_scan_parallel; assumption.
  - apply (finish_parallel _ _ h (fun st => shape_parallel return_all_vals (VFloat f) st h)).
    apply for_targets_parallel; [|exact parallel_start].
    intros; apply num_scan_parallel; assumption.
  - apply (finish_parallel _ _ h (fun st => shape_parallel return_all_vals (VDate d) st h)).
    apply for_targets_parallel; [|exact parallel_start]. intros.
    apply for_rows_parallel; [|assumption].
    intros; apply date_body_parallel; assumption.
  - apply (finish_parallel _ _ h
             (fun st => shape_parallel return_all_vals (VDatetime d) st h)).
    apply for_targets_parallel; [|exact parallel_start]. intros.
    apply for_rows_parallel; [|assumption].
    intros; apply date_body_parallel; assumption.
  - apply (finish_parallel _ _ h (fun st => shape_parallel return_all_vals (VTime t) st h)).
    apply for_targets_parallel; [|exact parallel_start]. intros.
    apply for_rows_parallel; [|assumption].
    intros; apply time_body_parallel; assumption.
Qed.

Lemma returned_dict_is_parallel_witness :
  List.length (Coordinate (mk_hits ["A1"; "A2"; "B2"]
                             [VInt 5; VFloat 5.04; VInt 7]))
  = List.length (Value (mk_hits ["A1"; "A2"; "B2"]
                          [VInt 5; VFloat 5.04; VInt 7])).
Proof.
  apply (returned_dict_is_parallel (fun _ => "5.04") numbers_sheet [VInt 5]
           0.8%float false true).
  vm_compute. reflexivity.
Defined.

(** ** What a first hit holds *)

Lemma date_eqb_eq (a b : date) : date_eqb a b = true -> a = b.
Proof.
  destruct a, b. unfold date_eqb. cbn [year month day]. intros H.
  apply andb_true_iff in H. destruct H as [H H3].
  apply andb_true_iff in H. destruct H as [H1 H2].
  apply Z.eqb_eq in H1, H2, H3. subst. reflexivity.
Qed.

Lemma time_eqb_eq (a b : time) : time_eqb a b = true -> a = b.
Proof.
  destruct a, b. unfold time_eqb. cbn [hour minute second microsecond].
  intros H.
  apply andb_true_iff in H. destruct H as [H H4].
  apply andb_true_iff in H. destruct H as [H H3].
  apply andb_true_iff in H. destruct H as [H1 H2].
  apply Z.eqb_eq in H1, H2, H3, H4. subst. reflexivity.
Qed.

Lemma datetime_eqb_eq (a b : datetime) : datetime_eqb a b = true -> a = b.
Proof.
  destruct a, b. unfold datetime_eqb. cbn [dt_date dt_time]. intros H.
  apply andb_true_iff in H. destruct H as [H1 H2].
  apply date_eqb_eq in H1. apply time_eqb_eq in H2. subst. reflexivity.
Qed.

(** Off the numbers, [==] holds of one value only. *)
Lemma py_eq_eq (v t : PyVal) :
  is_Number t = false -> py_eq v t = true -> v = t.
Proof.
  intros Hn H. destruct t; try discriminate Hn;
    destruct v; try discriminate H; cbn [py_eq] in H.
  - reflexivity.
  - apply String.eqb_eq in H. subst. reflexivity.
  - apply date_eqb_eq in H. subst. reflexivity.
  - apply datetime_eqb_eq in H. subst. reflexivity.
  - apply time_eqb_eq in H. subst. reflexivity.
Qed.

Lemma not_number_digits_known (float_repr : float -> string)
  (first : PyVal) (rest : list PyVal) :
  is_Number first = false ->
  same_data_type (first :: rest) = true ->
  forallb (digits_known float_repr) (first :: rest) = true
  /\ forall x, In x (first :: rest) -> is_Number x = false.
Proof.
  intros Hn Hsame.
  assert (H : forall x, In x (first :: rest) -> is_Number x = false).
  { intros x Hx.
    pose proof (proj1 (forallb_forall _ _) Hsame x Hx) as Hi.
    destruct first; try discriminate Hn; destruct x; try discriminate Hi;
      reflexivity. }
  split; [|exact H].
  apply forallb_forall. intros x Hx. specialize (H x Hx).
  destruct x; try discriminate H; reflexivity.
Qed.

(** X6. For targets that are texts, dates, datetimes or times, the value
    that a first-hit call returns is one of the targets; the rounded
    comparison of the numbers gives no such promise. *)
Theorem first_hit_value_is_a_target (float_repr : float -> string)
  (threshold : float) (sheet : Worksheet) (first : PyVal)
  (rest : list PyVal) (return_all_vals : bool) (coord : string) (v : PyVal)
  (seen_cells : list (PyVal * string)) :
  is_Number first = false ->
  same_data_type (first :: rest) = true ->
  search_excl_val_run float_repr sheet (first :: rest) threshold true
    return_all_vals
  = (Ok (FirstHit coord v), seen_cells) ->
  In v (first :: rest).
Proof.
  intros Hn Hsame Hrun.
  destruct (not_number_digits_known float_repr first rest Hn Hsame)
    as [Hdig Hnum].
  destruct (search_first_hit_sound float_repr threshold sheet (first :: rest)
              return_all_vals coord v seen_cells Hsame Hdig Hrun)
    as [pre [t [c [post [E [Hhit [_ [_ Hv]]]]]]]].
  assert (Ht : In t (first :: rest)).
  { assert (Hin : In (t, c) (scan_order sheet (first :: rest))).
    { rewrite E. apply in_elt. }
    unfold scan_order in Hin. apply in_prod_iff in Hin. tauto. }
  pose proof (Hnum t Ht) as Hnt.
  assert (Heq : py_eq (value c) t = true).
  { destruct t; try discriminate Hnt; try exact Hhit. discriminate Hhit. }
  rewrite Hv, (py_eq_eq (value c) t Hnt Heq). exact Ht.
Qed.

Lemma first_hit_value_is_a_target_witness :
  In (VStr "five") [VStr "four"; VStr "five"].
Proof.
  apply (first_hit_value_is_a_target (fun _ => "5.04") 0.8%float
           numbers_sheet (VStr "four") [VStr "five"] false "B1"
           (VStr "five")
           [(VStr "four", "A1"); (VStr "four", "B1"); (VStr "four", "A2");
            (VStr "four", "B2"); (VStr "five", "A1"); (VStr "five", "B1")]
           eq_refl eq_refl).
  vm_compute. reflexivity.
Defined.

(** ** More of [get_excl_sheet_vals] *)

(** The corners in increasing order. *)
Lemma normalized_corners (a b : Z) :
  (if a >? b then (b, a) else (a, b)) = (Z.min a b, Z.max a b).
Proof.
  destruct (a >? b) eqn:E.
  - apply Z.gtb_lt in E. rewrite Z.min_r, Z.max_l by lia. reflexivity.
  - assert (a <= b) by (destruct (Z.gtb_spec a b); [discriminate|lia]).
    rewrite Z.min_l, Z.max_r by lia. reflexivity.
Qed.

(** The call on two corners that pass their tests. *)
Lemma get_excl_sheet_vals_of_corners (sheet : Worksheet)
  (start_Cord end_Cord : PyObj) (r1 c1 r2 c2 : Z) :
  corner start_Cord = Ok (Some (r1, c1)) ->
  corner end_Cord = Ok (Some (r2, c2)) ->
  get_excl_sheet_vals sheet start_Cord end_Cord
  = (do values_extracted <-
       extract_rows sheet (range (Z.min r1 r2) (Z.max r1 r2))
         (range (Z.min c1 c2) (Z.max c1 c2 + 1));
     if (Z.min r1 r2 =? Z.max r1 r2) || (Z.min c1 c2 =? Z.max c1 c2)
     then Ok (array1 (List.concat values_extracted))
     else Ok (array2 values_extracted)).
Proof.
  intros Hs He. unfold get_excl_sheet_vals. rewrite Hs, He. cbn [bind].
  rewrite (normalized_corners r1 r2), (normalized_corners c1 c2).
  reflexivity.
Qed.

(** X7. When both corners pass their tests, the call gives the same
    result with the corners exchanged. *)
Theorem corners_in_any_order (sheet : Worksheet)
  (start_Cord end_Cord : PyObj) (s e : option (Z * Z)) :
  corner start_Cord = Ok s ->
  corner end_Cord = Ok e ->
  get_excl_sheet_vals sheet start_Cord end_Cord
  = get_excl_sheet_vals sheet end_Cord start_Cord.
Proof.
  intros Hs He.
  destruct s as [[r1 c1]|], e as [[r2 c2]|].
  - rewrite (get_excl_sheet_vals_of_corners sheet _ _ r1 c1 r2 c2 Hs He),
      (get_excl_sheet_vals_of_corners sheet _ _ r2 c2 r1 c1 He Hs).
    rewrite (Z.min_comm r2 r1), (Z.max_comm r2 r1), (Z.min_comm c2 c1),
      (Z.max_comm c2 c1). reflexivity.
  - unfold get_excl_sheet_vals. rewrite Hs, He. reflexivity.
  - unfold get_excl_sheet_vals. rewrite Hs, He. reflexivity.
  - unfold get_excl_sheet_vals. rewrite Hs, He. reflexivity.
Qed.

Lemma corners_in_any_order_witness :
  get_excl_sheet_vals numbers_sheet (PyTuple [VInt 3; VInt 1])
    (Scalar (VStr "B1"))
  = get_excl_sheet_vals numbers_sheet (Scalar (VStr "B1"))
      (PyTuple [VInt 3; VInt 1]).
Proof.
  apply (corners_in_any_order numbers_sheet (PyTuple [VInt 3; VInt 1])
           (Scalar (VStr "B1")) (Some (3, 1)) (Some (1, 2)));
    reflexivity.
Defined.

(** X8. Two corners on one row give the empty array, whatever the
    columns: the rows of the extraction are [range(row, row)]. *)
Theorem one_row_range_is_empty (sheet : Worksheet)
  (start_Cord end_Cord : PyObj) (r c1 c2 : Z) :
  corner start_Cord = Ok (Some (r, c1)) ->
  corner end_Cord = Ok (Some (r, c2)) ->
  get_excl_sheet_vals sheet start_Cord end_Cord = Ok (array1 []).
Proof.
  intros Hs He.
  rewrite (get_excl_sheet_vals_of_corners sheet _ _ r c1 r c2 Hs He).
  rewrite Z.min_id, Z.max_id. unfold range. rewrite Z.sub_diag.
  cbn [Z.to_nat seq map extract_rows bind]. rewrite Z.eqb_refl.
  reflexivity.
Qed.

Lemma one_row_range_is_empty_witness :
  get_excl_sheet_vals numbers_sheet (Scalar (VStr "A1")) (Scalar (VStr "B1"))
  = Ok (array1 []).
Proof.
  apply (one_row_range_is_empty numbers_sheet (Scalar (VStr "A1"))
           (Scalar (VStr "B1")) 1 1 2); reflexivity.
Defined.

Lemma range_lower (lo hi x : Z) : In x (range lo hi) -> lo <= x < hi.
Proof.
  unfold range. intros H. apply in_map_iff in H.
  destruct H as [k [Hk Hin]]. apply in_seq in Hin. lia.
Qed.

Lemma cell_value_at (sheet : Worksheet) (r c : Z) :
  1 <= r <= last_row -> 1 <= c ->
  cell_value sheet r c = Ok (value_at sheet (Z.to_nat r) (Z.to_nat c)).
Proof.
  intros Hr Hc. unfold cell_value, value_at.
  destruct (r <? 1) eqn:Er; [apply Z.ltb_lt in Er; lia|].
  destruct (c <? 1) eqn:Ec; [apply Z.ltb_lt in Ec; lia|].
  destruct (last_row <? r) eqn:El; [apply Z.ltb_lt in El; lia|].
  cbn [orb]. rewrite !Z2Nat.inj_sub by lia. reflexivity.
Qed.

Lemma row_values_at (sheet : Worksheet) (r : Z) (cols : list Z) :
  1 <= r <= last_row -> (forall c, In c cols -> 1 <= c) ->
  row_values sheet r cols
  = Ok (map (fun c => value_at sheet (Z.to_nat r) (Z.to_nat c)) cols).
Proof.
  intros Hr. induction cols as [|c cols IH]; intros Hc.
  - reflexivity.
  - cbn [row_values map].
    rewrite (cell_value_at sheet r c Hr (Hc c (or_introl eq_refl))).
    cbn [bind]. rewrite IH; [reflexivity|].
    intros c' Hc'. apply Hc. right; exact Hc'.
Qed.

Lemma extract_rows_at (sheet : Worksheet) (rows cols : list Z) :
  (forall r, In r rows -> 1 <= r <= last_row) ->
  (forall c, In c cols -> 1 <= c) ->
  extract_rows sheet rows cols
  = Ok (map
          (fun r =>
             map (fun c => value_at sheet (Z.to_nat r) (Z.to_nat c)) cols)
          rows).
Proof.
  intros Hr Hc. induction rows as [|r rows IH].
  - reflexivity.
  - cbn [extract_rows map].
    rewrite (row_values_at sheet r cols (Hr r (or_introl eq_refl)) Hc).
    cbn [bind]. rewrite IH; [reflexivity|].
    intros r' Hr'. apply Hr. right; exact Hr'.
Qed.

(** X9. For corners on two rows, at rows from 1 to the last row of a
    worksheet and columns from 1 on, and cell values of one sort, which
    an array holds as they are: the call returns the values of the rows
    from the lower row up to, and without, the upper row, each over the
    columns from the lower to the upper one, both included; as rows of a
    two-dimensional array, or flattened when the corners are on one
    column. *)
Theorem extracted_range (sheet : Worksheet) (start_Cord end_Cord : PyObj)
  (r1 c1 r2 c2 : Z) :
  corner start_Cord = Ok (Some (r1, c1)) ->
  corner end_Cord = Ok (Some (r2, c2)) ->
  r1 <> r2 -> 1 <= Z.min r1 r2 -> Z.max r1 r2 <= last_row + 1 ->
  1 <= Z.min c1 c2 ->
  let rows :=
    map
      (fun r =>
         map (fun c => value_at sheet (Z.to_nat r) (Z.to_nat c))
           (range (Z.min c1 c2) (Z.max c1 c2 + 1)))
      (range (Z.min r1 r2) (Z.max r1 r2)) in
  one_dtype (List.concat rows) = true ->
  get_excl_sheet_vals sheet start_Cord end_Cord
  = Ok (if c1 =? c2 then array1 (List.concat rows) else array2 rows)
  /\ List.length rows = Z.to_nat (Z.max r1 r2 - Z.min r1 r2)
  /\ (forall row, In row rows ->
        List.length row = Z.to_nat (Z.max c1 c2 - Z.min c1 c2 + 1)).
Proof.
  intros Hs He Hr Hrow Hlast Hcol rows _.
  rewrite (get_excl_sheet_vals_of_corners sheet _ _ r1 c1 r2 c2 Hs He).
  rewrite extract_rows_at.
  - cbn [bind]. fold rows.
    assert (E1 : (Z.min r1 r2 =? Z.max r1 r2) = false).
    { apply Z.eqb_neq. lia. }
    assert (E2 : (Z.min c1 c2 =? Z.max c1 c2) = (c1 =? c2)).
    { destruct (c1 =? c2) eqn:E.
      - apply Z.eqb_eq in E. subst. rewrite Z.min_id, Z.max_id.
        apply Z.eqb_refl.
      - apply Z.eqb_neq in E. apply Z.eqb_neq. lia. }
    rewrite E1, E2. cbn [orb]. split; [destruct (c1 =? c2); reflexivity|].
    split.
    + unfold rows, range. rewrite !length_map, length_seq. reflexivity.
    + intros row Hin. unfold rows in Hin. apply in_map_iff in Hin.
      destruct Hin as [r [<- _]]. unfold range.
      rewrite !length_map, length_seq. f_equal. lia.
  - intros r Hin. apply range_lower in Hin. lia.
  - intros c Hin. apply range_lower in Hin. lia.
Qed.

Lemma extracted_range_witness :
  get_excl_sheet_vals [[VInt 1; VInt 2]; [VInt 3; VInt 4]; [VInt 5; VInt 6]]
    (Scalar (VStr "B3")) (Scalar (VStr "A1"))
  = Ok (array2 [[VInt 1; VInt 2]; [VInt 3; VInt 4]]).
Proof.
  exact (proj1 (extracted_range
                  [[VInt 1; VInt 2]; [VInt 3; VInt 4]; [VInt 5; VInt 6]]
                  (Scalar (VStr "B3")) (Scalar (VStr "A1")) 3 2 1 1
                  eq_refl eq_refl ltac:(discriminate) ltac:(discriminate)
                  ltac:(discriminate) ltac:(discriminate) eq_refl)).
Defined.

(** X10. For corners on two rows whose lower row or lower column is
    below 1, the call raises [ValueError], from the first cell it asks
    the sheet for. *)
Theorem extraction_below_one (sheet : Worksheet)
  (start_Cord end_Cord : PyObj) (r1 c1 r2 c2 : Z) :
  corner start_Cord = Ok (Some (r1, c1)) ->
  corner end_Cord = Ok (Some (r2, c2)) ->
  r1 <> r2 -> Z.min r1 r2 < 1 \/ Z.min c1 c2 < 1 ->
  get_excl_sheet_vals sheet start_Cord end_Cord = Raise ValueError.
Proof.
  intros Hs He Hr Hlow.
  rewrite (get_excl_sheet_vals_of_corners sheet _ _ r1 c1 r2 c2 Hs He).
  unfold range.
  destruct (Z.to_nat (Z.max r1 r2 - Z.min r1 r2)) as [|n] eqn:En; [lia|].
  destruct (Z.to_nat (Z.max c1 c2 + 1 - Z.min c1 c2)) as [|m] eqn:Em; [lia|].
  cbn [seq map extract_rows row_values Z.of_nat]. rewrite !Z.add_0_r.
  unfold cell_value.
  assert (E : (Z.min r1 r2 <? 1) || (Z.min c1 c2 <? 1) = true).
  { apply orb_true_iff. destruct Hlow; [left|right]; apply Z.ltb_lt;
      assumption. }
  rewrite E. reflexivity.
Qed.

Lemma extraction_below_one_witness :
  get_excl_sheet_vals numbers_sheet (PyTuple [VInt 0; VInt 1])
    (PyTuple [VInt 2; VInt 2])
  = Raise ValueError.
Proof.
  apply (extraction_below_one numbers_sheet (PyTuple [VInt 0; VInt 1])
           (PyTuple [VInt 2; VInt 2]) 0 1 2 2 eq_refl eq_refl).
  - discriminate.
  - left. reflexivity.
Defined.

(** ** Coordinates *)

Lemma span_digits_uint (d : Decimal.uint) (rest : string) :
  Str.span_digits (NilEmpty.string_of_uint d ++ rest)
  = (NilEmpty.string_of_uint d ++ fst (Str.span_digits rest),
     snd (Str.span_digits rest)).
Proof.
  induction d; cbn [NilEmpty.string_of_uint append];
    try (cbn [Str.span_digits]; rewrite IHd; reflexivity).
  destruct (Str.span_digits rest); reflexivity.
Qed.

Lemma digits_of_uint_acc (d : Decimal.uint) (p : positive) :
  fold_left digit_step
    (list_ascii_of_string (NilEmpty.string_of_uint d)) (Zpos p)
  = Zpos (Pos.of_uint_acc d p).
Proof.
  revert p. induction d; intros p;
    cbn [NilEmpty.string_of_uint list_ascii_of_string fold_left
           Pos.of_uint_acc];
    try reflexivity;
    match goal with
    | |- fold_left _ _ ?a = Zpos (Pos.of_uint_acc _ ?q) =>
        replace a with (Zpos q) by (unfold digit_step; digit_code; lia)
    end; apply IHd.
Qed.

Lemma digits_of_uint (d : Decimal.uint) :
  fold_left digit_step
    (list_ascii_of_string (NilEmpty.string_of_uint d)) 0
  = Z.of_N (Pos.of_uint d).
Proof.
  induction d;
    cbn [NilEmpty.string_of_uint list_ascii_of_string fold_left Pos.of_uint];
    try reflexivity; try exact IHd;
    match goal with
    | |- fold_left _ _ ?a = Z.of_N (Npos (Pos.of_uint_acc _ ?q)) =>
        replace a with (Zpos q) by (unfold digit_step; digit_code; lia)
    end; apply digits_of_uint_acc.
Qed.

Lemma of_Z_pos (p : positive) :
  Str.of_Z (Zpos p) = NilEmpty.string_of_uint (Pos.to_uint p).
Proof.
  unfold Str.of_Z. cbn [Z.to_int NilZero.string_of_int].
  unfold Pos.to_int, NilZero.string_of_int, NilZero.string_of_uint.
  pose proof (DecimalPos.Unsigned.to_uint_nonnil p) as H.
  destruct (Pos.to_uint p); [contradiction H; reflexivity|reflexivity..].
Qed.

(** [int(str(z)) = z] for a positive integer. *)
Lemma digits_to_Z_of_Z (p : positive) :
  Str.digits_to_Z (Str.of_Z (Zpos p)) = Zpos p.
Proof.
  rewrite of_Z_pos. unfold Str.digits_to_Z.
  change (fun acc c => 10 * acc + (Z.of_nat (nat_of_ascii c) - 48))
    with digit_step.
  rewrite digits_of_uint, DecimalPos.Unsigned.of_to. reflexivity.
Qed.

(** The decimal digits of a positive integer do not start with a
    zero. *)
Lemma to_uint_head (p : positive) :
  match Pos.to_uint p with
  | Decimal.Nil | Decimal.D0 _ => False
  | _ => True
  end.
Proof.
  pose proof (DecimalPos.Unsigned.to_of (Pos.to_uint p)) as H.
  rewrite DecimalPos.Unsigned.of_to in H. cbn [N.to_uint] in H.
  pose proof (DecimalPos.Unsigned.to_uint_nonzero p) as Hz.
  destruct (Pos.to_uint p) as [|d| | | | | | | | |]; try exact I.
  - discriminate H.
  - unfold Decimal.unorm in H. cbn [Decimal.nzhead] in H.
    pose proof (DecimalFacts.nb_digits_nzhead d) as Hn.
    destruct (Decimal.nzhead d) eqn:En; try discriminate H.
    + apply Hz. exact H.
    + injection H as ->. cbn [Decimal.nb_digits] in Hn. lia.
Qed.

Lemma digits_lower (d : Decimal.uint) (acc : Z) :
  0 <= acc ->
  acc * 10 ^ Z.of_nat (String.length (NilEmpty.string_of_uint d))
  <= fold_left digit_step
       (list_ascii_of_string (NilEmpty.string_of_uint d)) acc.
Proof.
  revert acc. induction d; intros acc Hacc;
    cbn [NilEmpty.string_of_uint list_ascii_of_string fold_left
           String.length];
    try (cbn; lia);
    rewrite Nat2Z.inj_succ, Z.pow_succ_r by lia;
    (eapply Z.le_trans;
     [|apply IHd; unfold digit_step; digit_code; lia]);
    unfold digit_step; digit_code;
    assert (0 < 10 ^ Z.of_nat (String.length (NilEmpty.string_of_uint d)))
      by (apply Z.pow_pos_nonneg; lia); nia.
Qed.

(** An integer of [n] digits is at least [10 ^ (n - 1)]. *)
Lemma of_Z_length_lower (p : positive) :
  10 ^ (Str.len (Str.of_Z (Zpos p)) - 1) <= Zpos p.
Proof.
  assert (Hv : fold_left digit_step
                 (list_ascii_of_string
                    (NilEmpty.string_of_uint (Pos.to_uint p))) 0
               = Zpos p).
  { rewrite digits_of_uint, DecimalPos.Unsigned.of_to. reflexivity. }
  rewrite of_Z_pos. rewrite <- Hv. unfold Str.len.
  pose proof (to_uint_head p) as Hh.
  destruct (Pos.to_uint p) as [|d|d|d|d|d|d|d|d|d|d]; try contradiction;
    cbn [NilEmpty.string_of_uint list_ascii_of_string fold_left
           String.length];
    rewrite Nat2Z.inj_succ;
    replace (Z.succ (Z.of_nat (String.length (NilEmpty.string_of_uint d)))
             - 1)
      with (Z.of_nat (String.length (NilEmpty.string_of_uint d))) by lia;
    (eapply Z.le_trans;
     [|apply digits_lower; unfold digit_step; digit_code; lia]);
    unfold digit_step; digit_code;
    assert (0 < 10 ^ Z.of_nat (String.length (NilEmpty.string_of_uint d)))
      by (apply Z.pow_pos_nonneg; lia); nia.
Qed.

(** A positive integer below [10 ^ k] has at most [k] digits. *)
Lemma of_Z_length_bound (z k : Z) :
  0 < z -> 0 <= k -> z < 10 ^ k -> Str.len (Str.of_Z z) <= k.
Proof.
  intros Hz Hk Hlt. destruct z as [|p|p]; try lia.
  pose proof (of_Z_length_lower p) as H.
  destruct (Z_le_gt_dec (Str.len (Str.of_Z (Z.pos p))) k) as [L|G];
    [exact L|].
  exfalso.
  assert (10 ^ k <= 10 ^ (Str.len (Str.of_Z (Z.pos p)) - 1)).
  { apply Z.pow_le_mono_r; lia. }
  lia.
Qed.

(** The rows of a worksheet have at most seven digits. *)
Lemma row_digits (r : Z) :
  1 <= r <= last_row ->
  Str.len (Str.of_Z r) <= Str.int_max_str_digits.
Proof.
  intros Hr. apply Z.le_trans with 7; [|discriminate].
  apply of_Z_length_bound; [lia|lia|].
  unfold last_row in Hr. change (10 ^ 7) with 10000000. lia.
Qed.

(** The text of a positive integer starts with a digit. *)
Lemma of_Z_pos_head (p : positive) :
  exists c r, Str.of_Z (Zpos p) = String c r /\ Str.is_digit c = true.
Proof.
  rewrite of_Z_pos.
  pose proof (DecimalPos.Unsigned.to_uint_nonnil p) as H.
  destruct (Pos.to_uint p); [contradiction H; reflexivity|..];
    cbn [NilEmpty.string_of_uint]; eexists; eexists; split; reflexivity.
Qed.

Lemma digit_not_alpha (c : ascii) :
  Str.is_digit c = true -> is_alpha c = false /\ c <> "$"%char.
Proof.
  unfold Str.is_digit, is_alpha. intros H.
  apply andb_true_iff in H. destruct H as [H1 H2].
  apply Nat.leb_le in H1, H2. split.
  - apply orb_false_iff. split; apply andb_false_iff.
    + left. apply Nat.leb_gt. lia.
    + left. apply Nat.leb_gt. lia.
  - intros ->. vm_compute in H1. lia.
Qed.

Lemma span_alpha_app (letters rest : string) (c : ascii) :
  forallb is_alpha (list_ascii_of_string letters) = true ->
  is_alpha c = false ->
  span_alpha (letters ++ String c rest) = (letters, String c rest).
Proof.
  intros Hl Hc. induction letters as [|a letters IH].
  - cbn [append span_alpha]. rewrite Hc. reflexivity.
  - cbn [list_ascii_of_string forallb] in Hl.
    apply andb_true_iff in Hl. destruct Hl as [Ha Hl].
    cbn [append span_alpha]. rewrite Ha, (IH Hl). reflexivity.
Qed.

Lemma span_alpha_all (letters : string) :
  forallb is_alpha (list_ascii_of_string letters) = true ->
  span_alpha letters = (letters, EmptyString).
Proof.
  intros Hl. induction letters as [|a letters IH].
  - reflexivity.
  - cbn [list_ascii_of_string forallb] in Hl.
    apply andb_true_iff in Hl. destruct Hl as [Ha Hl].
    cbn [span_alpha]. rewrite Ha, (IH Hl). reflexivity.
Qed.

(** Every column from A to ZZZ has letters that read back as it. *)
Lemma columns_read_back :
  forallb column_reads_back (map Z.of_nat (seq 1 (Z.to_nat last_column)))
  = true.
Proof. vm_compute. reflexivity. Qed.

Lemma column_reads_back_in_range (c : Z) :
  1 <= c <= last_column -> column_reads_back c = true.
Proof.
  intros H. apply (proj1 (forallb_forall _ _) columns_read_back).
  rewrite <- (Z2Nat.id c) by lia. apply in_map. apply in_seq.
  unfold last_column in *. lia.
Qed.

Lemma coordinate_of_cell_decodes (sheet : Worksheet) (r c : nat) :
  (1 <= r)%nat ->
  Str.len (Str.of_Z (Z.of_nat r)) <= Str.int_max_str_digits ->
  1 <= Z.of_nat c <= last_column ->
  exc_coord_to_rc (VStr (coordinate (cell_at sheet r c)))
  = Ok (Z.of_nat r, Z.of_nat c).
Proof.
  intros Hr Hdig Hc. cbn [cell_at coordinate].
  pose proof (column_reads_back_in_range (Z.of_nat c) Hc) as Hcol.
  unfold column_reads_back in Hcol.
  apply andb_true_iff in Hcol. destruct Hcol as [Halpha Hidx].
  destruct (column_index_from_string (get_column_letter (Z.of_nat c)))
    as [c'|e] eqn:Eidx; [|discriminate Hidx].
  apply Z.eqb_eq in Hidx. subst c'.
  destruct (Z.of_nat r) as [|p|p] eqn:Ep; try lia.
  destruct (of_Z_pos_head p) as [d [ds [Ed Hd]]].
  destruct (digit_not_alpha d Hd) as [Hna Hnd].
  assert (Hspan : Str.span_digits (Str.of_Z (Z.pos p))
                  = (Str.of_Z (Z.pos p), EmptyString)).
  { rewrite of_Z_pos.
    pose proof (span_digits_uint (Pos.to_uint p) EmptyString) as H.
    cbn [Str.span_digits fst snd] in H.
    assert (A : forall x : string, (x ++ "")%string = x).
    { induction x; [reflexivity|cbn [append]; rewrite IHx; reflexivity]. }
    rewrite !A in H. exact H. }
  assert (Hlen : (1 <=? Str.len (get_column_letter (Z.of_nat c)))
                 && (Str.len (get_column_letter (Z.of_nat c)) <=? 3) = true).
  { unfold column_index_from_string in Eidx.
    destruct ((1 <=? Str.len (get_column_letter (Z.of_nat c)))
              && (Str.len (get_column_letter (Z.of_nat c)) <=? 3));
      [reflexivity|].
    cbn [andb] in Eidx. discriminate Eidx. }
  assert (Hcoord :
           coordinate_from_string
             (get_column_letter (Z.of_nat c) ++ Str.of_Z (Z.pos p))
           = Ok (get_column_letter (Z.of_nat c), Z.pos p)).
  { unfold coordinate_from_string.
    assert (Hsk : skip_dollar
                    (get_column_letter (Z.of_nat c) ++ Str.of_Z (Z.pos p))
                  = (get_column_letter (Z.of_nat c) ++ Str.of_Z (Z.pos p))
                      %string).
    { destruct (get_column_letter (Z.of_nat c)) as [|a rest] eqn:El.
      - cbn in Hlen. discriminate Hlen.
      - cbn [list_ascii_of_string forallb] in Halpha.
        apply andb_true_iff in Halpha. destruct Halpha as [Ha _].
        cbn [append skip_dollar].
        destruct a as [[] [] [] [] [] [] [] []]; try reflexivity.
        vm_compute in Ha. discriminate Ha. }
    rewrite Hsk. rewrite Ed at 1.
    rewrite (span_alpha_app _ ds d Halpha Hna). rewrite <- Ed.
    assert (Hsk2 : skip_dollar (Str.of_Z (Z.pos p)) = Str.of_Z (Z.pos p)).
    { rewrite Ed. cbn [skip_dollar].
      destruct d as [[] [] [] [] [] [] [] []]; try reflexivity.
      contradiction Hnd; reflexivity. }
    rewrite Hsk2, Hspan, Hlen. rewrite Ed at 1.
    cbn [Str.is_empty negb andb orb].
    assert (Hlim : (Str.int_max_str_digits <? Str.len (Str.of_Z (Z.pos p)))
                   = false).
    { apply Z.ltb_ge. exact Hdig. }
    rewrite Hlim, digits_to_Z_of_Z. reflexivity. }
  unfold exc_coord_to_rc. cbn [truthy].
  assert (Hne : Str.is_empty
                  (get_column_letter (Z.of_nat c) ++ Str.of_Z (Z.pos p))
                = false).
  { destruct (get_column_letter (Z.of_nat c)); [|reflexivity].
    cbn [append]. rewrite Ed. reflexivity. }
  rewrite Hne. cbn [negb]. rewrite Hcoord. cbn [bind fst snd].
  rewrite Eidx. reflexivity.
Qed.

(** X11. The coordinate of the cell at a row from 1 on, of no more
    digits than [int] reads (4300), and a column from 1 to 18278 (A to
    ZZZ), as the scan of a sheet reports it, decodes to that row and
    column. *)
Theorem cell_coordinate_decodes (sheet : Worksheet) (r c : nat) :
  (1 <= r)%nat ->
  Str.len (Str.of_Z (Z.of_nat r)) <= Str.int_max_str_digits ->
  1 <= Z.of_nat c <= last_column ->
  exc_coord_to_rc (VStr (coordinate (cell_at sheet r c)))
  = Ok (Z.of_nat r, Z.of_nat c).
Proof. exact (coordinate_of_cell_decodes sheet r c). Qed.

Lemma cell_coordinate_decodes_witness :
  exc_coord_to_rc (VStr (coordinate (cell_at numbers_sheet 501 1379)))
  = Ok (501, 1379).
Proof.
  apply (cell_coordinate_decodes numbers_sheet 501 1379).
  - lia.
  - vm_compute. discriminate.
  - vm_compute. split; discriminate.
Defined.

Lemma span_digits_digits (s : string) :
  forallb Str.is_digit (list_ascii_of_string (fst (Str.span_digits s)))
  = true.
Proof.
  induction s as [|c s IH]; [reflexivity|].
  cbn [Str.span_digits]. destruct (Str.is_digit c) eqn:E; [|reflexivity].
  destruct (Str.span_digits s) as [ds rest].
  cbn [fst list_ascii_of_string forallb] in *. rewrite E, IH. reflexivity.
Qed.

Lemma span_alpha_letters (s : string) :
  forallb is_alpha (list_ascii_of_string (fst (span_alpha s))) = true.
Proof.
  induction s as [|c s IH]; [reflexivity|].
  cbn [span_alpha]. destruct (is_alpha c) eqn:E; [|reflexivity].
  destruct (span_alpha s) as [ls rest].
  cbn [fst list_ascii_of_string forallb] in *. rewrite E, IH. reflexivity.
Qed.

Lemma digits_nonneg (l : list ascii) (acc : Z) :
  forallb Str.is_digit l = true -> 0 <= acc ->
  0 <= fold_left digit_step l acc.
Proof.
  revert acc. induction l as [|c l IH]; intros acc Hl Hacc.
  - exact Hacc.
  - cbn [forallb] in Hl. apply andb_true_iff in Hl. destruct Hl as [Hc Hl].
    cbn [fold_left]. apply IH; [exact Hl|].
    unfold digit_step. unfold Str.is_digit in Hc.
    apply andb_true_iff in Hc. destruct Hc as [H1 H2].
    apply Nat.leb_le in H1, H2. lia.
Qed.

Lemma letter_value_bounds (c : ascii) :
  is_alpha c = true -> 1 <= letter_value c <= 26.
Proof.
  unfold is_alpha, letter_value. intros H.
  apply orb_true_iff in H.
  destruct (Z.of_nat (nat_of_ascii c) <? 97) eqn:E;
    [apply Z.ltb_lt in E|apply Z.ltb_ge in E];
    destruct H as [H|H]; apply andb_true_iff in H; destruct H as [H1 H2];
    apply Nat.leb_le in H1, H2; lia.
Qed.

(** Up to three letters read as a column from 1 to 18278. *)
Lemma column_index_bounds (str_col : string) (col : Z) :
  column_index_from_string str_col = Ok col -> 1 <= col <= last_column.
Proof.
  unfold column_index_from_string, last_column.
  set (step := fun acc c => 26 * acc + letter_value c).
  destruct ((1 <=? Str.len str_col) && (Str.len str_col <=? 3)) eqn:Elen;
    [|discriminate].
  cbn [andb].
  destruct (Str.is_empty (snd (span_alpha str_col))) eqn:Ealpha;
    [|discriminate].
  intros E. injection E as <-.
  pose proof (span_alpha_letters str_col) as Hl.
  assert (Hall : fst (span_alpha str_col) = str_col).
  { clear Elen Hl. induction str_col as [|c s IH]; [reflexivity|].
    cbn [span_alpha] in *. destruct (is_alpha c); [|discriminate Ealpha].
    destruct (span_alpha s) as [ls rest]. cbn [fst snd] in *.
    rewrite (IH Ealpha). reflexivity. }
  rewrite Hall in Hl. clear Hall Ealpha.
  apply andb_true_iff in Elen. destruct Elen as [E1 E3].
  apply Z.leb_le in E1, E3. unfold Str.len in *.
  destruct str_col as [|a [|b [|c [|d rest]]]];
    cbn [String.length] in *; try lia;
    cbv beta iota delta [list_ascii_of_string forallb fold_left] in *;
    repeat match goal with
      | H : _ && _ = true |- _ => apply andb_true_iff in H; destruct H
      end;
    repeat match goal with
      | H : is_alpha _ = true |- _ => apply letter_value_bounds in H
      end; subst step; cbv beta; lia.
Qed.

Lemma coordinate_from_string_Ok (s column : string) (row : Z) :
  coordinate_from_string s = Ok (column, row) ->
  1 <= row
  /\ exists col, column_index_from_string column = Ok col.
Proof.
  unfold coordinate_from_string.
  destruct (span_alpha (skip_dollar s)) as [letters s1] eqn:Ea.
  destruct (Str.span_digits (skip_dollar s1)) as [ds s2] eqn:Ed.
  destruct ((1 <=? Str.len letters) && (Str.len letters <=? 3)) eqn:Elen;
    [|discriminate].
  cbn [andb].
  destruct (negb (Str.is_empty ds)
            && (Str.is_empty s2 || (s2 =? String "010" "")%string));
    [|discriminate].
  destruct (Str.int_max_str_digits <? Str.len ds); [discriminate|].
  destruct (Str.digits_to_Z ds =? 0) eqn:E0; [discriminate|].
  intros E. injection E as <- <-. apply Z.eqb_neq in E0. split.
  - pose proof (span_digits_digits (skip_dollar s1)) as Hd.
    rewrite Ed in Hd. cbn [fst] in Hd.
    pose proof (digits_nonneg _ 0 Hd (Z.le_refl 0)) as H.
    unfold Str.digits_to_Z in *.
    change (fun acc c => 10 * acc + (Z.of_nat (nat_of_ascii c) - 48))
      with digit_step in *. lia.
  - pose proof (span_alpha_letters (skip_dollar s)) as Hl.
    rewrite Ea in Hl. cbn [fst] in Hl.
    unfold column_index_from_string.
    rewrite Elen, (span_alpha_all letters Hl). cbn [snd Str.is_empty andb].
    eexists. reflexivity.
Qed.

(** X12. A coordinate that decodes has a row from 1 on and a column from
    1 to 18278: no row 0, no column beyond ZZZ. *)
Theorem decoded_coordinate_bounds (cell_Coord : PyVal) (row col : Z) :
  exc_coord_to_rc cell_Coord = Ok (row, col) ->
  1 <= row /\ 1 <= col <= last_column.
Proof.
  unfold exc_coord_to_rc.
  destruct (negb (truthy cell_Coord)); [discriminate|].
  destruct cell_Coord; try discriminate.
  destruct (coordinate_from_string s) as [[column r]|e] eqn:Ec;
    [|discriminate].
  cbn [bind fst snd].
  destruct (coordinate_from_string_Ok s column r Ec) as [Hr _].
  destruct (column_index_from_string column) as [c|e] eqn:Ei;
    [|discriminate].
  cbn [bind]. intros E. injection E as <- <-.
  split; [exact Hr|exact (column_index_bounds column c Ei)].
Qed.

Lemma decoded_coordinate_bounds_witness :
  1 <= 33 /\ 1 <= 27 <= last_column.
Proof.
  apply (decoded_coordinate_bounds (VStr "AA33") 33 27). reflexivity.
Defined.

Lemma span_alpha_length (s : string) :
  (String.length (snd (span_alpha s)) <= String.length s)%nat.
Proof.
  induction s as [|c s IH]; [apply Nat.le_refl|].
  cbn [span_alpha]. destruct (is_alpha c); [|apply Nat.le_refl].
  destruct (span_alpha s) as [ls rest]. cbn [snd String.length] in *. lia.
Qed.

Lemma span_digits_length (s : string) :
  (String.length (fst (Str.span_digits s)) <= String.length s)%nat.
Proof.
  induction s as [|c s IH]; [apply Nat.le_refl|].
  cbn [Str.span_digits]. destruct (Str.is_digit c); [|cbn; lia].
  destruct (Str.span_digits s) as [ds rest]. cbn [fst String.length] in *.
  lia.
Qed.

Lemma skip_dollar_length (s : string) :
  (String.length (skip_dollar s) <= String.length s)%nat.
Proof.
  destruct s as [|c s]; [apply Nat.le_refl|].
  cbn [skip_dollar].
  destruct c as [[] [] [] [] [] [] [] []]; cbn [String.length]; lia.
Qed.

(** The errors of [coordinate_from_string]. *)
Lemma coordinate_from_string_Raise (s : string) (e : PyExc) :
  coordinate_from_string s = Raise e ->
  e = CellCoordinatesException
  \/ (e = ValueError /\ Str.int_max_str_digits < Str.len s).
Proof.
  unfold coordinate_from_string.
  destruct (span_alpha (skip_dollar s)) as [letters s1] eqn:Ea.
  destruct (Str.span_digits (skip_dollar s1)) as [ds s2] eqn:Ed.
  destruct (_ && _); [|intros E; injection E as <-; left; reflexivity].
  destruct (Str.int_max_str_digits <? Str.len ds) eqn:El.
  - intros E. injection E as <-. right. split; [reflexivity|].
    apply Z.ltb_lt in El.
    pose proof (span_digits_length (skip_dollar s1)) as H1.
    rewrite Ed in H1. cbn [fst] in H1.
    pose proof (skip_dollar_length s1) as H2.
    pose proof (span_alpha_length (skip_dollar s)) as H3.
    rewrite Ea in H3. cbn [snd] in H3.
    pose proof (skip_dollar_length s) as H4.
    unfold Str.len in *. lia.
  - destruct (Str.digits_to_Z ds =? 0); [|discriminate].
    intros E. injection E as <-. left. reflexivity.
Qed.

(** X13. The errors of the decoding: an argument that is false as a
    condition ([None], the empty string, zero) raises [ValueError], before
    the test of the type; another argument that is no string raises
    [TypeError]; a non-empty string that is no coordinate raises the
    worksheet library's [CellCoordinatesException]; the one other error
    of a string is the [ValueError] of [int] on a row of more than 4300
    digits, as for the letter A and 4301 digits. *)
Theorem decoding_errors (cell_Coord : PyVal) :
  (truthy cell_Coord = false ->
   exc_coord_to_rc cell_Coord = Raise ValueError)
  /\ (truthy cell_Coord = true -> type_of cell_Coord <> Tstr ->
      exc_coord_to_rc cell_Coord = Raise TypeError)
  /\ (forall s e,
        truthy (VStr s) = true ->
        exc_coord_to_rc (VStr s) = Raise e ->
        e = CellCoordinatesException
        \/ (e = ValueError /\ Str.int_max_str_digits < Str.len s))
  /\ exc_coord_to_rc (VStr ("A" ++ Str.replicate 4301 "1"))
     = Raise ValueError
  /\ exc_coord_to_rc (VStr "A0") = Raise CellCoordinatesException.
Proof.
  unfold exc_coord_to_rc.
  split; [|split; [|split; [|split; vm_compute; reflexivity]]].
  - intros ->. reflexivity.
  - intros -> Ht. cbn [negb].
    destruct cell_Coord; try reflexivity. contradiction Ht; reflexivity.
  - intros s e -> . cbn [negb].
    destruct (coordinate_from_string s) as [[column r]|e'] eqn:Ec.
    + destruct (coordinate_from_string_Ok s column r Ec) as [_ [c Ei]].
      cbn [bind fst snd]. rewrite Ei. discriminate.
    + cbn [bind]. intros E. injection E as <-.
      exact (coordinate_from_string_Raise s e' Ec).
Qed.

Lemma decoding_errors_witness :
  exc_coord_to_rc VNone = Raise ValueError
  /\ exc_coord_to_rc (VInt 7) = Raise TypeError.
Proof.
  split.
  - exact (proj1 (decoding_errors VNone) eq_refl).
  - apply (proj1 (proj2 (decoding_errors (VInt 7))) eq_refl). discriminate.
Defined.

(** ** More of [is_similar] *)


Lemma existsb_filter {A : Type} (f : A -> bool) (l : list A) :
  existsb f l = negb (is_nil (filter f l)).
Proof.
  induction l as [|a l IH]; [reflexivity|].
  cbn [existsb filter]. destruct (f a); [reflexivity|exact IH].
Qed.

(** X15. The two modes of the call agree: whenever the call without the
    score answers [True], the call with the score returns a match, and
    whenever it answers [False], the call with the score returns
    [(None, None)]; for a single test value and for a list. *)
Theorem similar_modes_agree (float_repr : float -> string) (target : PyVal)
  (test : PyObj) (threshold : float) (b : bool) :
  is_similar float_repr target test threshold false = Ok (SimBool b) ->
  if b
  then is_similar float_repr target test threshold true <> Ok SimNonePair
       /\ exists r, is_similar float_repr target test threshold true = Ok r
  else is_similar float_repr target test threshold true = Ok SimNonePair.
Proof.
  destruct test as [v|l|l].
  - unfold is_similar. rewrite target_text.
    destruct (printable target); [|discriminate].
    destruct v; try discriminate; unfold str_;
      try (destruct (printable _); cbn [bind]; [|discriminate]);
      unfold is_similar_str; intros E; injection E as <-;
      destruct (PrimFloat.leb _ _);
      try (split; [discriminate|eexists; reflexivity]); reflexivity.
  - intros E. rewrite is_similar_of_list.
    unfold is_similar in E. rewrite target_text in E.
    destruct (printable target); [|discriminate E].
    rewrite stripped_strs_printable in E.
    destruct (forallb printable l); [|discriminate E].
    cbn [bind] in E. injection E as <-. rewrite existsb_filter.
    destruct (filter _ _); cbn [is_nil negb].
    + reflexivity.
    + split; [discriminate|eexists; reflexivity].
  - unfold is_similar. rewrite target_text.
    destruct (printable target); discriminate.
Qed.

Lemma similar_modes_agree_witness :
  is_similar (fun _ => "0.0") (VStr "apple")
    (PyList [VStr "appel"; VStr "banana"]) 0.75%float true
  <> Ok SimNonePair
  /\ exists r,
      is_similar (fun _ => "0.0") (VStr "apple")
        (PyList [VStr "appel"; VStr "banana"]) 0.75%float true
      = Ok r.
Proof.
  exact (similar_modes_agree (fun _ => "0.0") (VStr "apple")
           (PyList [VStr "appel"; VStr "banana"]) 0.75%float true eq_refl).
Defined.

Lemma rstrip_by_idem (p : ascii -> bool) (s : string) :
  Str.rstrip_by p (Str.rstrip_by p s) = Str.rstrip_by p s.
Proof.
  induction s as [|c s IH]; [reflexivity|].
  cbn [Str.rstrip_by].
  destruct (Str.is_empty (Str.rstrip_by p s) && p c) eqn:E; [reflexivity|].
  cbn [Str.rstrip_by]. rewrite IH, E. reflexivity.
Qed.

Lemma lstrip_by_head (p : ascii -> bool) (s : string) :
  Str.lstrip_by p s = EmptyString
  \/ exists c r, Str.lstrip_by p s = String c r /\ p c = false.
Proof.
  induction s as [|c s IH]; [left; reflexivity|].
  cbn [Str.lstrip_by]. destruct (p c) eqn:E; [exact IH|].
  right. exists c, s. split; [reflexivity|exact E].
Qed.

Lemma lstrip_by_rstrip (p : ascii -> bool) (c : ascii) (r : string) :
  p c = false ->
  Str.lstrip_by p (Str.rstrip_by p (String c r))
  = Str.rstrip_by p (String c r).
Proof.
  intros E. cbn [Str.rstrip_by]. rewrite E, andb_false_r.
  cbn [Str.lstrip_by]. rewrite E. reflexivity.
Qed.

(** Stripping twice is stripping once. *)
Lemma strip_idem (s : string) : Str.strip (Str.strip s) = Str.strip s.
Proof.
  unfold Str.strip.
  destruct (lstrip_by_head Str.is_space s) as [E|[c [r [E Hc]]]]; rewrite E.
  - reflexivity.
  - rewrite (lstrip_by_rstrip Str.is_space c r Hc). apply rstrip_by_idem.
Qed.

(** X16. The call compares the stripped forms: with the target and the
    test text stripped beforehand, the answer and the score are the same,
    for every threshold. *)
Theorem similar_ignores_outer_blanks (float_repr : float -> string)
  (target test : string) (threshold : float) :
  is_similar float_repr (VStr (Str.strip target))
    (Scalar (VStr (Str.strip test))) threshold false
  = is_similar float_repr (VStr target) (Scalar (VStr test)) threshold false
  /\ is_similar float_repr (VStr (Str.strip target))
       (Scalar (VStr (Str.strip test))) threshold true
     = is_similar float_repr (VStr target) (Scalar (VStr test)) threshold
         true.
Proof.
  cbn [is_similar py_str]. rewrite !strip_idem. split; reflexivity.
Qed.

(** ** [filter_files] *)

Section FilterFilesFacts.

Variable fnmatch : string -> string -> bool.
Variable os_walk : string -> list (string * list string * list string).
Variable pattern : string.

Lemma items_loop_strings (matchPattern : bool) (items : list string)
  (results : list string) :
  items_loop fnmatch pattern matchPattern (map VStr items) results
  = if existsb (selected fnmatch pattern matchPattern) items
    then Raise UnboundLocalError else Ok results.
Proof.
  induction items as [|item items IH]; [reflexivity|].
  cbn [map items_loop existsb].
  destruct (selected fnmatch pattern matchPattern item); [reflexivity|].
  exact IH.
Qed.

(** X17. For a list or a tuple of strings the call never returns a
    path: it returns the empty list when no string is selected, and
    raises an unbound-local error as soon as one is, [full_path] having no
    value in that branch. *)
Theorem filter_files_of_list (matchPattern : bool) (items : list string) :
  filter_files fnmatch os_walk pattern matchPattern
    (PyList (map VStr items))
  = (if existsb (selected fnmatch pattern matchPattern) items
     then Raise UnboundLocalError else Ok [])
  /\ filter_files fnmatch os_walk pattern matchPattern
       (PyTuple (map VStr items))
     = (if existsb (selected fnmatch pattern matchPattern) items
        then Raise UnboundLocalError else Ok []).
Proof.
  cbn [filter_files]. rewrite items_loop_strings.
  destruct (existsb _ _); split; reflexivity.
Qed.

End FilterFilesFacts.

Lemma insert_sorted_perm (x : string) (l : list string) :
  Permutation (insert_sorted x l) (x :: l).
Proof.
  induction l as [|y l IH]; [apply Permutation_refl|].
  cbn [insert_sorted]. destruct (String.leb x y).
  - apply Permutation_refl.
  - apply Permutation_trans with (y :: x :: l).
    + apply perm_skip. exact IH.
    + apply perm_swap.
Qed.

Lemma sorted_perm (l : list string) : Permutation (sorted l) l.
Proof.
  induction l as [|x l IH]; [apply perm_nil|].
  cbn [sorted]. apply Permutation_trans with (x :: sorted l).
  - apply insert_sorted_perm.
  - apply perm_skip. exact IH.
Qed.

Lemma insert_sorted_Sorted (x : string) (l : list string) :
  Sorted (fun a b => String.leb a b = true) l ->
  Sorted (fun a b => String.leb a b = true) (insert_sorted x l).
Proof.
  intros H. induction H as [|y l Hs IH Hd].
  - repeat constructor.
  - cbn [insert_sorted]. destruct (String.leb x y) eqn:E.
    + constructor; [constructor; assumption|constructor; exact E].
    + constructor; [exact IH|].
      assert (Hyx : String.leb y x = true).
      { destruct (String.leb_total x y) as [H|H]; [congruence|exact H]. }
      destruct l as [|z l].
      * constructor. exact Hyx.
      * cbn [insert_sorted]. destruct (String.leb x z).
        -- constructor. exact Hyx.
        -- constructor. inversion Hd; assumption.
Qed.

Lemma sorted_Sorted (l : list string) :
  Sorted (fun a b => String.leb a b = true) (sorted l).
Proof.
  induction l as [|x l IH]; [constructor|].
  cbn [sorted]. apply insert_sorted_Sorted. exact IH.
Qed.

Section FilterFilesWalk.

Variable fnmatch : string -> string -> bool.
Variable os_walk : string -> list (string * list string * list string).
Variable pattern : string.

Lemma files_loop_filter (matchPattern : bool) (root : string)
  (files results : list string) :
  files_loop fnmatch pattern matchPattern root files results
  = (results
     ++ map (path_join root)
          (filter (selected fnmatch pattern matchPattern) files))%list.
Proof.
  revert results. induction files as [|fi files IH]; intros results.
  - cbn. rewrite app_nil_r. reflexivity.
  - cbn [files_loop filter].
    destruct (selected fnmatch pattern matchPattern fi).
    + rewrite IH. cbn [map]. rewrite <- app_assoc. reflexivity.
    + apply IH.
Qed.

Lemma walk_loop_paths (matchPattern : bool)
  (dirs : list (string * list string * list string))
  (results : list string) :
  walk_loop fnmatch pattern matchPattern dirs results
  = (results
     ++ flat_map
          (fun d =>
             map (path_join (fst (fst d)))
               (filter (selected fnmatch pattern matchPattern) (snd d)))
          dirs)%list.
Proof.
  revert results. induction dirs as [|[[root ds] files] dirs IH];
    intros results.
  - cbn. rewrite app_nil_r. reflexivity.
  - cbn [walk_loop flat_map fst snd].
    rewrite IH, files_loop_filter, <- app_assoc. reflexivity.
Qed.

(** X18. For a directory the call returns the full paths of the selected
    files of the walk, each as often as the walk meets it, in increasing
    order. *)
Theorem filter_files_of_directory (matchPattern : bool) (top : string) :
  exists results,
    filter_files fnmatch os_walk pattern matchPattern (Scalar (VStr top))
    = Ok results
    /\ Sorted (fun a b => String.leb a b = true) results
    /\ Permutation results
         (selected_paths fnmatch os_walk pattern matchPattern top).
Proof.
  exists (sorted (selected_paths fnmatch os_walk pattern matchPattern top)).
  cbn [filter_files]. rewrite walk_loop_paths. cbn [app].
  split; [reflexivity|]. split; [apply sorted_Sorted|apply sorted_perm].
Qed.

Lemma selected_false (fi : string) :
  selected fnmatch pattern false fi = negb (selected fnmatch pattern true fi).
Proof. unfold selected. destruct (fnmatch fi pattern); reflexivity. Qed.

Lemma filter_split (f : string -> bool) (g : string -> string)
  (l : list string) :
  Permutation
    (map g (filter f l) ++ map g (filter (fun x => negb (f x)) l))
    (map g l).
Proof.
  induction l as [|x l IH]; [apply perm_nil|].
  cbn [filter map]. destruct (f x); cbn [negb map app].
  - apply perm_skip. exact IH.
  - apply Permutation_trans
      with (g x :: (map g (filter f l)
                    ++ map g (filter (fun x => negb (f x)) l)))%list.
    + apply Permutation_sym. apply Permutation_middle.
    + apply perm_skip. exact IH.
Qed.

Lemma selected_paths_split (top : string) :
  Permutation
    (selected_paths fnmatch os_walk pattern true top
     ++ selected_paths fnmatch os_walk pattern false top)
    (walked_paths os_walk top).
Proof.
  unfold selected_paths, walked_paths.
  induction (os_walk top) as [|d dirs IH]; [apply perm_nil|].
  cbn [flat_map].
  set (A := map (path_join (fst (fst d)))
              (filter (selected fnmatch pattern true) (snd d))).
  set (B := map (path_join (fst (fst d)))
              (filter (selected fnmatch pattern false) (snd d))).
  assert (HAB : Permutation (A ++ B)
                  (map (path_join (fst (fst d))) (snd d))).
  { unfold A, B.
    rewrite (filter_ext (selected fnmatch pattern false)
               (fun x => negb (selected fnmatch pattern true x))
               selected_false).
    apply filter_split. }
  match goal with
  | |- Permutation ((A ++ ?X) ++ (B ++ ?Y)) _ =>
      apply Permutation_trans with ((A ++ B) ++ (X ++ Y))%list
  end.
  - rewrite <- !app_assoc. apply Permutation_app_head.
    rewrite !app_assoc. apply Permutation_app_tail.
    apply Permutation_app_comm.
  - apply Permutation_app; [exact HAB|exact IH].
Qed.

(** X19. For a directory, the result with [matchPattern=True] and the
    result with [matchPattern=False] share out the walked files: every
    full path of the walk is in one of the two, as often as the walk
    meets it. *)
Theorem filter_files_complement (top : string) :
  exists matching others,
    filter_files fnmatch os_walk pattern true (Scalar (VStr top))
    = Ok matching
    /\ filter_files fnmatch os_walk pattern false (Scalar (VStr top))
       = Ok others
    /\ Permutation (matching ++ others) (walked_paths os_walk top).
Proof.
  exists (sorted (selected_paths fnmatch os_walk pattern true top)),
    (sorted (selected_paths fnmatch os_walk pattern false top)).
  cbn [filter_files]. rewrite !walk_loop_paths. cbn [app].
  split; [reflexivity|]. split; [reflexivity|].
  apply Permutation_trans
    with (selected_paths fnmatch os_walk pattern true top
          ++ selected_paths fnmatch os_walk pattern false top)%list.
  - apply Permutation_app; apply sorted_perm.
  - apply selected_paths_split.
Qed.

End FilterFilesWalk.

(** ** Past the checks of [search_excl_val] *)




(** ** From a hit to its place in the sheet *)

Lemma scanned_cell_place (sheet : Worksheet) (c : Cell) :
  In c (List.concat (iter_rows sheet)) ->
  exists row col,
    (1 <= row <= max_row sheet)%nat /\ (1 <= col <= max_column sheet)%nat
    /\ c = cell_at sheet row col.
Proof.
  intros H. apply in_concat in H. destruct H as [cells [Hrow Hc]].
  unfold iter_rows in Hrow. apply in_map_iff in Hrow.
  destruct Hrow as [row [<- Hr]]. apply in_map_iff in Hc.
  destruct Hc as [col [<- Hcol]]. apply in_seq in Hr. apply in_seq in Hcol.
  exists row, col. repeat split; lia.
Qed.

(** X21. The coordinate that a first-hit call returns decodes, with
    [exc_coord_to_rc], to a row and a column of the sheet, and the value
    returned is the value there; for a sheet within the limits of a
    worksheet, 1048576 rows and 18278 columns. *)
Theorem first_hit_coordinate_decodes (float_repr : float -> string)
  (threshold : float) (sheet : Worksheet) (search_targets : list PyVal)
  (return_all_vals : bool) (coord : string) (v : PyVal)
  (seen_cells : list (PyVal * string)) :
  same_data_type search_targets = true ->
  forallb (digits_known float_repr) search_targets = true ->
  Z.of_nat (max_row sheet) <= last_row ->
  Z.of_nat (max_column sheet) <= last_column ->
  search_excl_val_run float_repr sheet search_targets threshold true
    return_all_vals
  = (Ok (FirstHit coord v), seen_cells) ->
  exists row col,
    exc_coord_to_rc (VStr coord) = Ok (Z.of_nat row, Z.of_nat col)
    /\ (1 <= row <= max_row sheet)%nat
    /\ (1 <= col <= max_column sheet)%nat
    /\ value_at sheet row col = v.
Proof.
  intros Hsame Hdig Hlong Hwide Hrun.
  destruct (search_first_hit_sound float_repr threshold sheet search_targets
              return_all_vals coord v seen_cells Hsame Hdig Hrun)
    as [pre [t [c [post [E [_ [_ [-> ->]]]]]]]].
  assert (Hin : In (t, c) (scan_order sheet search_targets)).
  { rewrite E. apply in_or_app. right. left. reflexivity. }
  unfold scan_order in Hin. apply in_prod_iff in Hin.
  destruct (scanned_cell_place sheet c (proj2 Hin))
    as [row [col [Hr [Hc ->]]]].
  exists row, col. split; [|split; [exact Hr|split; [exact Hc|reflexivity]]].
  apply coordinate_of_cell_decodes; [lia|apply row_digits; lia|lia].
Qed.

Lemma first_hit_coordinate_decodes_witness :
  exists row col,
    exc_coord_to_rc (VStr "B2") = Ok (Z.of_nat row, Z.of_nat col)
    /\ (1 <= row <= max_row numbers_sheet)%nat
    /\ (1 <= col <= max_column numbers_sheet)%nat
    /\ value_at numbers_sheet row col = VInt 7.
Proof.
  apply (first_hit_coordinate_decodes (fun _ => "5.04") 0.8%float
           numbers_sheet [VInt 7] false "B2" (VInt 7)
           [(VInt 7, "A1"); (VInt 7, "B1"); (VInt 7, "A2"); (VInt 7, "B2")]
           eq_refl eq_refl).
  - vm_compute. discriminate.
  - vm_compute. discriminate.
  - vm_compute. reflexivity.
Defined.
